(** * telegram-cf-bot: the upload intake pipeline

    A shallow embedding of the Go sources of the bot: the authorization
    roster ([internal/config]), the image validator ([internal/validator]),
    the Cloudflare client ([internal/cloudflare]), the Telegram handlers
    ([internal/bot]) and the earlier top-level packages ([config], [bot],
    [cloudflare]) that the repository still carries.

    Conventions.
    - Go's [int] and [int64] are [Z]; where the code does arithmetic the
      64-bit wrap-around is written out ([Go.wrap64]).
    - [[]byte] is [list Byte.byte], [string] is [string] (a byte string, as
      in Go), [map[K]V] is stdpp's [gmap K V].
    - A Go result [(v, err)] is [error + V]; a bare [error] result is
      [option error] with [None] for [nil].
    - Calls that leave the process (Telegram, HTTP, the file system) and the
      decoders of the standard library are answered by an environment
      record, and every such call is appended to a trace of [Event]s.
      Log output is not part of the trace. *)

From Stdlib Require Import ZArith String Ascii List Lia.
From Stdlib.Strings Require Import Byte.
From stdpp Require Import base option list gmap strings pretty.

Set Warnings "-register-all,-clear-no-such-hyp".

Open Scope string_scope.
Open Scope Z_scope.

(** ** Go's built-ins and the parts of [strings], [fmt], [encoding/hex] in use *)
Module Go.

Definition wrap64 (z : Z) : Z := (z + 2 ^ 63) mod 2 ^ 64 - 2 ^ 63.

(** [a * b] on [int]. *)
Definition int_mul (a b : Z) : Z := wrap64 (a * b).

(** [len(s)] of a slice. *)
Definition len {A} (s : list A) : Z := Z.of_nat (length s).

(** [len(s)] of a string. *)
Definition strlen (s : string) : Z := Z.of_nat (String.length s).

(** [strings.HasPrefix(s, prefix)]. *)
Definition HasPrefix (s prefix : string) : bool := String.prefix prefix s.

Definition is_space (c : ascii) : bool :=
  let n := nat_of_ascii c in
  ((9 <=? n) && (n <=? 13))%nat || (n =? 32)%nat.

Fixpoint trim_left (s : string) : string :=
  match s with
  | String c r => if is_space c then trim_left r else s
  | EmptyString => EmptyString
  end.

(** [strings.TrimSpace(s)], on the ASCII white space (tab, line feed,
    vertical tab, form feed, carriage return, space). *)
Definition TrimSpace (s : string) : string :=
  String.rev (trim_left (String.rev (trim_left s))).

Definition hexdigit (n : N) : ascii :=
  match String.get (N.to_nat n) "0123456789abcdef" with
  | Some c => c
  | None => "0"%char
  end.

(** One of the sixteen digits [hexdigit] produces. *)
Definition isHexDigit (c : ascii) : bool :=
  existsb (Ascii.eqb c) (list_ascii_of_string "0123456789abcdef").

(** [hex.EncodeToString(src)]: two lower-case digits per byte. *)
Fixpoint EncodeToString (src : list Byte.byte) : string :=
  match src with
  | [] => ""
  | b :: r =>
      let n := Byte.to_N b in
      String (hexdigit (n / 16)) (String (hexdigit (n mod 16)) (EncodeToString r))
  end.

(** Operands of [fmt.Sprintf]. *)
Inductive Arg : Type :=
| ArgInt (n : Z)
| ArgStr (s : string)
| ArgStrs (l : list string).

Definition join (sep : string) (l : list string) : string :=
  String.concat sep l.

(** One operand under one verb; an operand the verb does not take prints as
    Go's [%!verb(...)] marker. *)
Definition format_verb (v : ascii) (a : Arg) : string :=
  match a with
  | ArgInt n =>
      if (Ascii.eqb v "d" || Ascii.eqb v "v")%bool then pretty n
      else "%!" +:+ String v ("(int=" +:+ pretty n +:+ ")")
  | ArgStr s =>
      if (Ascii.eqb v "s" || Ascii.eqb v "v")%bool then s
      else "%!" +:+ String v ("(string=" +:+ s +:+ ")")
  | ArgStrs l =>
      if (Ascii.eqb v "s" || Ascii.eqb v "v")%bool then "[" +:+ join " " l +:+ "]"
      else "%!" +:+ String v ("([]string=[" +:+ join " " l +:+ "])")
  end.

(** [fmt.Sprintf(format, args...)] for the verbs [%d], [%s], [%v] and [%%]. *)
Fixpoint Sprintf (format : string) (args : list Arg) : string :=
  match format with
  | EmptyString => EmptyString
  | String c rest =>
      if Ascii.eqb c "%" then
        match rest with
        | EmptyString => "%!(NOVERB)"
        | String v rest' =>
            if Ascii.eqb v "%" then String "%" (Sprintf rest' args)
            else
              match args with
              | [] => "%!" +:+ String v "(MISSING)" +:+ Sprintf rest' []
              | a :: args' => format_verb v a +:+ Sprintf rest' args'
              end
        end
      else String c (Sprintf rest args)
  end.

End Go.

(** ** [internal/errors] *)
Module apperrors.

(** The sentinel errors of the package. *)
Inductive ErrType : Type :=
| ErrInvalidConfig
| ErrUnauthorized
| ErrInvalidImage
| ErrImageTooLarge
| ErrImageTooBig
| ErrUploadFailed
| ErrDownloadFailed
| ErrInvalidFileFormat
| ErrUserNotFound
| ErrUserAlreadyExists
| ErrInvalidUserID
| ErrMissingFileID
| ErrCloudflareAPI.

Definition sentinel (t : ErrType) : string :=
  match t with
  | ErrInvalidConfig => "invalid configuration"
  | ErrUnauthorized => "user not authorized"
  | ErrInvalidImage => "invalid image"
  | ErrImageTooLarge => "image exceeds size limit"
  | ErrImageTooBig => "image dimensions exceed limit"
  | ErrUploadFailed => "image upload failed"
  | ErrDownloadFailed => "file download failed"
  | ErrInvalidFileFormat => "invalid file format"
  | ErrUserNotFound => "user not found in authorized list"
  | ErrUserAlreadyExists => "user already authorized"
  | ErrInvalidUserID => "invalid user ID format"
  | ErrMissingFileID => "no pending upload found"
  | ErrCloudflareAPI => "cloudflare API error"
  end.

(** A Go [error]: a plain message ([errors.New], [fmt.Errorf], whatever a
    library returns) or an [*AppError]. *)
Inductive error : Type :=
| errorString (s : string)
| AppError (Type_ : ErrType) (Message : string) (Cause : option error).

(** The [Error] method of [AppError], and the message of a plain error. *)
Fixpoint Error (e : error) : string :=
  match e with
  | errorString s => s
  | AppError t m cause =>
      match cause with
      | Some c =>
          Go.Sprintf "%s: %s (caused by: %v)"
            [Go.ArgStr (sentinel t); Go.ArgStr m; Go.ArgStr (Error c)]
      | None => Go.Sprintf "%s: %s" [Go.ArgStr (sentinel t); Go.ArgStr m]
      end
  end.

Definition New (errType : ErrType) (message : string) : error :=
  AppError errType message None.

Definition Wrap (errType : ErrType) (message : string) (cause : error) : error :=
  AppError errType message (Some cause).

(** The sentinel an error was built from, when it is an [*AppError]. *)
Definition kind (e : error) : option ErrType :=
  match e with
  | errorString _ => None
  | AppError t _ _ => Some t
  end.

End apperrors.

(** ** [internal/constants] *)
Module constants.

Definition MaxImageDimension : Z := 12000.
Definition MaxImageArea : Z := 100 * 1000 * 1000.
Definition MaxAnimatedArea : Z := 50 * 1000 * 1000.
Definition MaxFileSizeBytes : Z := 10 * 1024 * 1024.
Definition MaxMetadataSizeBytes : Z := 1024.
Definition RandomStringLength : Z := 8.
Definition FilenameTemplate : string := "%d_%d_%s.jpg".

End constants.

(** ** The world outside the process: events and their trace *)
Module world.

(** A value stored under [interface{}] in a metadata map. *)
Inductive Value : Type :=
| VStr (s : string)
| VInt (n : Z).

(** A multipart body: the [file] part, then the fields in the order they
    were written. *)
Record Form : Type := mkForm {
  file_name : string;
  file_data : list Byte.byte;
  fields : list (string * string);
}.

Inductive Event : Type :=
| EvSend (text : string)                                   (* c.Send(text) *)
| EvSendMarkup (text : string) (buttons : list (string * string))
| EvRespond                                                (* c.Respond() *)
| EvEdit (text : string)                                   (* c.Edit(text) *)
| EvBotSend (text : string)                                (* c.Bot().Send(c.Chat(), text) *)
| EvBotEdit (msg : Z) (text : string)                      (* c.Bot().Edit(msg, text) *)
| EvFileByID (fileID : string)                             (* c.Bot().FileByID(fileID) *)
| EvHTTPGet (url : string)                                 (* httpClient.Get(url) *)
| EvReadAll                                                (* io.ReadAll(resp.Body) *)
| EvDecodeConfig                                           (* image.DecodeConfig *)
| EvExifDecode                                             (* exif.Decode *)
| EvJSONMarshal                                            (* json.Marshal *)
| EvJSONUnmarshal                                          (* json.Unmarshal *)
| EvHTTPPost (url : string) (authorization : string) (body : Form)
| EvYAMLMarshal                                            (* yaml.Marshal *)
| EvWriteFile (path : string) (data : list Byte.byte)      (* os.WriteFile *)
| EvPendingPut (userID : Z) (fileID : string)              (* pendingUploads[userID] = fileID *)
| EvPendingDelete (userID : Z).                            (* delete(pendingUploads, userID) *)

(** A computation with its trace. *)
Definition Eff (A : Type) : Type := (list Event * A)%type.

Definition ret {A} (a : A) : Eff A := ([], a).

Definition bind {A B} (m : Eff A) (k : A -> Eff B) : Eff B :=
  let '(t1, a) := m in
  let '(t2, b) := k a in
  ((t1 ++ t2)%list, b).

(** An outside call: the event, and the answer the environment gave. *)
Definition call {A} (e : Event) (answer : A) : Eff A := ([e], answer).

(** The event is no request for a file other than [f]. *)
Definition asksOnly (f : string) (e : Event) : Prop :=
  forall g, e = EvFileByID g -> g = f.

Definition trace {A} (m : Eff A) : list Event := fst m.
Definition result {A} (m : Eff A) : A := snd m.

End world.

Notation "x <- m ;; k" := (world.bind m (fun x => k))
  (at level 100, m at next level, right associativity).
Notation "m ;;; k" := (world.bind m (fun _ => k))
  (at level 100, right associativity).

(** ** [image]: what [image.DecodeConfig] returns *)
Module image.

Record Config : Type := mkConfig {
  Width : Z;
  Height : Z;
}.

End image.

(** ** [github.com/rwcarlsen/goexif/exif]: the tags the validator reads *)
Module exif.
Import apperrors.

Inductive FieldName : Type := Make | Model | DateTime.

Record Tag : Type := mkTag {
  StringVal : error + string;
}.

Record Exif : Type := mkExif {
  Get : FieldName -> error + Tag;
}.

End exif.

(** ** [internal/validator] *)
Module validator.
Import apperrors world.

(** The library functions [Validate] calls. *)
Record Lib : Type := mkLib {
  DecodeConfig : list Byte.byte -> error + (image.Config * string);
  exifDecode : list Byte.byte -> error + exif.Exif;
  jsonMarshal : gmap string Value -> string;
}.

Record Result : Type := mkResult {
  IsValid : bool;
  Format : string;
  Width : Z;
  Height : Z;
  Size : Z;
  Metadata : gmap string Value;
}.

(** [if x, err := exifData.Get(f); err == nil { if str, err := x.StringVal();
    err == nil { metadata[key] = str } }]. *)
Definition setTag (exifData : exif.Exif) (f : exif.FieldName) (key : string)
    (metadata : gmap string Value) : gmap string Value :=
  match exif.Get exifData f with
  | inr x =>
      match exif.StringVal x with
      | inr str => <[key := VStr str]> metadata
      | inl _ => metadata
      end
  | inl _ => metadata
  end.

Definition extractMetadata (lib : Lib) (imageBytes : list Byte.byte)
    (format : string) : Eff (gmap string Value) :=
  let metadata : gmap string Value := {[ "format" := VStr format ]} in
  if negb (String.eqb format "jpeg") then ret metadata
  else
    r <- call EvExifDecode (exifDecode lib imageBytes) ;;
    match r with
    | inl _ => ret metadata
    | inr exifData =>
        let metadata := setTag exifData exif.Make "camera_make" metadata in
        let metadata := setTag exifData exif.Model "camera_model" metadata in
        let metadata := setTag exifData exif.DateTime "date_time" metadata in
        ret metadata
    end.

(** The replacement map of the metadata-size guard. *)
Definition simplified (format : string) (config : image.Config)
    (imageBytes : list Byte.byte) : gmap string Value :=
  <["format" := VStr format]>
    (<["width" := VInt (image.Width config)]>
      (<["height" := VInt (image.Height config)]>
        (<["size" := VInt (Go.len imageBytes)]> ∅))).

Definition Validate (lib : Lib) (imageBytes : list Byte.byte)
    : Eff (error + Result) :=
  if constants.MaxFileSizeBytes <? Go.len imageBytes then
    ret (inl (New ErrImageTooLarge
      (Go.Sprintf "image size %d exceeds limit %d bytes"
         [Go.ArgInt (Go.len imageBytes); Go.ArgInt constants.MaxFileSizeBytes])))
  else
    d <- call EvDecodeConfig (DecodeConfig lib imageBytes) ;;
    match d with
    | inl err => ret (inl (Wrap ErrInvalidImage "failed to decode image" err))
    | inr (config, format) =>
        if (constants.MaxImageDimension <? image.Width config)
           || (constants.MaxImageDimension <? image.Height config) then
          ret (inl (New ErrImageTooBig
            (Go.Sprintf "image dimensions %dx%d exceed limit %d"
               [Go.ArgInt (image.Width config); Go.ArgInt (image.Height config);
                Go.ArgInt constants.MaxImageDimension])))
        else
          let area := Go.int_mul (image.Width config) (image.Height config) in
          let maxArea :=
            if String.eqb format "gif" then constants.MaxAnimatedArea
            else constants.MaxImageArea in
          if maxArea <? area then
            ret (inl (New ErrImageTooBig
              (Go.Sprintf "image area %d exceeds limit %d"
                 [Go.ArgInt area; Go.ArgInt maxArea])))
          else
            metadata <- extractMetadata lib imageBytes format ;;
            metadataJSON <- call EvJSONMarshal (jsonMarshal lib metadata) ;;
            let metadata :=
              if constants.MaxMetadataSizeBytes <? Go.strlen metadataJSON
              then simplified format config imageBytes
              else metadata in
            ret (inr {| IsValid := true;
                        Format := format;
                        Width := image.Width config;
                        Height := image.Height config;
                        Size := Go.len imageBytes;
                        Metadata := metadata |})
    end.

End validator.

(** ** [internal/config]: the authorization roster and its persistence *)
Module config.
Import apperrors world.

Record Config : Type := mkConfig {
  Telegram_BotToken : string;
  Cloudflare_AccountID : string;
  Cloudflare_APIToken : string;
  AuthorizedUsers : list Z;
  AdminID : Z;
  Logging_Level : string;
  Logging_ToFile : bool;
  Logging_FilePath : string;
  configPath : string;
}.

(** [c.AuthorizedUsers = users]. *)
Definition setAuthorizedUsers (c : Config) (users : list Z) : Config :=
  {| Telegram_BotToken := Telegram_BotToken c;
     Cloudflare_AccountID := Cloudflare_AccountID c;
     Cloudflare_APIToken := Cloudflare_APIToken c;
     AuthorizedUsers := users;
     AdminID := AdminID c;
     Logging_Level := Logging_Level c;
     Logging_ToFile := Logging_ToFile c;
     Logging_FilePath := Logging_FilePath c;
     configPath := configPath c |}.

(** [yaml.Marshal] and [os.WriteFile], as the machine answers them. *)
Record FS : Type := mkFS {
  yamlMarshal : Config -> error + list Byte.byte;
  WriteFile : string -> list Byte.byte -> option error;
}.

Definition Save (fs : FS) (c : Config) : Eff (option error) :=
  if String.eqb (configPath c) "" then
    ret (Some (New ErrInvalidConfig "config path not set"))
  else
    m <- call EvYAMLMarshal (yamlMarshal fs c) ;;
    match m with
    | inl err => ret (Some (Wrap ErrInvalidConfig "failed to marshal config" err))
    | inr data =>
        w <- call (EvWriteFile (configPath c) data)
               (WriteFile fs (configPath c) data) ;;
        match w with
        | Some err =>
            ret (Some (Wrap ErrInvalidConfig "failed to write config file" err))
        | None => ret None
        end
    end.

(** [for _, id := range users { if id == userID { return true } }]. *)
Fixpoint inList (users : list Z) (userID : Z) : bool :=
  match users with
  | [] => false
  | id :: rest => if id =? userID then true else inList rest userID
  end.

Definition IsAuthorized (c : Config) (userID : Z) : bool :=
  if userID =? AdminID c then true
  else inList (AuthorizedUsers c) userID.

Definition IsAdmin (c : Config) (userID : Z) : bool :=
  userID =? AdminID c.

(** The receiver is a pointer: the operation returns the configuration it
    leaves behind together with its error. *)
Definition AddAuthorizedUser (fs : FS) (c : Config) (userID : Z)
    : Eff (Config * option error) :=
  if IsAuthorized c userID then
    ret (c, Some (New ErrUserAlreadyExists
           (Go.Sprintf "user %d is already authorized" [Go.ArgInt userID])))
  else
    let c := setAuthorizedUsers c (AuthorizedUsers c ++ [userID])%list in
    r <- Save fs c ;;
    ret (c, r).

(** [for i, id := range users { if id == userID { ...; break } }]: the index
    the loop stops at. *)
Fixpoint indexOf (users : list Z) (userID : Z) (i : nat) : option nat :=
  match users with
  | [] => None
  | id :: rest => if id =? userID then Some i else indexOf rest userID (S i)
  end.

Definition RemoveAuthorizedUser (fs : FS) (c : Config) (userID : Z)
    : Eff (Config * option error) :=
  if userID =? AdminID c then
    ret (c, Some (New ErrInvalidConfig "cannot remove admin user"))
  else
    match indexOf (AuthorizedUsers c) userID 0 with
    | None =>
        ret (c, Some (New ErrUserNotFound
               (Go.Sprintf "user %d is not in authorized list" [Go.ArgInt userID])))
    | Some i =>
        let users := AuthorizedUsers c in
        let c := setAuthorizedUsers c (take i users ++ drop (S i) users)%list in
        r <- Save fs c ;;
        ret (c, r)
    end.

End config.

(** ** The earlier top-level packages [config], [bot] (roster part) *)
Module legacy.
Import apperrors world.

Record Config : Type := mkConfig {
  TelegramBotToken : string;
  CloudflareAccountID : string;
  CloudflareAPIToken : string;
  AuthorizedUserIDs : list Z;
  AdminID : Z;
  LogLevel : string;
  LogToFile : bool;
  LogFilePath : string;
  configPath : string;
}.

Definition setAuthorizedUserIDs (c : Config) (users : list Z) : Config :=
  {| TelegramBotToken := TelegramBotToken c;
     CloudflareAccountID := CloudflareAccountID c;
     CloudflareAPIToken := CloudflareAPIToken c;
     AuthorizedUserIDs := users;
     AdminID := AdminID c;
     LogLevel := LogLevel c;
     LogToFile := LogToFile c;
     LogFilePath := LogFilePath c;
     configPath := configPath c |}.

Record FS : Type := mkFS {
  yamlMarshal : Config -> error + list Byte.byte;
  WriteFile : string -> list Byte.byte -> option error;
}.

(** [logger.LogError(err, msg)]: [fmt.Errorf("%s: %v", msg, err)]. *)
Definition LogError (err : error) (msg : string) : error :=
  errorString (Go.Sprintf "%s: %v" [Go.ArgStr msg; Go.ArgStr (Error err)]).

(** [logger.LogAndReturnError(msg)]. *)
Definition LogAndReturnError (msg : string) : error :=
  errorString (Go.Sprintf msg []).

Definition SaveConfig (fs : FS) (c : Config) : Eff (option error) :=
  m <- call EvYAMLMarshal (yamlMarshal fs c) ;;
  match m with
  | inl err => ret (Some err)
  | inr data =>
      call (EvWriteFile (configPath c) data) (WriteFile fs (configPath c) data)
  end.

Definition IsUserAuthorized (userID : Z) (cfg : Config) : bool :=
  if userID =? AdminID cfg then true
  else config.inList (AuthorizedUserIDs cfg) userID.

Definition IsAdmin (userID : Z) (cfg : Config) : bool :=
  userID =? AdminID cfg.

Definition AddUserToAuthorized (fs : FS) (cfg : Config) (userID : Z)
    : Eff (Config * option error) :=
  if config.inList (AuthorizedUserIDs cfg) userID then
    ret (cfg, Some (errorString "用户已经被授权"))
  else
    let cfg := setAuthorizedUserIDs cfg (AuthorizedUserIDs cfg ++ [userID])%list in
    err <- SaveConfig fs cfg ;;
    match err with
    | Some err => ret (cfg, Some (LogError err "保存配置文件失败"))
    | None => ret (cfg, None)
    end.

Definition RemoveUserFromAuthorized (fs : FS) (cfg : Config) (userID : Z)
    : Eff (Config * option error) :=
  match config.indexOf (AuthorizedUserIDs cfg) userID 0 with
  | None => ret (cfg, Some (errorString "用户不在授权列表中"))
  | Some i =>
      let users := AuthorizedUserIDs cfg in
      let cfg := setAuthorizedUserIDs cfg (take i users ++ drop (S i) users)%list in
      err <- SaveConfig fs cfg ;;
      match err with
      | Some err => ret (cfg, Some (LogError err "保存配置文件失败"))
      | None => ret (cfg, None)
      end
  end.

End legacy.

(** ** [internal/cloudflare]: the upload client *)
Module cloudflare.
Import apperrors world.

Record UploadResponse : Type := mkUploadResponse {
  Success : bool;
  Result_ID : string;
  Result_Filename : string;
  Result_Uploaded : string;
  Result_Variants : list string;
  Errors : list string;                 (* the [Message] of each entry *)
}.

(** The clock, the random source, [net/http] and [encoding/json]. *)
Record Net : Type := mkNet {
  Now : Z;                                              (* time.Now().Unix() *)
  randRead : list Byte.byte;                            (* what rand.Read delivers *)
  NewRequest : string -> option error;                  (* http.NewRequest("POST", url, body) *)
  Do : string -> string -> Form -> error + (Z * (error + list Byte.byte));
  jsonMarshal : gmap string Value -> string;
  jsonUnmarshal : list Byte.byte -> error + UploadResponse;
}.

Record Client : Type := mkClient {
  config : config.Config;
}.

(** [rand.Read(buf)]: the buffer keeps its length; the bytes delivered
    overwrite it from the front. *)
Definition fill (buf src : list Byte.byte) : list Byte.byte :=
  take (length buf) (src ++ drop (length src) buf)%list.

Definition generateFilename (net : Net) (userID : Z) : string :=
  let timestamp := Now net in
  let randomBytes := fill (replicate 4 Byte.x00) (randRead net) in
  let randomStr := Go.EncodeToString randomBytes in
  Go.Sprintf constants.FilenameTemplate
    [Go.ArgInt userID; Go.ArgInt timestamp; Go.ArgStr randomStr].

Definition allowed : gmap string bool :=
  list_to_map
    [("width", true); ("height", true); ("format", true);
     ("file_size", true); ("camera_make", true); ("camera_model", true)].

(** [allowed[k]]: [false] for a key the map does not hold. *)
Definition isAllowed (k : string) : bool := default false (allowed !! k).

Definition filterMetadata (metadata : gmap string Value) : gmap string Value :=
  filter (fun kv : string * Value => Is_true (isAllowed kv.1)) metadata.

(** Writing into a [bytes.Buffer] does not fail, so the error results of the
    multipart writer are left out. [metadata] is [None] for a nil map. *)
Definition buildMultipartBody (net : Net) (imageBytes : list Byte.byte)
    (filename : string) (metadata : option (gmap string Value)) : Eff Form :=
  meta <-
    match metadata with
    | None => ret []
    | Some metadata =>
        let filtered := filterMetadata metadata in
        if 0 <? Z.of_nat (size filtered) then
          metaJSON <- call EvJSONMarshal (jsonMarshal net filtered) ;;
          if Go.strlen metaJSON <? constants.MaxMetadataSizeBytes
          then ret [("metadata", metaJSON)]
          else ret []
        else ret []
    end ;;
  ret {| file_name := filename;
         file_data := imageBytes;
         fields := (meta ++ [("requireSignedURLs", "false")])%list |}.

Definition Upload (net : Net) (c : Client) (imageBytes : list Byte.byte)
    (userID : Z) (metadata : option (gmap string Value))
    : Eff (error + UploadResponse) :=
  let filename := generateFilename net userID in
  body <- buildMultipartBody net imageBytes filename metadata ;;
  let url := Go.Sprintf "https://api.cloudflare.com/client/v4/accounts/%s/images/v1"
               [Go.ArgStr (config.Cloudflare_AccountID (config c))] in
  match NewRequest net url with
  | Some err => ret (inl (Wrap ErrUploadFailed "failed to create request" err))
  | None =>
      let authorization := "Bearer " +:+ config.Cloudflare_APIToken (config c) in
      resp <- call (EvHTTPPost url authorization body)
                (Do net url authorization body) ;;
      match resp with
      | inl err => ret (inl (Wrap ErrUploadFailed "request failed" err))
      | inr (_, respBody) =>
          read <- call EvReadAll respBody ;;
          match read with
          | inl err => ret (inl (Wrap ErrUploadFailed "failed to read response" err))
          | inr respBody =>
              parsed <- call EvJSONUnmarshal (jsonUnmarshal net respBody) ;;
              match parsed with
              | inl err =>
                  ret (inl (Wrap ErrUploadFailed "failed to parse response" err))
              | inr result =>
                  if negb (Success result) then
                    ret (inl (New ErrCloudflareAPI
                      (Go.Sprintf "API errors: %v" [Go.ArgStrs (Errors result)])))
                  else ret (inr result)
              end
          end
      end
  end.

(** [resp] is [None] for a nil pointer. *)
Definition GetImageURL (resp : option UploadResponse) : error + string :=
  match resp with
  | None => inl (New ErrCloudflareAPI "invalid response")
  | Some resp =>
      if negb (Success resp) then inl (New ErrCloudflareAPI "invalid response")
      else
        match Result_Variants resp with
        | [] => inl (New ErrCloudflareAPI "no image variants in response")
        | first :: _ => inr first
        end
  end.

End cloudflare.

(** ** The earlier top-level package [cloudflare] *)
Module legacy_cloudflare.
Import apperrors world.

Record CloudflareResponse : Type := mkCloudflareResponse {
  Result_ID : string;
  Result_Filename : string;
  Result_Uploaded : string;
  Result_Variants : list string;
  Success : bool;
  Errors : list string;
}.

Record Net : Type := mkNet {
  Now : Z;
  randRead : error + list Byte.byte;
  NewRequest : string -> option error;
  Do : string -> string -> Form -> error + (Z * (error + list Byte.byte));
  jsonMarshal : gmap string Value -> error + string;
  jsonUnmarshal : list Byte.byte -> error + CloudflareResponse;
}.

(** [fmt.Sprintf("%v", id)]. *)
Definition showValue (v : Value) : string :=
  match v with
  | VStr s => Go.Sprintf "%v" [Go.ArgStr s]
  | VInt n => Go.Sprintf "%v" [Go.ArgInt n]
  end.

(** The [switch key] of the metadata loop. *)
Definition isKept (key : string) : bool :=
  String.eqb key "width" || String.eqb key "height" || String.eqb key "format"
  || String.eqb key "file_size" || String.eqb key "camera_make"
  || String.eqb key "camera_model".

Definition UploadImage (net : Net) (imageBytes : list Byte.byte) (userID : Z)
    (metadata : option (gmap string Value)) (cfg : legacy.Config)
    : Eff (error + CloudflareResponse) :=
  let timestamp := Now net in
  match randRead net with
  | inl err => ret (inl (legacy.LogError err "生成随机字符串失败"))
  | inr delivered =>
      let randomBytes := cloudflare.fill (replicate 4 Byte.x00) delivered in
      let randomStr := Go.EncodeToString randomBytes in
      let filename := Go.Sprintf "%d_%d_%s.jpg"
                        [Go.ArgInt userID; Go.ArgInt timestamp; Go.ArgStr randomStr] in
      formFields <-
        match metadata with
        | None => ret []
        | Some metadata =>
            let idField :=
              match metadata !! "id" with
              | Some id =>
                  if negb (String.eqb (showValue id) "") then [("id", showValue id)]
                  else []
              | None => []
              end in
            let filteredMetadata :=
              filter (fun kv : string * Value => Is_true (isKept kv.1)) metadata in
            metaField <-
              (if 0 <? Z.of_nat (size filteredMetadata) then
                 metadataBytes <- call EvJSONMarshal (jsonMarshal net filteredMetadata) ;;
                 match metadataBytes with
                 | inr metadataBytes =>
                     if Go.strlen metadataBytes <? 1024
                     then ret [("metadata", metadataBytes)]
                     else ret []
                 | inl _ => ret []
                 end
               else ret []) ;;
            ret (idField ++ [("requireSignedURLs", "false")] ++ metaField)%list
        end ;;
      let requestBody := {| file_name := filename;
                            file_data := imageBytes;
                            fields := formFields |} in
      let apiURL := Go.Sprintf "https://api.cloudflare.com/client/v4/accounts/%s/images/v1"
                      [Go.ArgStr (legacy.CloudflareAccountID cfg)] in
      match NewRequest net apiURL with
      | Some err => ret (inl (legacy.LogError err "创建HTTP请求失败"))
      | None =>
          let authorization := "Bearer " +:+ legacy.CloudflareAPIToken cfg in
          resp <- call (EvHTTPPost apiURL authorization requestBody)
                    (Do net apiURL authorization requestBody) ;;
          match resp with
          | inl err => ret (inl (legacy.LogError err "发送HTTP请求失败"))
          | inr (_, respBody) =>
              read <- call EvReadAll respBody ;;
              match read with
              | inl err => ret (inl (legacy.LogError err "读取响应失败"))
              | inr responseBody =>
                  parsed <- call EvJSONUnmarshal (jsonUnmarshal net responseBody) ;;
                  match parsed with
                  | inl err => ret (inl (legacy.LogError err "解析JSON响应失败"))
                  | inr cfResponse =>
                      if negb (Success cfResponse) then
                        ret (inl (errorString
                          (Go.Sprintf "Cloudflare API 错误: %v"
                             [Go.ArgStrs (Errors cfResponse)])))
                      else ret (inr cfResponse)
                  end
              end
          end
      end
  end.

Definition GetImageURL (response : option CloudflareResponse) : error + string :=
  match response with
  | None => inl (legacy.LogAndReturnError "无效的Cloudflare响应")
  | Some response =>
      if negb (Success response) then
        inl (legacy.LogAndReturnError "无效的Cloudflare响应")
      else
        match Result_Variants response with
        | [] => inl (legacy.LogAndReturnError "响应中没有图片URL")
        | imageURL :: _ => inr imageURL
        end
  end.

End legacy_cloudflare.

(** ** [gopkg.in/telebot.v3]: what the handlers read from an update *)
Module telebot.
Import apperrors.

Record User : Type := mkUser {
  ID : Z;
  Username : string;
}.

Record Photo : Type := mkPhoto {
  Photo_FileID : string;
}.

Record Document : Type := mkDocument {
  Document_FileID : string;
  MIME : string;
}.

Record Callback : Type := mkCallback {
  Data : string;
}.

(** A [telebot.Context]: the update, and the answers of the Telegram API to
    the calls made through it. A failed [Bot().Send] leaves the message nil. *)
Record Context : Type := mkContext {
  Sender : User;
  Message_Photo : option Photo;
  Message_Document : option Document;
  Callback_ : option Callback;
  Text : string;
  Send : string -> option error;
  Edit : string -> option error;
  Bot_Send : string -> error + Z;
  Bot_Edit : Z -> string -> option error;
  Bot_URL : string;
  Bot_Token : string;
  Bot_FileByID : string -> error + string;      (* the file's FilePath *)
}.

End telebot.

(** ** [internal/bot]: the handlers *)
Module bot.
Import apperrors world telebot.

Definition nl : string := String (ascii_of_nat 10) EmptyString.

Definition msgUnauthorized : string := "抱歉，您没有使用此机器人的权限。".
Definition msgNoPhoto : string := "未检测到图片".
Definition msgNoDocument : string := "未检测到文件".
Definition msgNotImage : string := "请发送图片文件，不支持其他类型的文件。".
Definition msgConfirm : string := "您发送的是压缩图片，可能会损失质量。确定要上传吗？".
Definition msgNoPending : string := "错误：未找到待处理的图片，请重新发送。".
Definition msgProcessing : string := "正在处理图片...".
Definition msgCancelled : string := "已取消上传。".
Definition msgUnknown : string := "未知的操作。".
Definition msgDownloading : string := "正在下载图片...".
Definition msgNoFileInfo : string := "错误：无法获取文件信息。".
Definition msgNoDownload : string := "错误：无法下载文件。".
Definition msgNoRead : string := "错误：读取文件失败。".
Definition msgValidating : string := "正在验证图片...".
Definition msgUploading : string := "正在上传到 Cloudflare...".
Definition fmtValidationFailed : string := "❌ 验证失败: %s".
Definition fmtUploadFailed : string := "❌ 上传失败: %s".
Definition fmtURLFailed : string := "❌ 获取图片URL失败: %s".
Definition fmtSuccess : string := "✅ 上传成功！" +:+ nl +:+ nl +:+ "图片URL:" +:+ nl +:+ "%s".

(** The inline keyboard of the confirmation prompt: label and callback data. *)
Definition confirmButtons : list (string * string) :=
  [("确认上传", "confirm_upload"); ("取消", "cancel_upload")].

(** What the process reaches besides Telegram. *)
Record Env : Type := mkEnv {
  httpGet : string -> error + (error + list Byte.byte);
  lib : validator.Lib;
  net : cloudflare.Net;
}.

Record Bot : Type := mkBot {
  config : config.Config;
  pendingUploads : gmap Z string;
}.

Definition setPendingUploads (b : Bot) (p : gmap Z string) : Bot :=
  {| config := config b; pendingUploads := p |}.

Definition cfClient (b : Bot) : cloudflare.Client :=
  {| cloudflare.config := config b |}.

(** [if msg != nil { c.Bot().Edit(msg, text) }], the result dropped. *)
Definition editStatus (c : Context) (msg : option Z) (text : string) : Eff unit :=
  match msg with
  | Some m => call (EvBotEdit m text) (Bot_Edit c m text) ;;; ret tt
  | None => ret tt
  end.

Definition processImageUpload (env : Env) (b : Bot) (c : Context)
    (fileID : string) : Eff (option error) :=
  let userID := ID (Sender c) in
  sent <- call (EvBotSend msgDownloading) (Bot_Send c msgDownloading) ;;
  let msg := match sent with inr m => Some m | inl _ => None end in
  file <- call (EvFileByID fileID) (Bot_FileByID c fileID) ;;
  match file with
  | inl err =>
      editStatus c msg msgNoFileInfo ;;;
      ret (Some (Wrap ErrDownloadFailed "failed to get file info" err))
  | inr filePath =>
      let fileURL := Go.Sprintf "%s/file/bot%s/%s"
                       [Go.ArgStr (Bot_URL c); Go.ArgStr (Bot_Token c);
                        Go.ArgStr filePath] in
      resp <- call (EvHTTPGet fileURL) (httpGet env fileURL) ;;
      match resp with
      | inl err =>
          editStatus c msg msgNoDownload ;;;
          ret (Some (Wrap ErrDownloadFailed "failed to download file" err))
      | inr body =>
          read <- call EvReadAll body ;;
          match read with
          | inl err =>
              editStatus c msg msgNoRead ;;;
              ret (Some (Wrap ErrDownloadFailed "failed to read file" err))
          | inr imageBytes =>
              editStatus c msg msgValidating ;;;
              validated <- validator.Validate (lib env) imageBytes ;;
              match validated with
              | inl err =>
                  editStatus c msg
                    (Go.Sprintf fmtValidationFailed [Go.ArgStr (Error err)]) ;;;
                  ret (Some err)
              | inr validationResult =>
                  editStatus c msg msgUploading ;;;
                  uploaded <- cloudflare.Upload (net env) (cfClient b) imageBytes
                                userID (Some (validator.Metadata validationResult)) ;;
                  match uploaded with
                  | inl err =>
                      editStatus c msg
                        (Go.Sprintf fmtUploadFailed [Go.ArgStr (Error err)]) ;;;
                      ret (Some err)
                  | inr uploadResp =>
                      match cloudflare.GetImageURL (Some uploadResp) with
                      | inl err =>
                          editStatus c msg
                            (Go.Sprintf fmtURLFailed [Go.ArgStr (Error err)]) ;;;
                          ret (Some err)
                      | inr imageURL =>
                          let successText :=
                            Go.Sprintf fmtSuccess [Go.ArgStr imageURL] in
                          match msg with
                          | Some m =>
                              call (EvBotEdit m successText) (Bot_Edit c m successText)
                          | None =>
                              call (EvSend successText) (Send c successText)
                          end
                      end
                  end
              end
          end
      end
  end.

(** A handler leaves the bot it ran on and returns its error. *)
Definition handlePhoto (env : Env) (b : Bot) (c : Context)
    : Eff (Bot * option error) :=
  let userID := ID (Sender c) in
  if negb (config.IsAuthorized (config b) userID) then
    r <- call (EvSend msgUnauthorized) (Send c msgUnauthorized) ;;
    ret (b, r)
  else
    match Message_Photo c with
    | None =>
        r <- call (EvSend msgNoPhoto) (Send c msgNoPhoto) ;;
        ret (b, r)
    | Some photo =>
        call (EvPendingPut userID (Photo_FileID photo)) tt ;;;
        let b := setPendingUploads b
                   (<[userID := Photo_FileID photo]> (pendingUploads b)) in
        r <- call (EvSendMarkup msgConfirm confirmButtons) (Send c msgConfirm) ;;
        ret (b, r)
    end.

Definition handleDocument (env : Env) (b : Bot) (c : Context)
    : Eff (Bot * option error) :=
  let userID := ID (Sender c) in
  if negb (config.IsAuthorized (config b) userID) then
    r <- call (EvSend msgUnauthorized) (Send c msgUnauthorized) ;;
    ret (b, r)
  else
    match Message_Document c with
    | None =>
        r <- call (EvSend msgNoDocument) (Send c msgNoDocument) ;;
        ret (b, r)
    | Some doc =>
        if negb (Go.HasPrefix (MIME doc) "image/") then
          r <- call (EvSend msgNotImage) (Send c msgNotImage) ;;
          ret (b, r)
        else
          r <- processImageUpload env b c (Document_FileID doc) ;;
          ret (b, r)
    end.

Definition handleCallback (env : Env) (b : Bot) (c : Context)
    : Eff (Bot * option error) :=
  match Callback_ c with
  | None => ret (b, None)
  | Some callback =>
      let userID := ID (Sender c) in
      call EvRespond tt ;;;
      let data := Go.TrimSpace (Data callback) in
      if String.eqb data "confirm_upload" then
        match pendingUploads b !! userID with
        | None =>
            r <- call (EvEdit msgNoPending) (Edit c msgNoPending) ;;
            ret (b, r)
        | Some fileID =>
            call (EvPendingDelete userID) tt ;;;
            let b := setPendingUploads b (delete userID (pendingUploads b)) in
            call (EvEdit msgProcessing) (Edit c msgProcessing) ;;;
            r <- processImageUpload env b c fileID ;;
            ret (b, r)
        end
      else if String.eqb data "cancel_upload" then
        call (EvPendingDelete userID) tt ;;;
        let b := setPendingUploads b (delete userID (pendingUploads b)) in
        r <- call (EvEdit msgCancelled) (Edit c msgCancelled) ;;
        ret (b, r)
      else
        r <- call (EvEdit msgUnknown) (Edit c msgUnknown) ;;
        ret (b, r)
  end.

End bot.

(** ** The earlier top-level package [bot]: the callback handler *)
Module legacy_bot.
Import apperrors world telebot.

Definition msgNoPending : string := "错误：未找到待处理的图片，请重新发送图片。".
Definition msgProcessing : string := "好的，正在处理图片...".
Definition msgCancelled : string := "已取消上传。".
Definition msgUnknown : string := "未知的操作。".

Record Bot : Type := mkBot {
  cfg : legacy.Config;
  pendingUploads : gmap Z string;
}.

Definition setPendingUploads (b : Bot) (p : gmap Z string) : Bot :=
  {| cfg := cfg b; pendingUploads := p |}.

Section HandleCallbackQuery.

(** The download, validate and upload function of the package. It reads
    [b.cfg] and never [b.pendingUploads], so the handler takes it as given. *)
Variable processImageUpload : legacy.Config -> Context -> string -> Eff (option error).

Definition HandleCallbackQuery (b : Bot) (c : Context) : Eff (Bot * option error) :=
  match Callback_ c with
  | None => ret (b, None)
  | Some callback =>
      let userID := ID (Sender c) in
      call EvRespond tt ;;;
      let data := Go.TrimSpace (Data callback) in
      if String.eqb data "confirm_upload" then
        match pendingUploads b !! userID with
        | None =>
            r <- call (EvEdit msgNoPending) (Edit c msgNoPending) ;;
            ret (b, r)
        | Some fileID =>
            call (EvPendingDelete userID) tt ;;;
            let b := setPendingUploads b (delete userID (pendingUploads b)) in
            call (EvEdit msgProcessing) (Edit c msgProcessing) ;;;
            r <- processImageUpload (cfg b) c fileID ;;
            ret (b, r)
        end
      else if String.eqb data "cancel_upload" then
        call (EvPendingDelete userID) tt ;;;
        let b := setPendingUploads b (delete userID (pendingUploads b)) in
        r <- call (EvEdit msgCancelled) (Edit c msgCancelled) ;;
        ret (b, r)
      else
        r <- call (EvEdit msgUnknown) (Edit c msgUnknown) ;;
        ret (b, r)
  end.

End HandleCallbackQuery.

End legacy_bot.

(** ** A sample machine, for running the model on concrete inputs *)
Module sample.
Import apperrors world.

Definition u8 (b : Byte.byte) : Z := Z.of_N (Byte.to_N b).
Definition be16 (b0 b1 : Byte.byte) : Z := u8 b0 * 256 + u8 b1.
Definition le16 (b0 b1 : Byte.byte) : Z := u8 b0 + u8 b1 * 256.
Definition be32 (b0 b1 b2 b3 : Byte.byte) : Z :=
  ((u8 b0 * 256 + u8 b1) * 256 + u8 b2) * 256 + u8 b3.

(** A header reader in the manner of [image.DecodeConfig]: the PNG signature
    and IHDR chunk, the GIF logical screen descriptor, or a JPEG whose frame
    header follows the start-of-image marker. *)
Definition DecodeConfig (b : list Byte.byte) : error + (image.Config * string) :=
  match b with
  | x89 :: x50 :: x4e :: x47 :: x0d :: x0a :: x1a :: x0a
      :: _ :: _ :: _ :: _ :: x49 :: x48 :: x44 :: x52
      :: w0 :: w1 :: w2 :: w3 :: h0 :: h1 :: h2 :: h3 :: _ =>
      inr ({| image.Width := be32 w0 w1 w2 w3;
              image.Height := be32 h0 h1 h2 h3 |}, "png")
  | x47 :: x49 :: x46 :: x38 :: x39 :: x61 :: w0 :: w1 :: h0 :: h1 :: _ =>
      inr ({| image.Width := le16 w0 w1; image.Height := le16 h0 h1 |}, "gif")
  | xff :: xd8 :: xff :: xc0 :: _ :: _ :: _ :: h0 :: h1 :: w0 :: w1 :: _ =>
      inr ({| image.Width := be16 w0 w1; image.Height := be16 h0 h1 |}, "jpeg")
  | _ => inl (errorString "image: unknown format")
  end.

Definition pngHeader (w0 w1 w2 w3 h0 h1 h2 h3 : Byte.byte) : list Byte.byte :=
  [x89; x50; x4e; x47; x0d; x0a; x1a; x0a; x00; x00; x00; x0d;
   x49; x48; x44; x52; w0; w1; w2; w3; h0; h1; h2; h3].

Definition jpegHeader (h0 h1 w0 w1 : Byte.byte) : list Byte.byte :=
  [xff; xd8; xff; xc0; x00; x11; x08; h0; h1; w0; w1].

(** A payload one byte over the size limit, and a PNG of 12000 x 12000
    pixels padded past the limit. *)
Definition oversize : list Byte.byte :=
  replicate (Z.to_nat (constants.MaxFileSizeBytes + 1)) x00.

Definition oversizePNG : list Byte.byte :=
  (pngHeader x00 x00 x2e xe0 x00 x00 x2e xe0
     ++ replicate (Z.to_nat constants.MaxFileSizeBytes) x00)%list.

Definition tagOf (s : string) : error + exif.Tag :=
  inr {| exif.StringVal := inr s |}.

(** A camera that wrote its make, model and capture time. *)
Definition camera : exif.Exif :=
  {| exif.Get := fun f =>
       match f with
       | exif.Make => tagOf "Canon"
       | exif.Model => tagOf "EOS 5D"
       | exif.DateTime => tagOf "2024:01:02 03:04:05"
       end |}.

(** EXIF is found when the payload carries bytes after the frame header. *)
Definition exifDecode (b : list Byte.byte) : error + exif.Exif :=
  if 11 <? Go.len b then inr camera else inl (errorString "EOF").

Definition showValue (v : Value) : string :=
  match v with
  | VStr s => String (ascii_of_nat 34) (s +:+ String (ascii_of_nat 34) "")
  | VInt n => pretty n
  end.

(** A JSON object writer without escaping. *)
Definition jsonMarshal (m : gmap string Value) : string :=
  "{" +:+ Go.join ","
    (map (fun kv : string * Value =>
            String (ascii_of_nat 34) (kv.1 +:+ String (ascii_of_nat 34) (":" +:+ showValue kv.2)))
         (map_to_list m)) +:+ "}".

Definition lib : validator.Lib :=
  {| validator.DecodeConfig := DecodeConfig;
     validator.exifDecode := exifDecode;
     validator.jsonMarshal := jsonMarshal |}.

(** A disk that refuses every write. *)
Definition readOnly : config.FS :=
  {| config.yamlMarshal := fun _ => inr [];
     config.WriteFile := fun _ _ => Some (errorString "read-only file system") |}.

(** What [Save] makes of the refusal. *)
Definition readOnlyError : error :=
  Wrap ErrInvalidConfig "failed to write config file"
    (errorString "read-only file system").

Definition legacyReadOnly : legacy.FS :=
  {| legacy.yamlMarshal := fun _ => inr [];
     legacy.WriteFile := fun _ _ => Some (errorString "read-only file system") |}.

Definition cfg : config.Config :=
  {| config.Telegram_BotToken := "T";
     config.Cloudflare_AccountID := "acct";
     config.Cloudflare_APIToken := "tok";
     config.AuthorizedUsers := [7];
     config.AdminID := 1;
     config.Logging_Level := "info";
     config.Logging_ToFile := false;
     config.Logging_FilePath := "logs/bot.log";
     config.configPath := "config.yaml" |}.

Definition legacyCfg : legacy.Config :=
  {| legacy.TelegramBotToken := "T";
     legacy.CloudflareAccountID := "acct";
     legacy.CloudflareAPIToken := "tok";
     legacy.AuthorizedUserIDs := [7];
     legacy.AdminID := 1;
     legacy.LogLevel := "info";
     legacy.LogToFile := false;
     legacy.LogFilePath := "logs/bot.log";
     legacy.configPath := "config.yaml" |}.

(** The remote service answers success with the given variant URLs. *)
Definition answered (variants : list string) : cloudflare.UploadResponse :=
  {| cloudflare.Success := true;
     cloudflare.Result_ID := "img-1";
     cloudflare.Result_Filename := "f.jpg";
     cloudflare.Result_Uploaded := "2024-01-02T03:04:05Z";
     cloudflare.Result_Variants := variants;
     cloudflare.Errors := [] |}.

Definition net (variants : list string) : cloudflare.Net :=
  {| cloudflare.Now := 1700000000;
     cloudflare.randRead := [xde; xad; xbe; xef];
     cloudflare.NewRequest := fun _ => None;
     cloudflare.Do := fun _ _ _ => inr (200, inr []);
     cloudflare.jsonMarshal := jsonMarshal;
     cloudflare.jsonUnmarshal := fun _ => inr (answered variants) |}.

Definition legacyAnswered : legacy_cloudflare.CloudflareResponse :=
  {| legacy_cloudflare.Result_ID := "img-1";
     legacy_cloudflare.Result_Filename := "f.jpg";
     legacy_cloudflare.Result_Uploaded := "2024-01-02T03:04:05Z";
     legacy_cloudflare.Result_Variants := [];
     legacy_cloudflare.Success := true;
     legacy_cloudflare.Errors := [] |}.

Definition legacyNet : legacy_cloudflare.Net :=
  {| legacy_cloudflare.Now := 1700000000;
     legacy_cloudflare.randRead := inr [xde; xad; xbe; xef];
     legacy_cloudflare.NewRequest := fun _ => None;
     legacy_cloudflare.Do := fun _ _ _ => inr (200, inr []);
     legacy_cloudflare.jsonMarshal := fun m => inr (jsonMarshal m);
     legacy_cloudflare.jsonUnmarshal := fun _ => inl (errorString "unexpected end of JSON input") |}.

(** Telegram serves the payload [payload] for every file. *)
Definition env (payload : list Byte.byte) (variants : list string) : bot.Env :=
  {| bot.httpGet := fun _ => inr (inr payload);
     bot.lib := lib;
     bot.net := net variants |}.

Definition context (userID : Z) (photo : option string)
    (document : option (string * string)) (data : option string) : telebot.Context :=
  {| telebot.Sender := {| telebot.ID := userID; telebot.Username := "user" |};
     telebot.Message_Photo := option_map telebot.mkPhoto photo;
     telebot.Message_Document :=
       option_map (fun d : string * string => telebot.mkDocument d.1 d.2) document;
     telebot.Callback_ := option_map telebot.mkCallback data;
     telebot.Text := "";
     telebot.Send := fun _ => None;
     telebot.Edit := fun _ => None;
     telebot.Bot_Send := fun _ => inr 100;
     telebot.Bot_Edit := fun _ _ => None;
     telebot.Bot_URL := "https://api.telegram.org";
     telebot.Bot_Token := "T";
     telebot.Bot_FileByID := fun fileID => inr ("photos/" +:+ fileID) |}.

(** The same, when Telegram no longer knows the file. *)
Definition offline (userID : Z) (data : option string) : telebot.Context :=
  {| telebot.Sender := {| telebot.ID := userID; telebot.Username := "user" |};
     telebot.Message_Photo := None;
     telebot.Message_Document := None;
     telebot.Callback_ := option_map telebot.mkCallback data;
     telebot.Text := "";
     telebot.Send := fun _ => None;
     telebot.Edit := fun _ => None;
     telebot.Bot_Send := fun _ => inr 100;
     telebot.Bot_Edit := fun _ _ => None;
     telebot.Bot_URL := "https://api.telegram.org";
     telebot.Bot_Token := "T";
     telebot.Bot_FileByID := fun _ => inl (errorString "telegram: file not found") |}.

Definition theBot : bot.Bot :=
  {| bot.config := cfg; bot.pendingUploads := ∅ |}.

(** Caller 7 has sent the photo "p1" and not yet answered the prompt. *)
Definition waiting : bot.Bot :=
  {| bot.config := cfg; bot.pendingUploads := {[ 7 := "p1" ]} |}.

Definition legacyWaiting : legacy_bot.Bot :=
  {| legacy_bot.cfg := legacyCfg; legacy_bot.pendingUploads := {[ 7 := "p1" ]} |}.

(** The payload Telegram serves in the runs below: a 32 x 16 JPEG with EXIF. *)
Definition jpeg : list Byte.byte :=
  (jpegHeader x00 x10 x00 x20 ++ [x00; x01])%list.

Definition served : bot.Env := env jpeg ["https://img.example/1/public"].

(** What [Validate] makes of that payload. *)
Definition validated : validator.Result :=
  {| validator.IsValid := true;
     validator.Format := "jpeg";
     validator.Width := 32;
     validator.Height := 16;
     validator.Size := 13;
     validator.Metadata :=
       <["date_time" := VStr "2024:01:02 03:04:05"]>
         (<["camera_model" := VStr "EOS 5D"]>
           (<["camera_make" := VStr "Canon"]> {[ "format" := VStr "jpeg" ]})) |}.

(** Caller 7 sends the file "d1" as a document. *)
Definition document : telebot.Context :=
  context 7 None (Some ("d1", "image/jpeg")) None.

(** Caller 7 sends photo "a", then photo "b", then presses confirm. *)
Definition photoA : telebot.Context := context 7 (Some "a") None None.
Definition photoB : telebot.Context := context 7 (Some "b") None None.
Definition confirm : telebot.Context := context 7 None None (Some "confirm_upload").

Definition twoPhotos : bot.Bot :=
  (result (bot.handlePhoto served
     (result (bot.handlePhoto served theBot photoA)).1 photoB)).1.

(** Caller 9 is not on the roster. *)
Definition stranger : telebot.Context :=
  context 9 (Some "p9") (Some ("d9", "image/png")) None.

(** A pipeline that fails at its first step. *)
Definition legacyPipeline (cfg : legacy.Config) (c : telebot.Context)
    (fileID : string) : Eff (option error) :=
  call (EvFileByID fileID)
    (Some (legacy.LogError (errorString "telegram: file not found") "获取文件信息失败")).

End sample.

(** ** More of [strings] and [strconv] *)
Module gostrings.

(** [strings.Fields(s)], on the ASCII white space of [Go.is_space]: [word]
    collects the field being read. *)
Fixpoint fieldsFrom (s : string) (word : string) : list string :=
  match s with
  | EmptyString =>
      match word with
      | EmptyString => []
      | _ => [word]
      end
  | String c r =>
      if Go.is_space c then
        match word with
        | EmptyString => fieldsFrom r EmptyString
        | _ => word :: fieldsFrom r EmptyString
        end
      else fieldsFrom r (word +:+ String c EmptyString)
  end.

Definition Fields (s : string) : list string := fieldsFrom s EmptyString.

(** [strings.Index(s, "?")] and the like: the offset of the first byte [c],
    [None] for [-1]. *)
Fixpoint IndexByte (s : string) (c : ascii) : option nat :=
  match s with
  | EmptyString => None
  | String d r =>
      if Ascii.eqb d c then Some 0%nat
      else option_map S (IndexByte r c)
  end.

(** The [Err] of a [*strconv.NumError]. *)
Inductive NumError : Type := ErrSyntax | ErrRange.

Definition maxUint64 : Z := 2 ^ 64 - 1.

Definition digit (c : ascii) : option Z :=
  let n := Z.of_nat (nat_of_ascii c) in
  if (48 <=? n) && (n <=? 57) then Some (n - 48) else None.

(** The loop of [strconv.ParseUint(s, 10, 64)]: a byte that is no digit is a
    syntax error; a value past [maxUint64] a range error, reported at the
    digit that passes it. *)
Fixpoint parseUintFrom (s : string) (n : Z) : NumError + Z :=
  match s with
  | EmptyString => inr n
  | String c r =>
      match digit c with
      | None => inl ErrSyntax
      | Some d =>
          if maxUint64 / 10 + 1 <=? n then inl ErrRange
          else
            let n1 := n * 10 + d in
            if maxUint64 <? n1 then inl ErrRange
            else parseUintFrom r n1
      end
  end.

Definition ParseUint (s : string) : NumError + Z :=
  match s with
  | EmptyString => inl ErrSyntax
  | _ => parseUintFrom s 0
  end.

(** [strconv.ParseInt(s, 10, 64)]. *)
Definition ParseInt (s : string) : NumError + Z :=
  match s with
  | EmptyString => inl ErrSyntax
  | String c r =>
      let neg := Ascii.eqb c "-" in
      let s := if (Ascii.eqb c "+" || neg)%bool then r else s in
      match ParseUint s with
      | inl ErrSyntax => inl ErrSyntax
      | inl ErrRange => inl ErrRange
      | inr un =>
          let cutoff := 2 ^ 63 in
          if negb neg && (cutoff <=? un) then inl ErrRange
          else if neg && (cutoff <? un) then inl ErrRange
          else inr (if neg then - un else un)
      end
  end.

End gostrings.

(** ** [internal/logger]: the part without output *)
Module logger.

Definition sanitizeURL (url : string) : string :=
  match gostrings.IndexByte url "?" with
  | Some idx => String.substring 0 idx url +:+ "?[REDACTED]"
  | None => url
  end.

End logger.

(** ** [internal/config]: loading and validation *)
Module configload.
Import apperrors.

(** [os] and [path/filepath] as the machine answers them, and what
    [yaml.Unmarshal] fills a zero [Config] with. *)
Record OS : Type := mkOS {
  Executable : error + string;
  Dir : string -> string;
  Join : string -> string -> string;
  Stat : string -> option error;
  ReadFile : string -> error + list Byte.byte;
  yamlUnmarshal : list Byte.byte -> error + config.Config;
}.

Definition setConfigPath (c : config.Config) (path : string) : config.Config :=
  {| config.Telegram_BotToken := config.Telegram_BotToken c;
     config.Cloudflare_AccountID := config.Cloudflare_AccountID c;
     config.Cloudflare_APIToken := config.Cloudflare_APIToken c;
     config.AuthorizedUsers := config.AuthorizedUsers c;
     config.AdminID := config.AdminID c;
     config.Logging_Level := config.Logging_Level c;
     config.Logging_ToFile := config.Logging_ToFile c;
     config.Logging_FilePath := config.Logging_FilePath c;
     config.configPath := path |}.

Definition setLogging (c : config.Config) (level filePath : string) : config.Config :=
  {| config.Telegram_BotToken := config.Telegram_BotToken c;
     config.Cloudflare_AccountID := config.Cloudflare_AccountID c;
     config.Cloudflare_APIToken := config.Cloudflare_APIToken c;
     config.AuthorizedUsers := config.AuthorizedUsers c;
     config.AdminID := config.AdminID c;
     config.Logging_Level := level;
     config.Logging_ToFile := config.Logging_ToFile c;
     config.Logging_FilePath := filePath;
     config.configPath := config.configPath c |}.

Definition DefaultLogLevel : string := "info".
Definition DefaultLogFilePath : string := "logs/bot.log".

(** [for _, path := range paths { if _, err := os.Stat(path); err == nil
    { return path } }; return ""]. *)
Fixpoint firstExisting (os : OS) (paths : list string) : string :=
  match paths with
  | [] => ""
  | path :: rest =>
      match Stat os path with
      | None => path
      | Some _ => firstExisting os rest
      end
  end.

Definition findConfigFile (os : OS) : string :=
  let paths := ["config.yaml"; "config.yml"] in
  let paths :=
    match Executable os with
    | inr execPath =>
        let execDir := Dir os execPath in
        (paths ++ [Join os execDir "config.yaml"; Join os execDir "config.yml"])%list
    | inl _ => paths
    end in
  firstExisting os paths.

Definition Validate (c : config.Config) : option error :=
  if String.eqb (config.Telegram_BotToken c) "" then
    Some (New ErrInvalidConfig "telegram.bot_token is required")
  else if String.eqb (config.Cloudflare_AccountID c) "" then
    Some (New ErrInvalidConfig "cloudflare.account_id is required")
  else if String.eqb (config.Cloudflare_APIToken c) "" then
    Some (New ErrInvalidConfig "cloudflare.api_token is required")
  else None.

Definition Load (os : OS) (configPath : string) : error + config.Config :=
  let configPath :=
    if String.eqb configPath "" then findConfigFile os else configPath in
  if String.eqb configPath "" then
    inl (New ErrInvalidConfig "configuration file not found")
  else
    match ReadFile os configPath with
    | inl err => inl (Wrap ErrInvalidConfig "failed to read config file" err)
    | inr data =>
        match yamlUnmarshal os data with
        | inl err => inl (Wrap ErrInvalidConfig "failed to parse config file" err)
        | inr cfg =>
            let cfg := setConfigPath cfg configPath in
            match Validate cfg with
            | Some err => inl err
            | None =>
                let level :=
                  if String.eqb (config.Logging_Level cfg) "" then DefaultLogLevel
                  else config.Logging_Level cfg in
                let filePath :=
                  if String.eqb (config.Logging_FilePath cfg) "" then DefaultLogFilePath
                  else config.Logging_FilePath cfg in
                inr (setLogging cfg level filePath)
            end
        end
    end.

End configload.

(** ** [internal/bot]: the commands *)
Module commands.
Import apperrors world telebot.

Definition msgWelcome : string :=
  "欢迎使用 Cloudflare 图片上传机器人。请以文件形式发送图片以保持最佳质量。".
Definition msgAdminOnly : string := "抱歉，只有管理员可以执行此操作。".
Definition fmtUsage : string := "用法: /%s <用户ID>".
Definition msgInvalidID : string := "无效的用户ID，请输入数字。".
Definition fmtFailed : string := "操作失败: %s".
Definition fmtDone : string := "用户 %d 已成功%s授权列表。".

Definition actionText : gmap string string :=
  list_to_map [("auth", "添加"); ("unauth", "移除")].

Definition setConfig (b : bot.Bot) (c : config.Config) : bot.Bot :=
  {| bot.config := c; bot.pendingUploads := bot.pendingUploads b |}.

Definition handleStart (b : bot.Bot) (c : Context) : Eff (bot.Bot * option error) :=
  let userID := ID (Sender c) in
  if negb (config.IsAuthorized (bot.config b) userID) then
    r <- call (EvSend bot.msgUnauthorized) (Send c bot.msgUnauthorized) ;;
    ret (b, r)
  else
    r <- call (EvSend msgWelcome) (Send c msgWelcome) ;;
    ret (b, r).

(** [operation] works on [b.config], a pointer: the configuration it leaves
    is the bot's from then on. *)
Definition handleUserCommand (b : bot.Bot) (c : Context) (action : string)
    (operation : config.Config -> Z -> Eff (config.Config * option error))
    : Eff (bot.Bot * option error) :=
  let userID := ID (Sender c) in
  if negb (config.IsAdmin (bot.config b) userID) then
    r <- call (EvSend msgAdminOnly) (Send c msgAdminOnly) ;;
    ret (b, r)
  else
    let args := gostrings.Fields (Text c) in
    match args with
    | [_; arg] =>
        match gostrings.ParseInt arg with
        | inl _ =>
            r <- call (EvSend msgInvalidID) (Send c msgInvalidID) ;;
            ret (b, r)
        | inr targetID =>
            done <- operation (bot.config b) targetID ;;
            let b := setConfig b done.1 in
            match done.2 with
            | Some err =>
                let text := Go.Sprintf fmtFailed [Go.ArgStr (Error err)] in
                r <- call (EvSend text) (Send c text) ;;
                ret (b, r)
            | None =>
                let text := Go.Sprintf fmtDone
                  [Go.ArgInt targetID;
                   Go.ArgStr (default "" (actionText !! action))] in
                r <- call (EvSend text) (Send c text) ;;
                ret (b, r)
            end
        end
    | _ =>
        let text := Go.Sprintf fmtUsage [Go.ArgStr action] in
        r <- call (EvSend text) (Send c text) ;;
        ret (b, r)
    end.

Definition handleAuth (fs : config.FS) (b : bot.Bot) (c : Context)
    : Eff (bot.Bot * option error) :=
  handleUserCommand b c "auth" (config.AddAuthorizedUser fs).

Definition handleUnauth (fs : config.FS) (b : bot.Bot) (c : Context)
    : Eff (bot.Bot * option error) :=
  handleUserCommand b c "unauth" (config.RemoveAuthorizedUser fs).

End commands.

(** ** The earlier top-level package [validator] *)
Module legacy_validator.
Import apperrors world.

Definition maxDimension : Z := 12000.
Definition maxArea : Z := 100 * 1000 * 1000.
Definition maxSizeBytes : Z := 10 * 1024 * 1024.
Definition maxMetadataBytes : Z := 1024.
Definition maxAnimatedArea : Z := 50 * 1000 * 1000.

Record ValidationResult : Type := mkValidationResult {
  IsValid : bool;
  Error_ : string;
  Metadata : gmap string Value;
}.

(** The four entries every result carries. *)
Definition basic (format : string) (imgConfig : image.Config)
    (imageBytes : list Byte.byte) (metadata : gmap string Value)
    : gmap string Value :=
  <["file_size" := VInt (Go.len imageBytes)]>
    (<["height" := VInt (image.Height imgConfig)]>
      (<["width" := VInt (image.Width imgConfig)]>
        (<["format" := VStr format]> metadata))).

Definition ValidateImage (lib : validator.Lib) (imageBytes : list Byte.byte)
    : Eff (error + ValidationResult) :=
  if maxSizeBytes <? Go.len imageBytes then
    ret (inl (errorString
      (Go.Sprintf "图片大小超过 %d MB" [Go.ArgInt (maxSizeBytes / 1024 / 1024)])))
  else
    d <- call EvDecodeConfig (validator.DecodeConfig lib imageBytes) ;;
    match d with
    | inl _ => ret (inl (errorString "无法识别的图片格式或文件已损坏"))
    | inr (imgConfig, format) =>
        if (maxDimension <? image.Width imgConfig)
           || (maxDimension <? image.Height imgConfig) then
          ret (inl (errorString
            (Go.Sprintf "图片尺寸超过 %d 像素" [Go.ArgInt maxDimension])))
        else
          let area := Go.int_mul (image.Width imgConfig) (image.Height imgConfig) in
          let maxAreaForFormat :=
            if String.eqb format "gif" then maxAnimatedArea else maxArea in
          if maxAreaForFormat <? area then
            ret (inl (errorString (Go.Sprintf "图片像素面积超过限制" [])))
          else
            metadata <-
              (if String.eqb format "jpeg" then
                 x <- call EvExifDecode (validator.exifDecode lib imageBytes) ;;
                 match x with
                 | inl _ => ret ∅
                 | inr exifData =>
                     let metadata := validator.setTag exifData exif.Make "camera_make" ∅ in
                     let metadata := validator.setTag exifData exif.Model "camera_model" metadata in
                     let metadata := validator.setTag exifData exif.DateTime "date_time" metadata in
                     ret metadata
                 end
               else ret ∅) ;;
            let metadata := basic format imgConfig imageBytes metadata in
            metadataJSON <- call EvJSONMarshal (validator.jsonMarshal lib metadata) ;;
            let metadata :=
              if maxMetadataBytes <? Go.strlen metadataJSON
              then basic format imgConfig imageBytes ∅
              else metadata in
            ret (inr {| IsValid := true; Error_ := ""; Metadata := metadata |})
    end.

End legacy_validator.

(** ** More sample inputs *)
Module fixtures.
Import apperrors world.

Definition disk : config.FS :=
  {| config.yamlMarshal := fun _ => inr [];
     config.WriteFile := fun _ _ => None |}.

(** A machine with [config.yml] in the working directory and nothing else. *)
Definition os (parsed : config.Config) : configload.OS :=
  {| configload.Executable := inr "/opt/bot/telegram-cf-bot";
     configload.Dir := fun _ => "/opt/bot";
     configload.Join := fun d f => d +:+ "/" +:+ f;
     configload.Stat := fun p =>
       if String.eqb p "config.yml" then None
       else Some (errorString "no such file or directory");
     configload.ReadFile := fun _ => inr [];
     configload.yamlUnmarshal := fun _ => inr parsed |}.

(** What the file holds: no logging section. *)
Definition parsed : config.Config :=
  {| config.Telegram_BotToken := "T";
     config.Cloudflare_AccountID := "acct";
     config.Cloudflare_APIToken := "tok";
     config.AuthorizedUsers := [7];
     config.AdminID := 1;
     config.Logging_Level := "";
     config.Logging_ToFile := false;
     config.Logging_FilePath := "";
     config.configPath := "" |}.

(** A message with the given sender and text. *)
Definition message (userID : Z) (text : string) : telebot.Context :=
  {| telebot.Sender := {| telebot.ID := userID; telebot.Username := "user" |};
     telebot.Message_Photo := None;
     telebot.Message_Document := None;
     telebot.Callback_ := None;
     telebot.Text := text;
     telebot.Send := fun _ => None;
     telebot.Edit := fun _ => None;
     telebot.Bot_Send := fun _ => inr 100;
     telebot.Bot_Edit := fun _ _ => None;
     telebot.Bot_URL := "https://api.telegram.org";
     telebot.Bot_Token := "T";
     telebot.Bot_FileByID := fun fileID => inr ("photos/" +:+ fileID) |}.

(** The remote service refuses with the given messages. *)
Definition refusing (messages : list string) : cloudflare.Net :=
  {| cloudflare.Now := 1700000000;
     cloudflare.randRead := [xde; xad; xbe; xef];
     cloudflare.NewRequest := fun _ => None;
     cloudflare.Do := fun _ _ _ => inr (403, inr []);
     cloudflare.jsonMarshal := sample.jsonMarshal;
     cloudflare.jsonUnmarshal := fun _ =>
       inr {| cloudflare.Success := false;
              cloudflare.Result_ID := "";
              cloudflare.Result_Filename := "";
              cloudflare.Result_Uploaded := "";
              cloudflare.Result_Variants := [];
              cloudflare.Errors := messages |} |}.

Definition refused (payload : list Byte.byte) (messages : list string) : bot.Env :=
  {| bot.httpGet := fun _ => inr (inr payload);
     bot.lib := sample.lib;
     bot.net := refusing messages |}.

(** A JPEG header of 15000 x 8000 pixels. *)
Definition wideJPEG : list Byte.byte := sample.jpegHeader x1f x40 x3a x98.

(** A serializer whose output is always over the metadata budget. *)
Definition verbose : validator.Lib :=
  {| validator.DecodeConfig := sample.DecodeConfig;
     validator.exifDecode := sample.exifDecode;
     validator.jsonMarshal := fun _ => String.concat "" (replicate 1025 "x") |}.

(** The context of [sample.document], when the status message cannot be sent. *)
Definition muted : telebot.Context :=
  {| telebot.Sender := {| telebot.ID := 7; telebot.Username := "user" |};
     telebot.Message_Photo := None;
     telebot.Message_Document := Some (telebot.mkDocument "d1" "image/jpeg");
     telebot.Callback_ := None;
     telebot.Text := "";
     telebot.Send := fun _ => None;
     telebot.Edit := fun _ => None;
     telebot.Bot_Send := fun _ => inl (errorString "telegram: Too Many Requests");
     telebot.Bot_Edit := fun _ _ => None;
     telebot.Bot_URL := "https://api.telegram.org";
     telebot.Bot_Token := "T";
     telebot.Bot_FileByID := fun fileID => inr ("photos/" +:+ fileID) |}.

(** A roster that lists 7 twice. *)
Definition doubled : config.Config := config.setAuthorizedUsers sample.cfg [7; 8; 7].

(** What [Load] makes of [parsed], found as [config.yml]. *)
Definition loaded : config.Config :=
  configload.setLogging (configload.setConfigPath parsed "config.yml")
    "info" "logs/bot.log".

(** What [Validate] returns for [sample.jpeg] under [verbose]. *)
Definition guarded : validator.Result :=
  {| validator.IsValid := true;
     validator.Format := "jpeg";
     validator.Width := 32;
     validator.Height := 16;
     validator.Size := 13;
     validator.Metadata :=
       validator.simplified "jpeg" {| image.Width := 32; image.Height := 16 |}
         sample.jpeg |}.

(** What the earlier [ValidateImage] returns for [sample.jpeg]. *)
Definition legacyValidated : legacy_validator.ValidationResult :=
  {| legacy_validator.IsValid := true;
     legacy_validator.Error_ := "";
     legacy_validator.Metadata :=
       legacy_validator.basic "jpeg" {| image.Width := 32; image.Height := 16 |}
         sample.jpeg
         (<["date_time" := VStr "2024:01:02 03:04:05"]>
           (<["camera_model" := VStr "EOS 5D"]>
             (<["camera_make" := VStr "Canon"]> ∅))) |}.

(** The refusal the service sends below. *)
Definition refusal : cloudflare.UploadResponse :=
  {| cloudflare.Success := false;
     cloudflare.Result_ID := "";
     cloudflare.Result_Filename := "";
     cloudflare.Result_Uploaded := "";
     cloudflare.Result_Variants := [];
     cloudflare.Errors := ["bad token"] |}.

(** Caller 7 sends a PDF as a document; caller 7 presses cancel. *)
Definition pdf : telebot.Context :=
  sample.context 7 None (Some ("d2", "application/pdf")) None.
Definition cancel : telebot.Context :=
  sample.context 7 None None (Some "cancel_upload").

End fixtures.

(** ** Kinds of events, for counting them in a trace *)
Module events.
Import world.

Definition isWrite (e : Event) : bool :=
  match e with EvWriteFile _ _ => true | _ => false end.
Definition isPost (e : Event) : bool :=
  match e with EvHTTPPost _ _ _ => true | _ => false end.
Definition isGet (e : Event) : bool :=
  match e with EvHTTPGet _ => true | _ => false end.
Definition isFileRequest (e : Event) : bool :=
  match e with EvFileByID _ => true | _ => false end.
Definition isBotEdit (e : Event) : bool :=
  match e with EvBotEdit _ _ => true | _ => false end.
Definition isDecode (e : Event) : bool :=
  match e with EvDecodeConfig | EvExifDecode => true | _ => false end.

(** How many events of a trace satisfy [p]. *)
Definition count (p : Event -> bool) (tr : list Event) : nat :=
  length (List.filter p tr).

End events.

(** * Properties *)

(** ** Traces and results of composed computations *)
Section EffFacts.
Import world.
Context {A B : Type}.

Lemma result_bind (m : Eff A) (k : A -> Eff B) :
  result (bind m k) = result (k (result m)).
Proof. destruct m as [t a]. cbn. destruct (k a). reflexivity. Qed.

Lemma trace_bind (m : Eff A) (k : A -> Eff B) :
  trace (bind m k) = (trace m ++ trace (k (result m)))%list.
Proof. destruct m as [t a]. cbn. destruct (k a). reflexivity. Qed.

Lemma bind_eq (m : Eff A) (k : A -> Eff B) :
  bind m k = ((trace m ++ trace (k (result m)))%list, result (k (result m))).
Proof. destruct m as [t a]. cbn. destruct (k a). reflexivity. Qed.

Lemma eff_eta (m : Eff A) : m = (trace m, result m).
Proof. destruct m; reflexivity. Qed.

End EffFacts.

(** ** The validator *)
Section ValidatorFacts.
Import apperrors world.

Variable lib : validator.Lib.

(** The size check answers before the decoder is asked. *)
Lemma Validate_oversize (b : list Byte.byte) :
  constants.MaxFileSizeBytes < Go.len b ->
  validator.Validate lib b =
    ([], inl (New ErrImageTooLarge
       (Go.Sprintf "image size %d exceeds limit %d bytes"
          [Go.ArgInt (Go.len b); Go.ArgInt constants.MaxFileSizeBytes]))).
Proof.
  intros Hlen. unfold validator.Validate.
  destruct (Z.ltb_spec constants.MaxFileSizeBytes (Go.len b)); [reflexivity | lia].
Qed.

(** C3: a payload of more than 10 MiB is refused with [ErrImageTooLarge]
    (TooLarge), and the trace of the call is empty: neither
    [image.DecodeConfig] nor any other parser was run on the payload. *)
Theorem Validate_too_large_before_decode (b : list Byte.byte) :
  constants.MaxFileSizeBytes < Go.len b ->
  trace (validator.Validate lib b) = []
  /\ result (validator.Validate lib b) =
       inl (New ErrImageTooLarge
         (Go.Sprintf "image size %d exceeds limit %d bytes"
            [Go.ArgInt (Go.len b); Go.ArgInt constants.MaxFileSizeBytes]))
  /\ ~ In EvDecodeConfig (trace (validator.Validate lib b)).
Proof.
  intros Hlen. rewrite (Validate_oversize b Hlen). cbn. auto.
Qed.

(** C4, amended: for a payload within the 10 MiB limit whose header decodes,
    an area [width * height] above the ceiling of its format (50,000,000 for
    "gif", 100,000,000 otherwise) makes [Validate] fail with
    [ErrImageTooBig] (TooBig), right after the header decode. *)
Theorem Validate_area_too_big (b : list Byte.byte) (config : image.Config)
    (format : string) :
  Go.len b <= constants.MaxFileSizeBytes ->
  validator.DecodeConfig lib b = inr (config, format) ->
  (if String.eqb format "gif" then constants.MaxAnimatedArea
   else constants.MaxImageArea)
    < Go.int_mul (image.Width config) (image.Height config) ->
  exists msg,
    validator.Validate lib b = ([EvDecodeConfig], inl (New ErrImageTooBig msg)).
Proof.
  intros Hlen Hdec Harea. unfold validator.Validate.
  destruct (Z.ltb_spec constants.MaxFileSizeBytes (Go.len b)); [lia |].
  cbn. rewrite Hdec. cbn.
  destruct (_ || _)%bool; [eexists; reflexivity |].
  destruct (Z.ltb_spec
    (if String.eqb format "gif" then constants.MaxAnimatedArea
     else constants.MaxImageArea)
    (Go.int_mul (image.Width config) (image.Height config))); [| lia].
  eexists; reflexivity.
Qed.

End ValidatorFacts.

Lemma len_oversize : Go.len sample.oversize = constants.MaxFileSizeBytes + 1.
Proof.
  unfold Go.len, sample.oversize. rewrite length_replicate.
  unfold constants.MaxFileSizeBytes. lia.
Qed.

Lemma len_oversizePNG : Go.len sample.oversizePNG = 10485784.
Proof.
  unfold Go.len, sample.oversizePNG. rewrite length_app, length_replicate.
  unfold constants.MaxFileSizeBytes, sample.pngHeader. cbn [length]. lia.
Qed.

(** A payload of 10 MiB and one byte. *)
Lemma Validate_too_large_before_decode_witness :
  world.trace (validator.Validate sample.lib sample.oversize) = []
  /\ world.result (validator.Validate sample.lib sample.oversize) =
       inl (apperrors.New apperrors.ErrImageTooLarge
         (Go.Sprintf "image size %d exceeds limit %d bytes"
            [Go.ArgInt (Go.len sample.oversize);
             Go.ArgInt constants.MaxFileSizeBytes]))
  /\ ~ In world.EvDecodeConfig
         (world.trace (validator.Validate sample.lib sample.oversize)).
Proof.
  apply (Validate_too_large_before_decode sample.lib sample.oversize).
  rewrite len_oversize. lia.
Defined.

(** C4 as stated fails on a PNG of 12000 x 12000 pixels (144,000,000, over
    the ceiling) that is itself larger than 10 MiB: the size check answers
    first, with [ErrImageTooLarge]. *)
Lemma Validate_area_too_big_counterexample :
  validator.DecodeConfig sample.lib sample.oversizePNG =
    inr ({| image.Width := 12000; image.Height := 12000 |}, "png")
  /\ constants.MaxImageArea < Go.int_mul 12000 12000
  /\ world.result (validator.Validate sample.lib sample.oversizePNG) =
       inl (apperrors.New apperrors.ErrImageTooLarge
              "image size 10485784 exceeds limit 10485760 bytes")
  /\ apperrors.ErrImageTooLarge <> apperrors.ErrImageTooBig.
Proof.
  split; [reflexivity |].
  split; [reflexivity |].
  split; [| discriminate].
  rewrite Validate_oversize.
  - rewrite len_oversizePNG. reflexivity.
  - rewrite len_oversizePNG. reflexivity.
Qed.

(** A PNG header of 11000 x 11000 pixels: 121,000,000 is over the ceiling. *)
Lemma Validate_area_too_big_witness :
  exists msg,
    validator.Validate sample.lib
      (sample.pngHeader x00 x00 x2a xf8 x00 x00 x2a xf8) =
    ([world.EvDecodeConfig], inl (apperrors.New apperrors.ErrImageTooBig msg)).
Proof.
  apply (Validate_area_too_big sample.lib
           (sample.pngHeader x00 x00 x2a xf8 x00 x00 x2a xf8)
           {| image.Width := 11000; image.Height := 11000 |} "png").
  - vm_compute. discriminate.
  - reflexivity.
  - reflexivity.
Defined.

(** ** The authorization roster *)
Section RosterFacts.
Import apperrors world.

Lemma inList_elem_of (users : list Z) (userID : Z) :
  config.inList users userID = true <-> userID ∈ users.
Proof.
  induction users as [| id rest IH]; cbn.
  - split; [discriminate | intros H; inversion H].
  - destruct (Z.eqb_spec id userID) as [-> | Hne].
    + split; [intros _; left | reflexivity].
    + rewrite IH. split; [right; assumption |].
      intros H. apply elem_of_cons in H as [-> | H]; [congruence | assumption].
Qed.

(** The index the removal loop stops at holds [userID], and lies in range. *)
Lemma indexOf_lookup (users : list Z) (userID : Z) (k i : nat) :
  config.indexOf users userID k = Some i ->
  (k <= i)%nat /\ users !! (i - k)%nat = Some userID.
Proof.
  revert k. induction users as [| id rest IH]; intros k; cbn; [discriminate |].
  destruct (Z.eqb_spec id userID) as [-> | Hne].
  - intros [= <-]. rewrite Nat.sub_diag. split; [lia | reflexivity].
  - intros H. apply IH in H as [Hle Hlk]. split; [lia |].
    replace (i - k)%nat with (S (i - S k)) by lia. exact Hlk.
Qed.

Lemma indexOf_none (users : list Z) (userID : Z) (k : nat) :
  config.indexOf users userID k = None <-> config.inList users userID = false.
Proof.
  revert k. induction users as [| id rest IH]; intros k; cbn; [tauto |].
  destruct (id =? userID); [split; discriminate | apply IH].
Qed.

Lemma length_remove_at (users : list Z) (i : nat) :
  (i < length users)%nat ->
  length (take i users ++ drop (S i) users) = (length users - 1)%nat.
Proof.
  intros Hi. rewrite length_app, length_take, length_drop. lia.
Qed.

(** Whatever [Save] reports is an [ErrInvalidConfig]. *)
Lemma Save_kind (fs : config.FS) (c : config.Config) (e : error) :
  result (config.Save fs c) = Some e -> kind e = Some ErrInvalidConfig.
Proof.
  unfold config.Save.
  destruct (String.eqb _ _); cbn; [intros [= <-]; reflexivity |].
  destruct (config.yamlMarshal fs c); cbn; [intros [= <-]; reflexivity |].
  destruct (config.WriteFile fs _ _); cbn; [intros [= <-]; reflexivity | discriminate].
Qed.

Lemma AddAuthorizedUser_result (fs : config.FS) (c : config.Config) (userID : Z) :
  result (config.AddAuthorizedUser fs c userID) =
    if config.IsAuthorized c userID then
      (c, Some (New ErrUserAlreadyExists
             (Go.Sprintf "user %d is already authorized" [Go.ArgInt userID])))
    else
      let c' := config.setAuthorizedUsers c (config.AuthorizedUsers c ++ [userID]) in
      (c', result (config.Save fs c')).
Proof.
  unfold config.AddAuthorizedUser.
  destruct (config.IsAuthorized c userID); [reflexivity |].
  cbn zeta. rewrite result_bind. reflexivity.
Qed.

Lemma RemoveAuthorizedUser_result (fs : config.FS) (c : config.Config)
    (userID : Z) (i : nat) :
  userID <> config.AdminID c ->
  config.indexOf (config.AuthorizedUsers c) userID 0 = Some i ->
  let users := config.AuthorizedUsers c in
  let c' := config.setAuthorizedUsers c (take i users ++ drop (S i) users) in
  result (config.RemoveAuthorizedUser fs c userID) = (c', result (config.Save fs c')).
Proof.
  intros Hne Hidx. unfold config.RemoveAuthorizedUser.
  destruct (Z.eqb_spec userID (config.AdminID c)); [contradiction |].
  rewrite Hidx. cbn zeta. rewrite result_bind. reflexivity.
Qed.

(** C1, amended: when the save at the end of a roster mutation fails, the
    operation returns the save's error and the roster in memory keeps the
    change ([userID] appended by the addition, one entry fewer after the
    removal): nothing is rolled back. The same holds of the earlier
    [AddUserToAuthorized] and [RemoveUserFromAuthorized], which wrap the
    error of [SaveConfig]. *)
Theorem roster_change_survives_failed_save
    (fs : config.FS) (lfs : legacy.FS) (c : config.Config) (lc : legacy.Config)
    (userID : Z) (i : nat) (e : error) :
  let users := config.AuthorizedUsers c in
  let added := config.setAuthorizedUsers c (users ++ [userID]) in
  let removed := config.setAuthorizedUsers c (take i users ++ drop (S i) users) in
  let lusers := legacy.AuthorizedUserIDs lc in
  let ladded := legacy.setAuthorizedUserIDs lc (lusers ++ [userID]) in
  let lremoved := legacy.setAuthorizedUserIDs lc (take i lusers ++ drop (S i) lusers) in
  (config.IsAuthorized c userID = false ->
   result (config.Save fs added) = Some e ->
   result (config.AddAuthorizedUser fs c userID) = (added, Some e)
   /\ config.AuthorizedUsers added <> users
   /\ config.IsAuthorized added userID = true)
  /\ (userID <> config.AdminID c ->
      config.indexOf users userID 0 = Some i ->
      result (config.Save fs removed) = Some e ->
      result (config.RemoveAuthorizedUser fs c userID) = (removed, Some e)
      /\ config.AuthorizedUsers removed <> users
      /\ length (config.AuthorizedUsers removed) = (length users - 1)%nat)
  /\ (config.inList lusers userID = false ->
      result (legacy.SaveConfig lfs ladded) = Some e ->
      result (legacy.AddUserToAuthorized lfs lc userID) =
        (ladded, Some (legacy.LogError e "保存配置文件失败"))
      /\ legacy.AuthorizedUserIDs ladded <> lusers)
  /\ (config.indexOf lusers userID 0 = Some i ->
      result (legacy.SaveConfig lfs lremoved) = Some e ->
      result (legacy.RemoveUserFromAuthorized lfs lc userID) =
        (lremoved, Some (legacy.LogError e "保存配置文件失败"))
      /\ legacy.AuthorizedUserIDs lremoved <> lusers).
Proof.
  cbn zeta. repeat split.
  - rewrite AddAuthorizedUser_result, H. cbn zeta. rewrite H0. reflexivity.
  - cbn. intros Heq. apply (f_equal length) in Heq.
    rewrite length_app in Heq. cbn in Heq. lia.
  - unfold config.IsAuthorized. cbn.
    destruct (userID =? config.AdminID c); [reflexivity |].
    apply inList_elem_of. set_solver.
  - rewrite (RemoveAuthorizedUser_result fs c userID i H H0). cbn zeta.
    rewrite H1. reflexivity.
  - cbn. intros Heq. apply (f_equal length) in Heq.
    apply indexOf_lookup in H0 as [_ Hlk]. apply lookup_lt_Some in Hlk.
    rewrite length_remove_at in Heq; lia.
  - cbn. apply indexOf_lookup in H0 as [_ Hlk]. apply lookup_lt_Some in Hlk.
    apply length_remove_at. lia.
  - unfold legacy.AddUserToAuthorized. rewrite H, result_bind, H0. reflexivity.
  - cbn. intros Heq. apply (f_equal length) in Heq.
    rewrite length_app in Heq. cbn in Heq. lia.
  - unfold legacy.RemoveUserFromAuthorized. rewrite H, result_bind, H0. reflexivity.
  - cbn. intros Heq. apply (f_equal length) in Heq.
    apply indexOf_lookup in H as [_ Hlk]. apply lookup_lt_Some in Hlk.
    rewrite length_remove_at in Heq; lia.
Qed.

(** C6, amended: [AddAuthorizedUser(AdminID)] always fails with
    [ErrUserAlreadyExists] (AlreadyAuthorized); [AddAuthorizedUser(id)] fails
    with that error exactly when [id] passed [IsAuthorized] before the call,
    leaving the roster as it was; otherwise [id] is appended and the call
    returns what the save returns: nil when the save succeeds, the save's
    error when it fails. *)
Theorem AddAuthorizedUser_already_authorized
    (fs : config.FS) (c : config.Config) (userID : Z) :
  let r := result (config.AddAuthorizedUser fs c userID) in
  let c' := config.setAuthorizedUsers c (config.AuthorizedUsers c ++ [userID]) in
  result (config.AddAuthorizedUser fs c (config.AdminID c)) =
    (c, Some (New ErrUserAlreadyExists
           (Go.Sprintf "user %d is already authorized"
              [Go.ArgInt (config.AdminID c)])))
  /\ (config.IsAuthorized c userID = true <->
      option_map kind r.2 = Some (Some ErrUserAlreadyExists))
  /\ (config.IsAuthorized c userID = true -> r.1 = c)
  /\ (config.IsAuthorized c userID = false ->
      r = (c', result (config.Save fs c'))).
Proof.
  cbn zeta. rewrite !AddAuthorizedUser_result. repeat split.
  - unfold config.IsAuthorized. rewrite Z.eqb_refl. reflexivity.
  - intros ->. reflexivity.
  - destruct (config.IsAuthorized c userID); [reflexivity |].
    cbn. destruct (result (config.Save fs _)) as [e |] eqn:Hs; [| discriminate].
    apply Save_kind in Hs. cbn. rewrite Hs. discriminate.
  - intros ->. reflexivity.
  - intros ->. reflexivity.
Qed.

(** The earlier [AddUserToAuthorized] looks at the list only: the
    administrator, when not listed, is added like anyone else. *)
Lemma legacy_AddUserToAuthorized_admin (lfs : legacy.FS) (lc : legacy.Config) :
  config.inList (legacy.AuthorizedUserIDs lc) (legacy.AdminID lc) = false ->
  legacy.AuthorizedUserIDs (result (legacy.AddUserToAuthorized lfs lc (legacy.AdminID lc))).1
    = (legacy.AuthorizedUserIDs lc ++ [legacy.AdminID lc])%list.
Proof.
  intros H. unfold legacy.AddUserToAuthorized. rewrite H, result_bind.
  destruct (result (legacy.SaveConfig lfs _)); reflexivity.
Qed.

End RosterFacts.

(** C1 as stated fails on a disk that refuses the write: the addition of 5 and
    the removal of 7 both return the save's error, and the roster in memory
    has changed all the same. *)
Lemma roster_rollback_counterexample :
  config.AuthorizedUsers sample.cfg = [7]
  /\ world.result (config.AddAuthorizedUser sample.readOnly sample.cfg 5) =
       (config.setAuthorizedUsers sample.cfg [7; 5], Some sample.readOnlyError)
  /\ world.result (config.RemoveAuthorizedUser sample.readOnly sample.cfg 7) =
       (config.setAuthorizedUsers sample.cfg [], Some sample.readOnlyError).
Proof. repeat split. Qed.

(** Roster [7] on a disk that refuses the write: 5 is added, 7 removed. *)
Lemma roster_change_survives_failed_save_witness :
  (world.result (config.AddAuthorizedUser sample.readOnly sample.cfg 5) =
     (config.setAuthorizedUsers sample.cfg [7; 5], Some sample.readOnlyError)
   /\ world.result (config.RemoveAuthorizedUser sample.readOnly sample.cfg 7) =
        (config.setAuthorizedUsers sample.cfg [], Some sample.readOnlyError))
  /\ (world.result (legacy.AddUserToAuthorized sample.legacyReadOnly sample.legacyCfg 5) =
        (legacy.setAuthorizedUserIDs sample.legacyCfg [7; 5],
         Some (legacy.LogError (apperrors.errorString "read-only file system")
                 "保存配置文件失败"))
      /\ world.result (legacy.RemoveUserFromAuthorized sample.legacyReadOnly sample.legacyCfg 7) =
           (legacy.setAuthorizedUserIDs sample.legacyCfg [],
            Some (legacy.LogError (apperrors.errorString "read-only file system")
                    "保存配置文件失败"))).
Proof.
  split; split.
  - apply (roster_change_survives_failed_save sample.readOnly sample.legacyReadOnly
             sample.cfg sample.legacyCfg 5 0 sample.readOnlyError); reflexivity.
  - apply (roster_change_survives_failed_save sample.readOnly sample.legacyReadOnly
             sample.cfg sample.legacyCfg 7 0 sample.readOnlyError);
      [discriminate | reflexivity | reflexivity].
  - apply (roster_change_survives_failed_save sample.readOnly sample.legacyReadOnly
             sample.cfg sample.legacyCfg 5 0
             (apperrors.errorString "read-only file system")); reflexivity.
  - apply (roster_change_survives_failed_save sample.readOnly sample.legacyReadOnly
             sample.cfg sample.legacyCfg 7 0
             (apperrors.errorString "read-only file system")); reflexivity.
Defined.

(** C6 as stated fails on the same disk: 5 did not pass [IsAuthorized], and
    its addition fails nevertheless, with the save's error. *)
Lemma AddAuthorizedUser_counterexample :
  config.IsAuthorized sample.cfg 5 = false
  /\ (world.result (config.AddAuthorizedUser sample.readOnly sample.cfg 5)).2 =
       Some sample.readOnlyError
  /\ apperrors.kind sample.readOnlyError = Some apperrors.ErrInvalidConfig.
Proof. repeat split. Qed.

(** ** The handlers and the pending-upload store *)
Section TraceFacts.
Import world.
Context {A B : Type} (P : Event -> Prop).

Lemma Forall_trace_bind (m : Eff A) (k : A -> Eff B) :
  Forall P (trace m) -> (forall a, Forall P (trace (k a))) ->
  Forall P (trace (bind m k)).
Proof. intros Hm Hk. rewrite trace_bind. apply Forall_app. split; auto. Qed.

Lemma Forall_trace_call (e : Event) (a : A) : P e -> Forall P (trace (call e a)).
Proof. intros He. cbn. constructor; [exact He | constructor]. Qed.

Lemma Forall_trace_ret (a : A) : Forall P (trace (ret a)).
Proof. constructor. Qed.

End TraceFacts.

(** Walks a computation built from [bind], [call], [ret] and case
    distinctions, leaving the events of its calls to be checked. *)
Ltac forall_trace :=
  repeat first
    [ apply Forall_trace_ret
    | apply Forall_trace_call
    | apply Forall_trace_bind; [ | intros ? ]
    | match goal with
      | |- Forall _ (world.trace (match ?x with _ => _ end)) => destruct x
      | |- Forall _ (world.trace (let '(_, _) := ?x in _)) => destruct x
      end ].

Section HandlerFacts.
Import apperrors world telebot.

Variable env : bot.Env.

Lemma Validate_asksOnly (f : string) (lib : validator.Lib) (b : list Byte.byte) :
  Forall (asksOnly f) (trace (validator.Validate lib b)).
Proof.
  unfold validator.Validate, validator.extractMetadata.
  forall_trace; cbn zeta; forall_trace; unfold world.asksOnly; intros; discriminate.
Qed.

Lemma Upload_asksOnly (f : string) (net : cloudflare.Net) (c : cloudflare.Client)
    (b : list Byte.byte) (userID : Z) (metadata : option (gmap string Value)) :
  Forall (asksOnly f) (trace (cloudflare.Upload net c b userID metadata)).
Proof.
  unfold cloudflare.Upload, cloudflare.buildMultipartBody.
  cbn zeta. forall_trace; unfold world.asksOnly; intros; discriminate.
Qed.

Lemma editStatus_asksOnly (f : string) (c : Context) (msg : option Z) (text : string) :
  Forall (asksOnly f) (trace (bot.editStatus c msg text)).
Proof. unfold bot.editStatus. forall_trace. unfold world.asksOnly; intros; discriminate. Qed.

(** The pipeline asks Telegram for the file it was handed, and for no other. *)
Lemma processImageUpload_asksOnly (b : bot.Bot) (c : Context) (fileID : string) :
  Forall (asksOnly fileID) (trace (bot.processImageUpload env b c fileID)).
Proof.
  unfold bot.processImageUpload. cbn zeta.
  repeat first
    [ apply Forall_trace_ret
    | apply editStatus_asksOnly
    | apply Validate_asksOnly
    | apply Upload_asksOnly
    | apply Forall_trace_call; [unfold world.asksOnly; intros ? Hg; inversion Hg; try reflexivity]
    | apply Forall_trace_bind; [ | intros ? ]
    | match goal with
      | |- Forall _ (trace (match ?x with _ => _ end)) => destruct x
      end ].
Qed.

Lemma processImageUpload_head (b : bot.Bot) (c : Context) (fileID : string) :
  exists rest,
    trace (bot.processImageUpload env b c fileID) =
      EvBotSend bot.msgDownloading :: EvFileByID fileID :: rest.
Proof.
  unfold bot.processImageUpload. cbn zeta.
  rewrite trace_bind. cbn [trace call fst result snd].
  rewrite trace_bind. cbn [trace call fst result snd app].
  eexists; reflexivity.
Qed.

Lemma handlePhoto_stash (b : bot.Bot) (c : Context) (photo : Photo) :
  config.IsAuthorized (bot.config b) (ID (Sender c)) = true ->
  Message_Photo c = Some photo ->
  bot.handlePhoto env b c =
    ([EvPendingPut (ID (Sender c)) (Photo_FileID photo);
      EvSendMarkup bot.msgConfirm bot.confirmButtons],
     (bot.setPendingUploads b
        (<[ID (Sender c) := Photo_FileID photo]> (bot.pendingUploads b)),
      Send c bot.msgConfirm)).
Proof.
  intros Hauth Hphoto. unfold bot.handlePhoto. rewrite Hauth, Hphoto. reflexivity.
Qed.

Lemma handleCallback_confirm_some (b : bot.Bot) (c : Context)
    (callback : Callback) (fileID : string) :
  Callback_ c = Some callback ->
  Go.TrimSpace (Data callback) = "confirm_upload" ->
  bot.pendingUploads b !! ID (Sender c) = Some fileID ->
  let b' := bot.setPendingUploads b (delete (ID (Sender c)) (bot.pendingUploads b)) in
  bot.handleCallback env b c =
    (([EvRespond; EvPendingDelete (ID (Sender c)); EvEdit bot.msgProcessing]
        ++ trace (bot.processImageUpload env b' c fileID))%list,
     (b', result (bot.processImageUpload env b' c fileID))).
Proof.
  intros Hcb Hdata Hpending b'. unfold bot.handleCallback.
  rewrite Hcb. cbn zeta. rewrite Hdata, Hpending. fold b'.
  destruct (bot.processImageUpload env b' c fileID) as [tr r].
  cbn. rewrite app_nil_r. reflexivity.
Qed.

Lemma handleCallback_confirm_none (b : bot.Bot) (c : Context) (callback : Callback) :
  Callback_ c = Some callback ->
  Go.TrimSpace (Data callback) = "confirm_upload" ->
  bot.pendingUploads b !! ID (Sender c) = None ->
  bot.handleCallback env b c =
    ([EvRespond; EvEdit bot.msgNoPending], (b, Edit c bot.msgNoPending)).
Proof.
  intros Hcb Hdata Hpending. unfold bot.handleCallback.
  rewrite Hcb. cbn zeta. rewrite Hdata, Hpending. reflexivity.
Qed.

(** C2: for a caller who fails [IsAuthorized], [handlePhoto] and
    [handleDocument] send the authorization-denied message and do nothing
    else: the bot, and with it the pending-upload store, is the one they were
    given, and the trace holds that one message, so no file was requested
    or downloaded and nothing was posted to the upload service. *)
Theorem unauthorized_submission_stops (b : bot.Bot) (c : Context) :
  config.IsAuthorized (bot.config b) (ID (Sender c)) = false ->
  bot.handlePhoto env b c =
    ([EvSend bot.msgUnauthorized], (b, Send c bot.msgUnauthorized))
  /\ bot.handleDocument env b c =
       ([EvSend bot.msgUnauthorized], (b, Send c bot.msgUnauthorized))
  /\ (forall e, In e (trace (bot.handlePhoto env b c)
                      ++ trace (bot.handleDocument env b c)) ->
        (forall u f, e <> EvPendingPut u f)
        /\ (forall f, e <> EvFileByID f)
        /\ (forall url, e <> EvHTTPGet url)
        /\ (forall url a body, e <> EvHTTPPost url a body)).
Proof.
  intros Hauth.
  assert (Hp : bot.handlePhoto env b c =
                 ([EvSend bot.msgUnauthorized], (b, Send c bot.msgUnauthorized)))
    by (unfold bot.handlePhoto; rewrite Hauth; reflexivity).
  assert (Hd : bot.handleDocument env b c =
                 ([EvSend bot.msgUnauthorized], (b, Send c bot.msgUnauthorized)))
    by (unfold bot.handleDocument; rewrite Hauth; reflexivity).
  split; [exact Hp |]. split; [exact Hd |].
  intros e He. rewrite Hp, Hd in He. cbn in He.
  destruct He as [<- | [<- | []]]; repeat split; intros; discriminate.
Qed.

End HandlerFacts.

Section PendingStoreFacts.
Import apperrors world telebot.

Variable env : bot.Env.
Variable pipeline : legacy.Config -> Context -> string -> Eff (option error).

Lemma HandleCallbackQuery_confirm_some (b : legacy_bot.Bot) (c : Context)
    (callback : Callback) (fileID : string) :
  Callback_ c = Some callback ->
  Go.TrimSpace (Data callback) = "confirm_upload" ->
  legacy_bot.pendingUploads b !! ID (Sender c) = Some fileID ->
  let b' := legacy_bot.setPendingUploads b
              (delete (ID (Sender c)) (legacy_bot.pendingUploads b)) in
  legacy_bot.HandleCallbackQuery pipeline b c =
    (([EvRespond; EvPendingDelete (ID (Sender c)); EvEdit legacy_bot.msgProcessing]
        ++ trace (pipeline (legacy_bot.cfg b') c fileID))%list,
     (b', result (pipeline (legacy_bot.cfg b') c fileID))).
Proof.
  intros Hcb Hdata Hpending b'. unfold legacy_bot.HandleCallbackQuery.
  rewrite Hcb. cbn zeta. rewrite Hdata, Hpending. fold b'.
  destruct (pipeline (legacy_bot.cfg b') c fileID) as [tr r].
  cbn. rewrite app_nil_r. reflexivity.
Qed.

Lemma HandleCallbackQuery_confirm_none (b : legacy_bot.Bot) (c : Context)
    (callback : Callback) :
  Callback_ c = Some callback ->
  Go.TrimSpace (Data callback) = "confirm_upload" ->
  legacy_bot.pendingUploads b !! ID (Sender c) = None ->
  legacy_bot.HandleCallbackQuery pipeline b c =
    ([EvRespond; EvEdit legacy_bot.msgNoPending], (b, Edit c legacy_bot.msgNoPending)).
Proof.
  intros Hcb Hdata Hpending. unfold legacy_bot.HandleCallbackQuery.
  rewrite Hcb. cbn zeta. rewrite Hdata, Hpending. reflexivity.
Qed.

(** C9: a confirm callback that finds a pending entry deletes it before the
    pipeline runs: the handler's trace is the acknowledgement, the deletion,
    the status edit, and only then the pipeline's events, and the bot it
    leaves has no entry for the caller whatever the pipeline returned,
    failure included. A further confirm by the caller then gets the
    no-pending-upload message and starts nothing. The earlier
    [HandleCallbackQuery] behaves the same. *)
Theorem confirm_removes_pending_first (b : bot.Bot) (lb : legacy_bot.Bot)
    (c : Context) (callback : Callback) (fileID : string) :
  Callback_ c = Some callback ->
  Go.TrimSpace (Data callback) = "confirm_upload" ->
  let u := ID (Sender c) in
  let b' := bot.setPendingUploads b (delete u (bot.pendingUploads b)) in
  let lb' := legacy_bot.setPendingUploads lb (delete u (legacy_bot.pendingUploads lb)) in
  (bot.pendingUploads b !! u = Some fileID ->
   bot.handleCallback env b c =
     (([EvRespond; EvPendingDelete u; EvEdit bot.msgProcessing]
         ++ trace (bot.processImageUpload env b' c fileID))%list,
      (b', result (bot.processImageUpload env b' c fileID)))
   /\ bot.pendingUploads b' !! u = None
   /\ bot.handleCallback env b' c =
        ([EvRespond; EvEdit bot.msgNoPending], (b', Edit c bot.msgNoPending)))
  /\ (legacy_bot.pendingUploads lb !! u = Some fileID ->
      legacy_bot.HandleCallbackQuery pipeline lb c =
        (([EvRespond; EvPendingDelete u; EvEdit legacy_bot.msgProcessing]
            ++ trace (pipeline (legacy_bot.cfg lb') c fileID))%list,
         (lb', result (pipeline (legacy_bot.cfg lb') c fileID)))
      /\ legacy_bot.pendingUploads lb' !! u = None
      /\ legacy_bot.HandleCallbackQuery pipeline lb' c =
           ([EvRespond; EvEdit legacy_bot.msgNoPending],
            (lb', Edit c legacy_bot.msgNoPending))).
Proof.
  intros Hcb Hdata u b' lb'. split; intros Hpending.
  - split; [exact (handleCallback_confirm_some env b c callback fileID Hcb Hdata Hpending) |].
    assert (Hnone : bot.pendingUploads b' !! u = None) by apply lookup_delete_eq.
    split; [exact Hnone |].
    exact (handleCallback_confirm_none env b' c callback Hcb Hdata Hnone).
  - split; [exact (HandleCallbackQuery_confirm_some lb c callback fileID Hcb Hdata Hpending) |].
    assert (Hnone : legacy_bot.pendingUploads lb' !! u = None) by apply lookup_delete_eq.
    split; [exact Hnone |].
    exact (HandleCallbackQuery_confirm_none lb' c callback Hcb Hdata Hnone).
Qed.

(** C5: the pending-upload store keeps the last photo of a caller. After an
    authorized caller [u] sends photo [a] and then photo [b], the store holds
    [b] for [u]; the confirm hands [b] to the pipeline, whose only file
    request is for [b], and empties the slot; a second confirm finds nothing,
    answers with the no-pending-upload message and requests no file. *)
Theorem pending_store_last_write_wins (bot0 : bot.Bot)
    (c1 c2 c3 c4 : Context) (a b : Photo) (cb3 cb4 : Callback) :
  let u := ID (Sender c1) in
  config.IsAuthorized (bot.config bot0) u = true ->
  Message_Photo c1 = Some a ->
  ID (Sender c2) = u -> Message_Photo c2 = Some b ->
  ID (Sender c3) = u -> Callback_ c3 = Some cb3 ->
  Go.TrimSpace (Data cb3) = "confirm_upload" ->
  ID (Sender c4) = u -> Callback_ c4 = Some cb4 ->
  Go.TrimSpace (Data cb4) = "confirm_upload" ->
  let bot1 := (result (bot.handlePhoto env bot0 c1)).1 in
  let bot2 := (result (bot.handlePhoto env bot1 c2)).1 in
  let bot3 := (result (bot.handleCallback env bot2 c3)).1 in
  bot.pendingUploads bot2 !! u = Some (Photo_FileID b)
  /\ bot.handleCallback env bot2 c3 =
       (([EvRespond; EvPendingDelete u; EvEdit bot.msgProcessing]
           ++ trace (bot.processImageUpload env bot3 c3 (Photo_FileID b)))%list,
        (bot3, result (bot.processImageUpload env bot3 c3 (Photo_FileID b))))
  /\ In (EvFileByID (Photo_FileID b)) (trace (bot.handleCallback env bot2 c3))
  /\ (forall g, In (EvFileByID g) (trace (bot.handleCallback env bot2 c3)) ->
        g = Photo_FileID b)
  /\ bot.pendingUploads bot3 !! u = None
  /\ bot.handleCallback env bot3 c4 =
       ([EvRespond; EvEdit bot.msgNoPending], (bot3, Edit c4 bot.msgNoPending)).
Proof.
  intros u Hauth Ha Hu2 Hb Hu3 Hcb3 Hd3 Hu4 Hcb4 Hd4.
  rewrite (handlePhoto_stash env bot0 c1 a Hauth Ha). cbn [result snd fst].
  fold u.
  set (bot1 := bot.setPendingUploads bot0 _).
  assert (Hauth1 : config.IsAuthorized (bot.config bot1) (ID (Sender c2)) = true)
    by (rewrite Hu2; exact Hauth).
  rewrite (handlePhoto_stash env bot1 c2 b Hauth1 Hb). cbn [result snd fst].
  rewrite Hu2.
  set (bot2 := bot.setPendingUploads bot1 _).
  assert (Hp2 : bot.pendingUploads bot2 !! ID (Sender c3) = Some (Photo_FileID b))
    by (rewrite Hu3; apply lookup_insert_eq).
  pose proof (handleCallback_confirm_some env bot2 c3 cb3 _ Hcb3 Hd3 Hp2) as H3.
  cbn zeta in H3. rewrite Hu3 in H3. rewrite H3. cbn [result snd fst].
  set (bot3 := bot.setPendingUploads bot2 _) in *.
  assert (Hp3 : bot.pendingUploads bot3 !! u = None) by apply lookup_delete_eq.
  split; [rewrite <- Hu3; exact Hp2 |].
  split; [reflexivity |].
  cbn [trace fst].
  split.
  { destruct (processImageUpload_head env bot3 c3 (Photo_FileID b)) as [rest ->].
    apply in_or_app. right. right. left. reflexivity. }
  split.
  { intros g Hg. apply in_app_or in Hg as [Hg | Hg].
    - cbn in Hg. destruct Hg as [Hg | [Hg | [Hg | []]]]; discriminate.
    - pose proof (processImageUpload_asksOnly env bot3 c3 (Photo_FileID b)) as Hall.
      rewrite Forall_forall in Hall. apply list_elem_of_In in Hg.
      exact (Hall _ Hg g eq_refl). }
  split; [exact Hp3 |].
  apply (handleCallback_confirm_none env bot3 c4 cb4 Hcb4 Hd4).
  rewrite Hu4. exact Hp3.
Qed.

End PendingStoreFacts.

(** Caller 9 sends a photo and a document. *)
Lemma unauthorized_submission_stops_witness :
  bot.handlePhoto sample.served sample.theBot sample.stranger =
    ([world.EvSend bot.msgUnauthorized], (sample.theBot, None))
  /\ bot.handleDocument sample.served sample.theBot sample.stranger =
       ([world.EvSend bot.msgUnauthorized], (sample.theBot, None)).
Proof.
  pose proof (unauthorized_submission_stops sample.served sample.theBot
                sample.stranger eq_refl) as [Hp [Hd _]].
  exact (conj Hp Hd).
Defined.

(** Caller 7 confirms while Telegram no longer knows the file: the pipeline
    fails at its first step, and the slot is empty afterwards. *)
Lemma confirm_removes_pending_first_witness :
  ((world.result (bot.handleCallback sample.served sample.waiting
                    (sample.offline 7 (Some "confirm_upload")))).2 =
     Some (apperrors.Wrap apperrors.ErrDownloadFailed "failed to get file info"
             (apperrors.errorString "telegram: file not found"))
   /\ bot.pendingUploads
        (world.result (bot.handleCallback sample.served sample.waiting
                         (sample.offline 7 (Some "confirm_upload")))).1 !! 7 = None)
  /\ ((world.result (legacy_bot.HandleCallbackQuery sample.legacyPipeline
                       sample.legacyWaiting
                       (sample.offline 7 (Some "confirm_upload")))).2 =
        Some (legacy.LogError (apperrors.errorString "telegram: file not found")
                "获取文件信息失败")
      /\ legacy_bot.pendingUploads
           (world.result (legacy_bot.HandleCallbackQuery sample.legacyPipeline
                            sample.legacyWaiting
                            (sample.offline 7 (Some "confirm_upload")))).1 !! 7 = None).
Proof.
  pose proof (confirm_removes_pending_first sample.served sample.legacyPipeline
                sample.waiting sample.legacyWaiting
                (sample.offline 7 (Some "confirm_upload"))
                (telebot.mkCallback "confirm_upload") "p1" eq_refl eq_refl)
    as [Hnew Hold].
  destruct (Hnew eq_refl) as [-> [Hnone _]].
  destruct (Hold eq_refl) as [-> [Hlnone _]].
  split; split; [reflexivity | exact Hnone | reflexivity | exact Hlnone].
Defined.

(** Caller 7 sends "a", then "b", then confirms. *)
Lemma pending_store_last_write_wins_witness :
  bot.pendingUploads sample.twoPhotos !! 7 = Some "b"
  /\ In (world.EvFileByID "b")
        (world.trace (bot.handleCallback sample.served sample.twoPhotos sample.confirm))
  /\ (forall g,
        In (world.EvFileByID g)
           (world.trace (bot.handleCallback sample.served sample.twoPhotos sample.confirm)) ->
        g = "b").
Proof.
  pose proof (pending_store_last_write_wins sample.served sample.theBot
                sample.photoA sample.photoB sample.confirm sample.confirm
                (telebot.mkPhoto "a") (telebot.mkPhoto "b")
                (telebot.mkCallback "confirm_upload")
                (telebot.mkCallback "confirm_upload")
                eq_refl eq_refl eq_refl eq_refl eq_refl eq_refl eq_refl
                eq_refl eq_refl eq_refl)
    as [H1 [_ [H3 [H4 _]]]].
  exact (conj H1 (conj H3 H4)).
Defined.

(** ** The upload client: file name, canonical URL, forwarded metadata *)
Section UploadFacts.
Import apperrors world.

Lemma hexdigit_byte (b : Byte.byte) :
  Go.isHexDigit (Go.hexdigit (Byte.to_N b / 16)) = true
  /\ Go.isHexDigit (Go.hexdigit (Byte.to_N b mod 16)) = true.
Proof. destruct b; split; reflexivity. Qed.

Lemma EncodeToString_length (src : list Byte.byte) :
  String.length (Go.EncodeToString src) = (2 * length src)%nat.
Proof. induction src as [| b r IH]; cbn [Go.EncodeToString String.length length]; lia. Qed.

Lemma EncodeToString_hex (src : list Byte.byte) :
  forallb Go.isHexDigit (list_ascii_of_string (Go.EncodeToString src)) = true.
Proof.
  induction src as [| b r IH]; [reflexivity |].
  cbn [Go.EncodeToString list_ascii_of_string forallb].
  destruct (hexdigit_byte b) as [-> ->]. exact IH.
Qed.

Lemma fill_length (buf src : list Byte.byte) :
  length (cloudflare.fill buf src) = length buf.
Proof.
  unfold cloudflare.fill. rewrite length_take, length_app, length_drop. lia.
Qed.

Lemma Sprintf_filename (userID timestamp : Z) (randomStr : string) :
  Go.Sprintf "%d_%d_%s.jpg"
    [Go.ArgInt userID; Go.ArgInt timestamp; Go.ArgStr randomStr] =
  pretty userID +:+ "_" +:+ pretty timestamp +:+ "_" +:+ randomStr +:+ ".jpg".
Proof. reflexivity. Qed.

(** The request [Upload] posts carries the body [buildMultipartBody] made
    for the generated file name. *)
Lemma Upload_posts (net : cloudflare.Net) (c : cloudflare.Client)
    (imageBytes : list Byte.byte) (userID : Z)
    (metadata : option (gmap string Value)) :
  Forall (fun e => forall url a body, e = EvHTTPPost url a body ->
            body = result (cloudflare.buildMultipartBody net imageBytes
                             (cloudflare.generateFilename net userID) metadata))
    (trace (cloudflare.Upload net c imageBytes userID metadata)).
Proof.
  unfold cloudflare.Upload. cbn zeta. rewrite trace_bind.
  apply Forall_app. split.
  - unfold cloudflare.buildMultipartBody. forall_trace; intros; discriminate.
  - destruct (cloudflare.NewRequest net _); [constructor |].
    forall_trace; try (intros; discriminate).
    intros url a body [= _ _ <-]. reflexivity.
Qed.

Lemma buildMultipartBody_file_name (net : cloudflare.Net)
    (imageBytes : list Byte.byte) (filename : string)
    (metadata : option (gmap string Value)) :
  file_name (result (cloudflare.buildMultipartBody net imageBytes filename metadata))
    = filename.
Proof. unfold cloudflare.buildMultipartBody. rewrite result_bind. reflexivity. Qed.

(** C8, amended: the file name sent to the upload service is
    [{callerID}_{unixTimestamp}_{randomHex}.jpg]: the caller's ID and the
    unix time in decimal, the 8 lower-case hex digits of 4 random bytes, and
    the fixed suffix [.jpg]; both [Upload] and the earlier [UploadImage] post
    their file under that name. *)
Theorem upload_filename (net : cloudflare.Net) (lnet : legacy_cloudflare.Net)
    (c : cloudflare.Client) (lcfg : legacy.Config)
    (imageBytes : list Byte.byte) (userID : Z)
    (metadata : option (gmap string Value)) :
  let randomHex (delivered : list Byte.byte) :=
    Go.EncodeToString (cloudflare.fill (replicate 4 Byte.x00) delivered) in
  let name (timestamp : Z) (delivered : list Byte.byte) :=
    pretty userID +:+ "_" +:+ pretty timestamp +:+ "_" +:+ randomHex delivered
      +:+ ".jpg" in
  cloudflare.generateFilename net userID =
    name (cloudflare.Now net) (cloudflare.randRead net)
  /\ (forall delivered,
        String.length (randomHex delivered) = 8%nat
        /\ forallb Go.isHexDigit (list_ascii_of_string (randomHex delivered)) = true)
  /\ Forall (fun e => forall url a body, e = EvHTTPPost url a body ->
               file_name body = name (cloudflare.Now net) (cloudflare.randRead net))
       (trace (cloudflare.Upload net c imageBytes userID metadata))
  /\ Forall (fun e => forall url a body delivered, e = EvHTTPPost url a body ->
               legacy_cloudflare.randRead lnet = inr delivered ->
               file_name body = name (legacy_cloudflare.Now lnet) delivered)
       (trace (legacy_cloudflare.UploadImage lnet imageBytes userID metadata lcfg)).
Proof.
  cbn zeta.
  assert (Hname : cloudflare.generateFilename net userID =
            pretty userID +:+ "_" +:+ pretty (cloudflare.Now net) +:+ "_" +:+
            Go.EncodeToString
              (cloudflare.fill (replicate 4 Byte.x00) (cloudflare.randRead net))
            +:+ ".jpg") by reflexivity.
  split; [exact Hname |].
  split.
  { intros delivered. split.
    - rewrite EncodeToString_length, fill_length. reflexivity.
    - apply EncodeToString_hex. }
  split.
  { eapply Forall_impl; [apply Upload_posts |].
    intros e He url a body Heq. rewrite (He url a body Heq).
    rewrite buildMultipartBody_file_name. exact Hname. }
  unfold legacy_cloudflare.UploadImage. cbn zeta.
  destruct (legacy_cloudflare.randRead lnet) as [err | delivered0]; [constructor |].
  rewrite trace_bind. apply Forall_app. split.
  - forall_trace; intros; discriminate.
  - destruct (legacy_cloudflare.NewRequest lnet _); [constructor |].
    forall_trace; try (intros; discriminate).
    intros url a body delivered [= _ _ <-] [= <-]. reflexivity.
Qed.

End UploadFacts.

(** C8 as stated fails on every upload: the name carries [.jpg] after the
    random hex string. *)
Lemma upload_filename_counterexample :
  cloudflare.generateFilename (sample.net []) 42 = "42_1700000000_deadbeef.jpg"
  /\ pretty 42 +:+ "_" +:+ pretty 1700000000 +:+ "_"
       +:+ Go.EncodeToString [xde; xad; xbe; xef] = "42_1700000000_deadbeef"
  /\ cloudflare.generateFilename (sample.net []) 42 <> "42_1700000000_deadbeef".
Proof. repeat split. discriminate. Qed.

Section CanonicalURLFacts.
Import apperrors world telebot.

Variable env : bot.Env.

(** What [Upload] returns as a response reported success. *)
Lemma Upload_success (net : cloudflare.Net) (c : cloudflare.Client)
    (imageBytes : list Byte.byte) (userID : Z)
    (metadata : option (gmap string Value)) (resp : cloudflare.UploadResponse) :
  result (cloudflare.Upload net c imageBytes userID metadata) = inr resp ->
  cloudflare.Success resp = true.
Proof.
  unfold cloudflare.Upload. cbn zeta. rewrite result_bind.
  destruct (cloudflare.NewRequest net _); [discriminate |].
  rewrite result_bind. cbn [result call snd].
  destruct (cloudflare.Do net _ _ _) as [err | [status body]]; [discriminate |].
  rewrite result_bind. cbn [result call snd].
  destruct body as [err | respBody]; [discriminate |].
  rewrite result_bind. cbn [result call snd].
  destruct (cloudflare.jsonUnmarshal net respBody) as [err | parsed]; [discriminate |].
  destruct (cloudflare.Success parsed) eqn:Hs; [| discriminate].
  intros [= <-]. exact Hs.
Qed.

(** A failed [Upload] reports [ErrUploadFailed] or [ErrCloudflareAPI]. *)
Lemma Upload_failure_kind (net : cloudflare.Net) (c : cloudflare.Client)
    (imageBytes : list Byte.byte) (userID : Z)
    (metadata : option (gmap string Value)) (err : error) :
  result (cloudflare.Upload net c imageBytes userID metadata) = inl err ->
  kind err = Some ErrUploadFailed \/ kind err = Some ErrCloudflareAPI.
Proof.
  unfold cloudflare.Upload. cbn zeta. rewrite result_bind.
  destruct (cloudflare.NewRequest net _); [intros [= <-]; left; reflexivity |].
  rewrite result_bind. cbn [result call snd].
  destruct (cloudflare.Do net _ _ _) as [e | [status body]];
    [intros [= <-]; left; reflexivity |].
  rewrite result_bind. cbn [result call snd].
  destruct body as [e | respBody]; [intros [= <-]; left; reflexivity |].
  rewrite result_bind. cbn [result call snd].
  destruct (cloudflare.jsonUnmarshal net respBody) as [e | parsed];
    [intros [= <-]; left; reflexivity |].
  destruct (cloudflare.Success parsed); [discriminate |].
  intros [= <-]. right. reflexivity.
Qed.

Lemma editStatus_trace (c : Context) (msg : option Z) (text : string) :
  trace (bot.editStatus c msg text) =
    match msg with Some m => [EvBotEdit m text] | None => [] end.
Proof. destruct msg; reflexivity. Qed.

(** The pipeline from the point where the upload has answered. *)
Lemma processImageUpload_result (b : bot.Bot) (c : Context)
    (fileID filePath : string) (imageBytes : list Byte.byte)
    (vr : validator.Result) (resp : cloudflare.UploadResponse) :
  Bot_FileByID c fileID = inr filePath ->
  bot.httpGet env
    (Go.Sprintf "%s/file/bot%s/%s"
       [Go.ArgStr (Bot_URL c); Go.ArgStr (Bot_Token c); Go.ArgStr filePath])
    = inr (inr imageBytes) ->
  result (validator.Validate (bot.lib env) imageBytes) = inr vr ->
  result (cloudflare.Upload (bot.net env) (bot.cfClient b) imageBytes
            (ID (Sender c)) (Some (validator.Metadata vr))) = inr resp ->
  let msg := match Bot_Send c bot.msgDownloading with
             | inr m => Some m
             | inl _ => None
             end in
  result (bot.processImageUpload env b c fileID) =
    match cloudflare.GetImageURL (Some resp) with
    | inl err => Some err
    | inr imageURL =>
        match msg with
        | Some m => Bot_Edit c m (Go.Sprintf bot.fmtSuccess [Go.ArgStr imageURL])
        | None => Send c (Go.Sprintf bot.fmtSuccess [Go.ArgStr imageURL])
        end
    end
  /\ exists before,
       trace (bot.processImageUpload env b c fileID) =
         (before ++
          match cloudflare.GetImageURL (Some resp) with
          | inl err =>
              match msg with
              | Some m =>
                  [EvBotEdit m (Go.Sprintf bot.fmtURLFailed [Go.ArgStr (Error err)])]
              | None => []
              end
          | inr imageURL =>
              match msg with
              | Some m => [EvBotEdit m (Go.Sprintf bot.fmtSuccess [Go.ArgStr imageURL])]
              | None => [EvSend (Go.Sprintf bot.fmtSuccess [Go.ArgStr imageURL])]
              end
          end)%list.
Proof.
  intros Hfile Hget Hval Hup msg.
  unfold bot.processImageUpload. cbn zeta. fold msg.
  rewrite bind_eq. cbn [result call snd trace fst].
  rewrite bind_eq. cbn [result call snd trace fst]. rewrite Hfile.
  rewrite bind_eq. cbn [result call snd trace fst]. rewrite Hget.
  rewrite bind_eq. cbn [result call snd trace fst].
  rewrite bind_eq. rewrite bind_eq. rewrite Hval.
  rewrite bind_eq. rewrite bind_eq. rewrite Hup.
  cbn [result snd trace fst]. subst msg.
  destruct (Bot_Send c bot.msgDownloading) as [failed | m];
    destruct (cloudflare.GetImageURL (Some resp)) as [err | imageURL];
    rewrite ?bind_eq; cbn [result ret call snd trace fst];
    (split; [reflexivity |]);
    rewrite ?editStatus_trace, ?app_nil_r;
    first [ eexists; rewrite !app_assoc; reflexivity
          | eexists; symmetry; apply app_nil_r ].
Qed.

(** C7: from a response that reported success, [GetImageURL] returns the
    first variant URL, and fails with "no image variants in response" when
    the list is empty (so does the earlier [GetImageURL], in its own words).
    In the pipeline that failure takes the same way out as a failed upload:
    the status message is edited to a failure text and the error is returned,
    its kind [ErrCloudflareAPI] being one of the two kinds a failed [Upload]
    reports; with a first variant the pipeline reports that URL. *)
Theorem first_variant_or_upload_failure (b : bot.Bot) (c : Context)
    (fileID filePath : string) (imageBytes : list Byte.byte)
    (vr : validator.Result) (resp : cloudflare.UploadResponse)
    (lresp : legacy_cloudflare.CloudflareResponse) :
  Bot_FileByID c fileID = inr filePath ->
  bot.httpGet env
    (Go.Sprintf "%s/file/bot%s/%s"
       [Go.ArgStr (Bot_URL c); Go.ArgStr (Bot_Token c); Go.ArgStr filePath])
    = inr (inr imageBytes) ->
  result (validator.Validate (bot.lib env) imageBytes) = inr vr ->
  result (cloudflare.Upload (bot.net env) (bot.cfClient b) imageBytes
            (ID (Sender c)) (Some (validator.Metadata vr))) = inr resp ->
  let noVariants := New ErrCloudflareAPI "no image variants in response" in
  let msg := match Bot_Send c bot.msgDownloading with
             | inr m => Some m
             | inl _ => None
             end in
  cloudflare.Success resp = true
  /\ cloudflare.GetImageURL (Some resp) =
       match cloudflare.Result_Variants resp with
       | first :: _ => inr first
       | [] => inl noVariants
       end
  /\ (legacy_cloudflare.Success lresp = true ->
      legacy_cloudflare.GetImageURL (Some lresp) =
        match legacy_cloudflare.Result_Variants lresp with
        | first :: _ => inr first
        | [] => inl (errorString "响应中没有图片URL")
        end)
  /\ (cloudflare.Result_Variants resp = [] ->
      result (bot.processImageUpload env b c fileID) = Some noVariants
      /\ kind noVariants = Some ErrCloudflareAPI
      /\ (forall net cl bytes uid md err,
            result (cloudflare.Upload net cl bytes uid md) = inl err ->
            kind err = Some ErrUploadFailed \/ kind err = kind noVariants)
      /\ exists before,
           trace (bot.processImageUpload env b c fileID) =
             (before ++
              match msg with
              | Some m =>
                  [EvBotEdit m
                     (Go.Sprintf bot.fmtURLFailed [Go.ArgStr (Error noVariants)])]
              | None => []
              end)%list)
  /\ (forall first rest, cloudflare.Result_Variants resp = first :: rest ->
      result (bot.processImageUpload env b c fileID) =
        match msg with
        | Some m => Bot_Edit c m (Go.Sprintf bot.fmtSuccess [Go.ArgStr first])
        | None => Send c (Go.Sprintf bot.fmtSuccess [Go.ArgStr first])
        end).
Proof.
  intros Hfile Hget Hval Hup noVariants msg.
  pose proof (Upload_success _ _ _ _ _ _ Hup) as Hs.
  assert (Hurl : cloudflare.GetImageURL (Some resp) =
                   match cloudflare.Result_Variants resp with
                   | first :: _ => inr first
                   | [] => inl noVariants
                   end)
    by (unfold cloudflare.GetImageURL; rewrite Hs; reflexivity).
  destruct (processImageUpload_result b c fileID filePath imageBytes vr resp
              Hfile Hget Hval Hup) as [Hres [before Htr]].
  fold msg in Hres, Htr. rewrite Hurl in Hres, Htr.
  split; [exact Hs |]. split; [exact Hurl |]. split; [| split].
  - intros Hl. unfold legacy_cloudflare.GetImageURL. rewrite Hl. reflexivity.
  - intros Hnil. rewrite Hnil in Hres, Htr.
    split; [exact Hres |]. split; [reflexivity |].
    split; [exact Upload_failure_kind |]. exists before. exact Htr.
  - intros first rest Hcons. rewrite Hcons in Hres. exact Hres.
Qed.

End CanonicalURLFacts.

Section MetadataFacts.
Import apperrors world.

Variable lib : validator.Lib.

Lemma dom_setTag (exifData : exif.Exif) (f : exif.FieldName) (key : string)
    (m : gmap string Value) :
  dom (validator.setTag exifData f key m) ⊆ {[ key ]} ∪ dom m.
Proof.
  unfold validator.setTag.
  destruct (exif.Get exifData f) as [err | x]; [set_solver |].
  destruct (exif.StringVal x) as [err | str]; [set_solver |].
  rewrite dom_insert_L. set_solver.
Qed.

Lemma extractMetadata_keys (b : list Byte.byte) (format : string) :
  dom (result (validator.extractMetadata lib b format))
    ⊆ ({[ "format"; "camera_make"; "camera_model"; "date_time" ]} : gset string).
Proof.
  unfold validator.extractMetadata.
  destruct (negb _); [cbn; rewrite dom_singleton_L; set_solver |].
  rewrite result_bind. cbn [result call snd].
  destruct (validator.exifDecode lib b) as [err | exifData];
    [cbn; rewrite dom_singleton_L; set_solver |].
  cbn [result ret snd].
  pose proof (dom_setTag exifData exif.DateTime "date_time"
    (validator.setTag exifData exif.Model "camera_model"
       (validator.setTag exifData exif.Make "camera_make"
          {[ "format" := VStr format ]}))) as H1.
  pose proof (dom_setTag exifData exif.Model "camera_model"
    (validator.setTag exifData exif.Make "camera_make"
       {[ "format" := VStr format ]})) as H2.
  pose proof (dom_setTag exifData exif.Make "camera_make"
    ({[ "format" := VStr format ]} : gmap string Value)) as H3.
  rewrite dom_singleton_L in H3. set_solver.
Qed.

Lemma extractMetadata_other (b : list Byte.byte) (format : string) :
  format <> "jpeg" ->
  validator.extractMetadata lib b format = ret {[ "format" := VStr format ]}.
Proof.
  intros Hne. unfold validator.extractMetadata.
  apply String.eqb_neq in Hne. rewrite Hne. reflexivity.
Qed.

(** The metadata of a successful validation: what [extractMetadata] found,
    unless its JSON form is over the budget. *)
Lemma Validate_metadata (b : list Byte.byte) (r : validator.Result) :
  result (validator.Validate lib b) = inr r ->
  let extracted := result (validator.extractMetadata lib b (validator.Format r)) in
  validator.Metadata r =
    if constants.MaxMetadataSizeBytes
         <? Go.strlen (validator.jsonMarshal lib extracted)
    then validator.simplified (validator.Format r)
           {| image.Width := validator.Width r;
              image.Height := validator.Height r |} b
    else extracted.
Proof.
  unfold validator.Validate.
  destruct (_ <? Go.len b); [discriminate |].
  rewrite result_bind. cbn [result call snd].
  destruct (validator.DecodeConfig lib b) as [err | [[w h] format]]; [discriminate |].
  destruct (_ || _)%bool; [discriminate |]. cbn zeta.
  destruct (_ <? Go.int_mul _ _); [discriminate |].
  rewrite !result_bind. cbn [result call ret snd].
  intros [= <-]. reflexivity.
Qed.

Lemma filterMetadata_lookup (m : gmap string Value) (k : string) (v : Value) :
  cloudflare.filterMetadata m !! k = Some v <->
  m !! k = Some v /\ cloudflare.isAllowed k = true.
Proof.
  unfold cloudflare.filterMetadata. rewrite map_lookup_filter_Some. cbn.
  rewrite Is_true_true. reflexivity.
Qed.

Lemma filterMetadata_keys (m : gmap string Value) :
  dom m ⊆ ({[ "format"; "camera_make"; "camera_model"; "date_time" ]} : gset string) ->
  dom (cloudflare.filterMetadata m)
    ⊆ ({[ "format"; "camera_make"; "camera_model" ]} : gset string).
Proof.
  intros Hm k Hk. apply elem_of_dom in Hk as [v Hv].
  apply filterMetadata_lookup in Hv as [Hv Hallowed].
  assert (Hin : k ∈ dom m) by (apply elem_of_dom; eauto).
  apply Hm in Hin.
  assert (Hcases : k = "format" \/ k = "camera_make" \/ k = "camera_model"
                   \/ k = "date_time") by set_solver.
  destruct Hcases as [-> | [-> | [-> | ->]]]; [set_solver .. |].
  vm_compute in Hallowed. discriminate.
Qed.

(** The fields [buildMultipartBody] writes after the file. *)
Lemma buildMultipartBody_fields (net : cloudflare.Net) (imageBytes : list Byte.byte)
    (filename : string) (m : gmap string Value) (k v : string) :
  (k, v) ∈ fields (result (cloudflare.buildMultipartBody net imageBytes
                             filename (Some m))) ->
  (k = "metadata"
   /\ v = cloudflare.jsonMarshal net (cloudflare.filterMetadata m))
  \/ (k = "requireSignedURLs" /\ v = "false").
Proof.
  unfold cloudflare.buildMultipartBody. rewrite result_bind. cbn [result ret snd fields].
  destruct (0 <? _); [| cbn; set_solver].
  rewrite result_bind. cbn [result call snd].
  destruct (_ <? constants.MaxMetadataSizeBytes); cbn; set_solver.
Qed.

(** C10: when an image validates and the JSON form of its extracted
    metadata is within the 1 KiB budget, the keys of [Result.Metadata] lie
    in [{format, camera_make, camera_model, date_time}], and are exactly
    [{format}] when the format is not "jpeg". The allow-list of the upload
    client admits [width], [height] and [file_size], yet what it forwards
    has keys in [{format, camera_make, camera_model}] only: the posted body
    carries, besides [requireSignedURLs], at most the JSON of that filtered
    map, which has no [width], [height], [file_size] or [size] entry. *)
Theorem forwarded_metadata_keys (net : cloudflare.Net) (c : cloudflare.Client)
    (userID : Z) (b : list Byte.byte) (r : validator.Result) :
  result (validator.Validate lib b) = inr r ->
  Go.strlen (validator.jsonMarshal lib
               (result (validator.extractMetadata lib b (validator.Format r))))
    <= constants.MaxMetadataSizeBytes ->
  let forwarded := cloudflare.filterMetadata (validator.Metadata r) in
  dom (validator.Metadata r)
    ⊆ ({[ "format"; "camera_make"; "camera_model"; "date_time" ]} : gset string)
  /\ (validator.Format r <> "jpeg" ->
      dom (validator.Metadata r) = ({[ "format" ]} : gset string))
  /\ (cloudflare.isAllowed "width" = true /\ cloudflare.isAllowed "height" = true
      /\ cloudflare.isAllowed "file_size" = true)
  /\ dom forwarded ⊆ ({[ "format"; "camera_make"; "camera_model" ]} : gset string)
  /\ (forwarded !! "width" = None /\ forwarded !! "height" = None
      /\ forwarded !! "file_size" = None /\ forwarded !! "size" = None)
  /\ Forall (fun e => forall url a body k v,
               e = EvHTTPPost url a body -> (k, v) ∈ fields body ->
               (k = "metadata" /\ v = cloudflare.jsonMarshal net forwarded)
               \/ (k = "requireSignedURLs" /\ v = "false"))
       (trace (cloudflare.Upload net c b userID (Some (validator.Metadata r)))).
Proof.
  intros Hval Hfits forwarded.
  pose proof (Validate_metadata b r Hval) as Hmd. cbn zeta in Hmd.
  destruct (Z.ltb_spec constants.MaxMetadataSizeBytes
              (Go.strlen (validator.jsonMarshal lib
                 (result (validator.extractMetadata lib b (validator.Format r))))));
    [lia |].
  assert (Hkeys : dom (validator.Metadata r)
            ⊆ ({[ "format"; "camera_make"; "camera_model"; "date_time" ]} : gset string))
    by (rewrite Hmd; apply extractMetadata_keys).
  pose proof (filterMetadata_keys _ Hkeys) as Hfwd. fold forwarded in Hfwd.
  split; [exact Hkeys |].
  split.
  { intros Hne. rewrite Hmd, (extractMetadata_other b _ Hne). cbn.
    apply dom_singleton_L. }
  split; [repeat split |].
  split; [exact Hfwd |].
  split.
  { repeat split; apply not_elem_of_dom; intros Hin; apply Hfwd in Hin;
      set_solver. }
  eapply Forall_impl; [apply Upload_posts |].
  intros e He url a body k v Heq Hin. rewrite (He url a body Heq) in Hin.
  exact (buildMultipartBody_fields _ _ _ _ _ _ Hin).
Qed.

End MetadataFacts.

(** The document "d1", uploaded to a service that answers without variants,
    and to one that answers with a URL. *)
Lemma first_variant_or_upload_failure_witness :
  world.result (bot.processImageUpload (sample.env sample.jpeg []) sample.theBot
                  sample.document "d1") =
    Some (apperrors.New apperrors.ErrCloudflareAPI "no image variants in response")
  /\ world.result (bot.processImageUpload sample.served sample.theBot
                     sample.document "d1") = None
  /\ In (world.EvBotEdit 100
           (Go.Sprintf bot.fmtSuccess [Go.ArgStr "https://img.example/1/public"]))
        (world.trace (bot.processImageUpload sample.served sample.theBot
                        sample.document "d1")).
Proof.
  assert (Hval : world.result (validator.Validate sample.lib sample.jpeg) =
                   inr sample.validated) by (vm_compute; reflexivity).
  split.
  - destruct (first_variant_or_upload_failure (sample.env sample.jpeg [])
                sample.theBot sample.document "d1" "photos/d1" sample.jpeg
                sample.validated (sample.answered []) sample.legacyAnswered
                eq_refl eq_refl Hval eq_refl) as [_ [_ [_ [Hnone _]]]].
    exact (proj1 (Hnone eq_refl)).
  - split; [| vm_compute; tauto].
    destruct (first_variant_or_upload_failure sample.served
                sample.theBot sample.document "d1" "photos/d1" sample.jpeg
                sample.validated (sample.answered ["https://img.example/1/public"])
                sample.legacyAnswered eq_refl eq_refl Hval eq_refl)
      as [_ [_ [_ [_ Hfirst]]]].
    exact (Hfirst _ _ eq_refl).
Defined.

(** The sample JPEG: its capture time is extracted and not forwarded. *)
Lemma forwarded_metadata_keys_witness :
  dom (cloudflare.filterMetadata (validator.Metadata sample.validated))
    ⊆ ({[ "format"; "camera_make"; "camera_model" ]} : gset string)
  /\ validator.Metadata sample.validated !! "date_time"
       = Some (world.VStr "2024:01:02 03:04:05")
  /\ cloudflare.filterMetadata (validator.Metadata sample.validated) !! "width" = None.
Proof.
  assert (Hval : world.result (validator.Validate sample.lib sample.jpeg) =
                   inr sample.validated) by (vm_compute; reflexivity).
  assert (Hfits : Go.strlen (validator.jsonMarshal sample.lib
                     (world.result (validator.extractMetadata sample.lib sample.jpeg
                        (validator.Format sample.validated))))
                  <= constants.MaxMetadataSizeBytes)
    by (vm_compute; discriminate).
  destruct (forwarded_metadata_keys sample.lib (sample.net []) (bot.cfClient sample.theBot)
              7 sample.jpeg sample.validated Hval Hfits)
    as [_ [_ [_ [Hdom [[Hwidth _] _]]]]].
  split; [exact Hdom |]. split; [reflexivity | exact Hwidth].
Defined.

(** * Further properties *)

(** ** The roster: membership, removal, round trips *)
Section RosterMore.
Import apperrors world.

Variable fs : config.FS.

(** The removal loop splits the roster at the first occurrence of [userID]. *)
Lemma indexOf_split (users : list Z) (userID : Z) (i : nat) :
  config.indexOf users userID 0 = Some i ->
  exists before after,
    users = (before ++ userID :: after)%list
    /\ (userID ∉ before)
    /\ (take i users ++ drop (S i) users)%list = (before ++ after)%list.
Proof.
  assert (Hgen : forall k,
            config.indexOf users userID k = Some i ->
            exists before after,
              users = (before ++ userID :: after)%list
              /\ (userID ∉ before)
              /\ (take (i - k) users ++ drop (S (i - k)) users)%list
                   = (before ++ after)%list).
  { induction users as [| id rest IH]; intros k; cbn; [discriminate |].
    destruct (Z.eqb_spec id userID) as [-> | Hne].
    - intros [= <-]. rewrite Nat.sub_diag. exists [], rest. cbn.
      rewrite drop_0. repeat split. apply not_elem_of_nil.
    - intros H. pose proof (indexOf_lookup _ _ _ _ H) as [Hle _].
      destruct (IH (S k) H) as (before & after & -> & Hnot & Heq).
      exists (id :: before), after.
      replace (i - k)%nat with (S (i - S k)) by lia. cbn.
      rewrite Heq. repeat split.
      apply not_elem_of_cons. split; [congruence | exact Hnot]. }
  intros H. specialize (Hgen 0%nat H). rewrite Nat.sub_0_r in Hgen. exact Hgen.
Qed.

(** X1: [IsAuthorized] holds exactly of the administrator and of the IDs on
    the roster, and [IsAdmin] implies it. *)
Theorem IsAuthorized_iff (c : config.Config) (userID : Z) :
  (config.IsAuthorized c userID = true <->
     userID = config.AdminID c \/ userID ∈ config.AuthorizedUsers c)
  /\ (config.IsAdmin c userID = true -> config.IsAuthorized c userID = true).
Proof.
  unfold config.IsAuthorized, config.IsAdmin.
  destruct (Z.eqb_spec userID (config.AdminID c)) as [-> | Hne].
  - split; [split; auto | auto].
  - rewrite inList_elem_of. split; [| discriminate].
    split; [auto | intros [? | ?]; [contradiction | assumption]].
Qed.

(** X2: the administrator cannot be removed, listed or not: the call fails
    with "cannot remove admin user", writes nothing and leaves the
    configuration as it was; and no addition or removal changes [AdminID],
    so the administrator passes [IsAuthorized] after every mutation. *)
Theorem admin_stays (c : config.Config) (userID : Z) :
  config.RemoveAuthorizedUser fs c (config.AdminID c) =
    ([], (c, Some (New ErrInvalidConfig "cannot remove admin user")))
  /\ (let c' := (result (config.AddAuthorizedUser fs c userID)).1 in
      config.AdminID c' = config.AdminID c
      /\ config.IsAuthorized c' (config.AdminID c) = true)
  /\ (let c' := (result (config.RemoveAuthorizedUser fs c userID)).1 in
      config.AdminID c' = config.AdminID c
      /\ config.IsAuthorized c' (config.AdminID c) = true).
Proof.
  split.
  { unfold config.RemoveAuthorizedUser. rewrite Z.eqb_refl. reflexivity. }
  assert (Hadmin : forall c' : config.Config,
            config.AdminID c' = config.AdminID c ->
            config.IsAuthorized c' (config.AdminID c) = true).
  { intros c' Heq. unfold config.IsAuthorized. rewrite Heq, Z.eqb_refl. reflexivity. }
  split; cbn zeta.
  - rewrite AddAuthorizedUser_result.
    destruct (config.IsAuthorized c userID); cbn; auto.
  - unfold config.RemoveAuthorizedUser.
    destruct (userID =? config.AdminID c); [cbn; auto |].
    destruct (config.indexOf _ _ _); [| cbn; auto].
    cbn zeta. rewrite result_bind. cbn. auto.
Qed.

(** X3: on a roster without duplicates, a removal that gets past its checks
    leaves [userID] unauthorized, whatever the save returned, and a second
    removal fails with [ErrUserNotFound], writes nothing and changes
    nothing. *)
Theorem RemoveAuthorizedUser_twice (c : config.Config) (userID : Z) :
  NoDup (config.AuthorizedUsers c) ->
  userID <> config.AdminID c ->
  userID ∈ config.AuthorizedUsers c ->
  let c1 := (result (config.RemoveAuthorizedUser fs c userID)).1 in
  config.IsAuthorized c1 userID = false
  /\ config.RemoveAuthorizedUser fs c1 userID =
       ([], (c1, Some (New ErrUserNotFound
                         (Go.Sprintf "user %d is not in authorized list"
                            [Go.ArgInt userID])))).
Proof.
  intros Hnodup Hne Hin c1.
  destruct (config.indexOf (config.AuthorizedUsers c) userID 0) as [i |] eqn:Hidx.
  2: { apply indexOf_none in Hidx. apply inList_elem_of in Hin. congruence. }
  pose proof (RemoveAuthorizedUser_result fs c userID i Hne Hidx) as Hres.
  cbn zeta in Hres.
  destruct (indexOf_split _ _ _ Hidx) as (before & after & Husers & Hnot & Hcut).
  assert (Hc1 : config.AuthorizedUsers c1 = (before ++ after)%list)
    by (unfold c1; rewrite Hres; cbn; exact Hcut).
  assert (Hadmin : config.AdminID c1 = config.AdminID c)
    by (unfold c1; rewrite Hres; reflexivity).
  assert (Hgone : userID ∉ (before ++ after)%list).
  { rewrite Husers in Hnodup. apply NoDup_app in Hnodup as (_ & Hdisj & Hafter).
    apply NoDup_cons in Hafter as [Hnotafter _].
    intros [? | ?]%elem_of_app; contradiction. }
  assert (Hlist : config.inList (config.AuthorizedUsers c1) userID = false).
  { rewrite Hc1. destruct (config.inList _ _) eqn:E; [| reflexivity].
    apply inList_elem_of in E. contradiction. }
  split.
  - unfold config.IsAuthorized. rewrite Hadmin.
    destruct (Z.eqb_spec userID (config.AdminID c)); [contradiction | exact Hlist].
  - unfold config.RemoveAuthorizedUser. rewrite Hadmin.
    destruct (Z.eqb_spec userID (config.AdminID c)); [contradiction |].
    apply (indexOf_none _ _ 0%nat) in Hlist. rewrite Hlist. reflexivity.
Qed.

(** X4: a removal that gets past its checks takes out the first occurrence
    of [userID] and nothing else: the roster keeps its order, every other ID
    keeps its number of entries, and [userID] has one entry fewer, so an ID
    listed twice is still authorized afterwards. *)
Theorem RemoveAuthorizedUser_first_occurrence (c : config.Config) (userID : Z) :
  userID <> config.AdminID c ->
  config.inList (config.AuthorizedUsers c) userID = true ->
  let users := config.AuthorizedUsers c in
  let users' := config.AuthorizedUsers
                  (result (config.RemoveAuthorizedUser fs c userID)).1 in
  (exists before after,
     users = (before ++ userID :: after)%list
     /\ (userID ∉ before)
     /\ users' = (before ++ after)%list)
  /\ (forall x, count_occ Z.eq_dec users' x =
                (count_occ Z.eq_dec users x - (if Z.eq_dec userID x then 1 else 0))%nat)
  /\ ((2 <= count_occ Z.eq_dec users userID)%nat ->
      config.inList users' userID = true).
Proof.
  intros Hne Hin users users'.
  destruct (config.indexOf users userID 0) as [i |] eqn:Hidx.
  2: { apply indexOf_none in Hidx. unfold users in Hidx. congruence. }
  pose proof (RemoveAuthorizedUser_result fs c userID i Hne Hidx) as Hres.
  cbn zeta in Hres.
  destruct (indexOf_split _ _ _ Hidx) as (before & after & Husers & Hnot & Hcut).
  assert (Hu' : users' = (before ++ after)%list)
    by (unfold users'; rewrite Hres; cbn; exact Hcut).
  assert (Hcount : forall x, count_occ Z.eq_dec users' x =
            (count_occ Z.eq_dec users x - (if Z.eq_dec userID x then 1 else 0))%nat).
  { intros x. rewrite Hu', Husers, !count_occ_app. cbn.
    destruct (Z.eq_dec userID x); lia. }
  split; [exists before, after; auto |].
  split; [exact Hcount |].
  intros Htwice. apply inList_elem_of, list_elem_of_In.
  apply (count_occ_In Z.eq_dec). rewrite Hcount.
  destruct (Z.eq_dec userID userID); [lia | contradiction].
Qed.

(** X5: additions and removals keep a roster free of duplicates free of
    duplicates, whatever the save returns. *)
Theorem roster_NoDup_kept (c : config.Config) (userID : Z) :
  NoDup (config.AuthorizedUsers c) ->
  NoDup (config.AuthorizedUsers (result (config.AddAuthorizedUser fs c userID)).1)
  /\ NoDup (config.AuthorizedUsers
              (result (config.RemoveAuthorizedUser fs c userID)).1).
Proof.
  intros Hnodup. split.
  - rewrite AddAuthorizedUser_result.
    destruct (config.IsAuthorized c userID) eqn:Hauth; [exact Hnodup |].
    cbn. apply NoDup_app. split; [exact Hnodup |].
    split; [| apply NoDup_singleton].
    intros x Hx [= ->]%list_elem_of_singleton.
    unfold config.IsAuthorized in Hauth.
    destruct (userID =? config.AdminID c); [discriminate |].
    apply inList_elem_of in Hx. congruence.
  - unfold config.RemoveAuthorizedUser.
    destruct (userID =? config.AdminID c); [exact Hnodup |].
    destruct (config.indexOf _ _ _) as [i |] eqn:Hidx; [| exact Hnodup].
    cbn zeta. rewrite result_bind. cbn.
    destruct (indexOf_split _ _ _ Hidx) as (before & after & Husers & Hnot & ->).
    rewrite Husers in Hnodup. apply NoDup_app in Hnodup as (Hb & Hdisj & Hafter).
    apply NoDup_cons in Hafter as [_ Hafter].
    apply NoDup_app. repeat split; [exact Hb | | exact Hafter].
    intros x Hx Hx'. apply (Hdisj x Hx). right. exact Hx'.
Qed.

Lemma add_then_remove_config (fs' : config.FS) (c : config.Config) (userID : Z) :
  config.IsAuthorized c userID = false ->
  let c1 := (result (config.AddAuthorizedUser fs c userID)).1 in
  config.IsAuthorized c1 userID = true
  /\ (result (config.RemoveAuthorizedUser fs' c1 userID)).1 = c.
Proof.
  intros Hauth c1.
  assert (Hc1 : c1 = config.setAuthorizedUsers c (config.AuthorizedUsers c ++ [userID]))
    by (unfold c1; rewrite AddAuthorizedUser_result, Hauth; reflexivity).
  unfold config.IsAuthorized in Hauth.
  destruct (Z.eqb_spec userID (config.AdminID c)) as [| Hne]; [discriminate |].
  assert (Hidx : forall k, config.indexOf (config.AuthorizedUsers c ++ [userID]) userID k
                           = Some (k + length (config.AuthorizedUsers c))%nat).
  { revert Hauth. generalize (config.AuthorizedUsers c).
    induction l as [| id rest IH]; intros Hl k; cbn in *.
    - rewrite Z.eqb_refl. f_equal. lia.
    - destruct (id =? userID); [discriminate |].
      rewrite (IH Hl (S k)). f_equal. lia. }
  split.
  - rewrite Hc1. unfold config.IsAuthorized. cbn.
    destruct (userID =? config.AdminID c); [reflexivity |].
    apply inList_elem_of. set_solver.
  - rewrite (RemoveAuthorizedUser_result fs' c1 userID
               (length (config.AuthorizedUsers c))).
    + cbn zeta. cbn [fst]. rewrite Hc1. cbn.
      rewrite take_app_length.
      rewrite drop_ge by (rewrite length_app; cbn; lia).
      rewrite app_nil_r. destruct c; reflexivity.
    + rewrite Hc1. exact Hne.
    + rewrite Hc1. cbn. rewrite (Hidx 0%nat). reflexivity.
Qed.

(** X6: round trip. Adding an ID that was not authorized and then removing
    it gives back the configuration the addition started from, whatever the
    two saves returned. *)
Theorem add_then_remove (fs' : config.FS) (c : config.Config) (userID : Z) :
  config.IsAuthorized c userID = false ->
  let c1 := (result (config.AddAuthorizedUser fs c userID)).1 in
  config.IsAuthorized c1 userID = true
  /\ (result (config.RemoveAuthorizedUser fs' c1 userID)).1 = c.
Proof. exact (add_then_remove_config fs' c userID). Qed.

Lemma AddAuthorizedUser_AdminID (c : config.Config) (userID : Z) :
  config.AdminID (result (config.AddAuthorizedUser fs c userID)).1 = config.AdminID c.
Proof.
  rewrite AddAuthorizedUser_result.
  destruct (config.IsAuthorized c userID); reflexivity.
Qed.

(** X7: an addition or removal of [userID] leaves the authorization of every
    other ID as it was. *)
Theorem roster_mutation_frame (c : config.Config) (userID other : Z) :
  other <> userID ->
  config.IsAuthorized (result (config.AddAuthorizedUser fs c userID)).1 other
    = config.IsAuthorized c other
  /\ config.IsAuthorized (result (config.RemoveAuthorizedUser fs c userID)).1 other
    = config.IsAuthorized c other.
Proof.
  intros Hother.
  assert (Hlist : forall l l' : list Z,
            (other ∈ l' <-> other ∈ l) ->
            config.inList l' other = config.inList l other).
  { intros l l' Hiff.
    destruct (config.inList l' other) eqn:E1, (config.inList l other) eqn:E2;
      try reflexivity.
    - apply inList_elem_of, Hiff, inList_elem_of in E1. congruence.
    - apply inList_elem_of, Hiff, inList_elem_of in E2. congruence. }
  split.
  - rewrite AddAuthorizedUser_result.
    destruct (config.IsAuthorized c userID); [reflexivity |].
    unfold config.IsAuthorized. cbn.
    destruct (other =? config.AdminID c); [reflexivity |].
    apply Hlist. set_solver.
  - unfold config.RemoveAuthorizedUser.
    destruct (userID =? config.AdminID c); [reflexivity |].
    destruct (config.indexOf _ _ _) as [i |] eqn:Hidx; [| reflexivity].
    cbn zeta. rewrite result_bind. cbn [result ret snd fst].
    destruct (indexOf_split _ _ _ Hidx) as (before & after & Husers & Hnot & Hcut).
    unfold config.IsAuthorized. cbn.
    destruct (other =? config.AdminID c); [reflexivity |].
    apply Hlist. rewrite Hcut, Husers. set_solver.
Qed.

(** X8: what a mutation writes. Every file write of an addition or removal
    goes to the configuration's own path and carries the YAML of the
    configuration the call leaves in memory; there is at most one. *)
Theorem roster_mutation_writes (c : config.Config) (userID : Z) :
  let written (m : Eff (config.Config * option error)) :=
    Forall (fun e => forall path data, e = EvWriteFile path data ->
              path = config.configPath c
              /\ config.yamlMarshal fs (result m).1 = inr data)
      (trace m)
    /\ (events.count events.isWrite (trace m) <= 1)%nat in
  written (config.AddAuthorizedUser fs c userID)
  /\ written (config.RemoveAuthorizedUser fs c userID).
Proof.
  assert (Hsave : forall c' : config.Config,
            config.configPath c' = config.configPath c ->
            Forall (fun e => forall path data, e = EvWriteFile path data ->
                      path = config.configPath c
                      /\ config.yamlMarshal fs c' = inr data)
              (trace (config.Save fs c'))
            /\ (events.count events.isWrite (trace (config.Save fs c')) <= 1)%nat).
  { intros c' Hpath. unfold config.Save.
    destruct (String.eqb _ _); [cbn; split; [constructor | lia] |].
    rewrite bind_eq. cbn [trace result call fst snd].
    destruct (config.yamlMarshal fs c') as [err | data] eqn:Hm;
      [cbn; split; [repeat constructor; intros; discriminate | lia] |].
    rewrite bind_eq. cbn [trace result call fst snd].
    assert (Hall : Forall (fun e => forall path d, e = EvWriteFile path d ->
                      path = config.configPath c
                      /\ (inr data : error + list Byte.byte) = inr d)
              [EvYAMLMarshal; EvWriteFile (config.configPath c') data]).
    { constructor; [intros; discriminate |]. constructor; [| constructor].
      intros path d [= <- <-]. auto. }
    destruct (config.WriteFile fs _ _); cbn; (split; [exact Hall | lia]). }
  cbn zeta. split.
  - unfold config.AddAuthorizedUser.
    destruct (config.IsAuthorized c userID); [cbn; split; [constructor | lia] |].
    cbn zeta. rewrite bind_eq. cbn [trace result ret fst snd]. rewrite app_nil_r.
    apply Hsave. reflexivity.
  - unfold config.RemoveAuthorizedUser.
    destruct (userID =? config.AdminID c); [cbn; split; [constructor | lia] |].
    destruct (config.indexOf _ _ _); [| cbn; split; [constructor | lia]].
    cbn zeta. rewrite bind_eq. cbn [trace result ret fst snd]. rewrite app_nil_r.
    apply Hsave. reflexivity.
Qed.

End RosterMore.

(** ** Loading the configuration *)
Section LoadFacts.
Import apperrors world.

Variable os : configload.OS.

Lemma firstExisting_found (paths : list string) :
  configload.firstExisting os paths <> "" ->
  configload.Stat os (configload.firstExisting os paths) = None
  /\ configload.firstExisting os paths ∈ paths.
Proof.
  induction paths as [| path rest IH]; cbn; [congruence |].
  destruct (configload.Stat os path) eqn:Hstat.
  - intros H. destruct (IH H) as [Hs Hin]. split; [exact Hs | right; exact Hin].
  - intros _. split; [exact Hstat | left].
Qed.

Lemma firstExisting_none (paths : list string) :
  (forall p, p ∈ paths -> configload.Stat os p <> None) ->
  configload.firstExisting os paths = "".
Proof.
  induction paths as [| path rest IH]; cbn; [reflexivity |].
  intros Hall. destruct (configload.Stat os path) eqn:Hstat.
  - apply IH. intros p Hp. apply Hall. right. exact Hp.
  - exfalso. apply (Hall path); [left | exact Hstat].
Qed.

(** X9: the search for the configuration file prefers the working
    directory, [config.yaml] before [config.yml]; a path it returns is one
    [os.Stat] accepted; and it returns the empty string when [os.Stat]
    accepts no path at all. *)
Theorem findConfigFile_order :
  (configload.Stat os "config.yaml" = None ->
   configload.findConfigFile os = "config.yaml")
  /\ (configload.Stat os "config.yaml" <> None ->
      configload.Stat os "config.yml" = None ->
      configload.findConfigFile os = "config.yml")
  /\ (configload.findConfigFile os <> "" ->
      configload.Stat os (configload.findConfigFile os) = None)
  /\ ((forall p, configload.Stat os p <> None) ->
      configload.findConfigFile os = "").
Proof.
  unfold configload.findConfigFile. repeat split.
  - intros H. destruct (configload.Executable os); cbn; rewrite H; reflexivity.
  - intros H1 H2.
    destruct (configload.Executable os); cbn;
      destruct (configload.Stat os "config.yaml"); try contradiction;
      rewrite H2; reflexivity.
  - intros H. apply firstExisting_found. exact H.
  - intros H. apply firstExisting_none. intros p _. apply H.
Qed.

(** X10: what [Load] returns passes [Validate] (bot token, account ID and
    API token are non-empty), has a log level and a log file path (the
    defaults where the file named none), and carries the path it was read
    from: the given one, or the one the search found. Hence [Save] on a
    loaded configuration never stops at "config path not set": it gets as
    far as marshalling. *)
Theorem Load_result (configPath : string) (cfg : config.Config) (fs : config.FS) :
  configload.Load os configPath = inr cfg ->
  configload.Validate cfg = None
  /\ (config.Telegram_BotToken cfg <> "" /\ config.Cloudflare_AccountID cfg <> ""
      /\ config.Cloudflare_APIToken cfg <> "")
  /\ (config.Logging_Level cfg <> "" /\ config.Logging_FilePath cfg <> "")
  /\ config.configPath cfg <> ""
  /\ config.configPath cfg =
       (if String.eqb configPath "" then configload.findConfigFile os else configPath)
  /\ (exists rest, trace (config.Save fs cfg) = EvYAMLMarshal :: rest).
Proof.
  unfold configload.Load.
  set (path := if String.eqb configPath "" then configload.findConfigFile os
               else configPath).
  destruct (String.eqb path "") eqn:Hpath; [discriminate |].
  destruct (configload.ReadFile os path) as [err | data]; [discriminate |].
  destruct (configload.yamlUnmarshal os data) as [err | parsed]; [discriminate |].
  cbn zeta.
  destruct (configload.Validate (configload.setConfigPath parsed path)) eqn:Hval;
    [discriminate |].
  intros [= <-].
  unfold configload.Validate in Hval. cbn in Hval.
  destruct (String.eqb (config.Telegram_BotToken parsed) "") eqn:H1; [discriminate |].
  destruct (String.eqb (config.Cloudflare_AccountID parsed) "") eqn:H2; [discriminate |].
  destruct (String.eqb (config.Cloudflare_APIToken parsed) "") eqn:H3; [discriminate |].
  apply String.eqb_neq in H1, H2, H3, Hpath.
  split.
  { unfold configload.Validate. cbn.
    apply String.eqb_neq in H1, H2, H3. rewrite H1, H2, H3. reflexivity. }
  split; [cbn; auto |].
  split.
  { cbn. split.
    - destruct (String.eqb (config.Logging_Level parsed) "") eqn:E;
        [discriminate | apply String.eqb_neq; exact E].
    - destruct (String.eqb (config.Logging_FilePath parsed) "") eqn:E;
        [discriminate | apply String.eqb_neq; exact E]. }
  split; [exact Hpath |].
  split; [reflexivity |].
  unfold config.Save.
  cbn [config.configPath configload.setLogging configload.setConfigPath].
  apply String.eqb_neq in Hpath. rewrite Hpath.
  rewrite trace_bind. cbn [trace call fst app]. eexists; reflexivity.
Qed.

(** Every failure of [Load] is an [ErrInvalidConfig]: no file found,
    unreadable, unparsable, or a required field left empty. *)
Theorem Load_failure_kind (configPath : string) (e : error) :
  configload.Load os configPath = inl e -> kind e = Some ErrInvalidConfig.
Proof.
  unfold configload.Load.
  destruct (String.eqb _ ""); [intros [= <-]; reflexivity |].
  destruct (configload.ReadFile os _); [intros [= <-]; reflexivity |].
  destruct (configload.yamlUnmarshal os _) as [err | parsed];
    [intros [= <-]; reflexivity |].
  cbn zeta. unfold configload.Validate.
  repeat (destruct (String.eqb _ ""); [intros [= <-]; reflexivity |]).
  discriminate.
Qed.

End LoadFacts.

(** ** The commands *)
Section CommandFacts.
Import apperrors world telebot.

Variable fs : config.FS.

(** [ParseInt] returns only values of the [int64] range: past it, on
    either side, the result is an error. *)
Theorem ParseInt_range (s : string) (n : Z) :
  gostrings.ParseInt s = inr n -> - 2 ^ 63 <= n <= 2 ^ 63 - 1.
Proof.
  assert (Hnonneg : forall s acc v,
            0 <= acc -> gostrings.parseUintFrom s acc = inr v -> 0 <= v).
  { induction s0 as [| c r IH]; cbn; intros acc v Hacc.
    - intros [= <-]. exact Hacc.
    - destruct (gostrings.digit c) as [d |] eqn:Hd; [| discriminate].
      destruct (_ <=? acc); [discriminate |].
      destruct (_ <? acc * 10 + d); [discriminate |].
      apply IH. unfold gostrings.digit in Hd.
      destruct (_ && _)%bool eqn:E; [| discriminate].
      injection Hd as <-. lia. }
  assert (Huint : forall s v, gostrings.ParseUint s = inr v -> 0 <= v).
  { intros s0 v. destruct s0; [discriminate |]. apply Hnonneg. lia. }
  destruct s as [| c r]; [discriminate |]. unfold gostrings.ParseInt.
  cbn zeta.
  destruct (gostrings.ParseUint _) as [[] | un] eqn:Hun; try discriminate.
  apply Huint in Hun.
  destruct (Ascii.eqb c "-"); cbn [negb andb].
  - destruct (Z.ltb_spec (2 ^ 63) un); [discriminate |]. intros [= <-]. lia.
  - destruct (Z.leb_spec (2 ^ 63) un); [discriminate |]. intros [= <-]. lia.
Qed.

(** X11: only the administrator changes the roster. For any other sender
    [/auth] and [/unauth] answer with the administrators-only message and
    leave the bot as it was: roster, configuration and pending uploads; no
    file is written. *)
Theorem commands_need_admin (b : bot.Bot) (c : Context) :
  config.IsAdmin (bot.config b) (ID (Sender c)) = false ->
  commands.handleAuth fs b c =
    ([EvSend commands.msgAdminOnly], (b, Send c commands.msgAdminOnly))
  /\ commands.handleUnauth fs b c =
       ([EvSend commands.msgAdminOnly], (b, Send c commands.msgAdminOnly)).
Proof.
  intros H. unfold commands.handleAuth, commands.handleUnauth,
    commands.handleUserCommand. rewrite H. split; reflexivity.
Qed.


(** X13: [/auth N] followed by [/unauth N], for an ID that was not
    authorized, returns the bot to the state before the two commands,
    whatever the two saves returned; in between, [N] is authorized. *)
Theorem auth_then_unauth (fs' : config.FS) (b : bot.Bot) (c1 c2 : Context)
    (cmd1 cmd2 arg : string) (targetID : Z) :
  config.IsAdmin (bot.config b) (ID (Sender c1)) = true ->
  ID (Sender c2) = ID (Sender c1) ->
  gostrings.Fields (Text c1) = [cmd1; arg] ->
  gostrings.Fields (Text c2) = [cmd2; arg] ->
  gostrings.ParseInt arg = inr targetID ->
  config.IsAuthorized (bot.config b) targetID = false ->
  let b1 := (result (commands.handleAuth fs b c1)).1 in
  config.IsAuthorized (bot.config b1) targetID = true
  /\ (result (commands.handleUnauth fs' b1 c2)).1 = b.
Proof.
  intros Hadmin Hsender Hf1 Hf2 Hparse Hauth b1.
  pose proof (add_then_remove_config fs fs' (bot.config b) targetID Hauth)
    as [Hin Hback].
  cbn zeta in Hin, Hback.
  assert (Hb1 : b1 = commands.setConfig b
                  (result (config.AddAuthorizedUser fs (bot.config b) targetID)).1).
  { unfold b1, commands.handleAuth, commands.handleUserCommand.
    rewrite Hadmin, Hf1, Hparse. cbn [negb]. cbn zeta.
    rewrite result_bind.
    destruct (result (config.AddAuthorizedUser fs (bot.config b) targetID)).2;
      rewrite result_bind; reflexivity. }
  split; [rewrite Hb1; exact Hin |].
  assert (Hadmin1 : config.IsAdmin (bot.config b1) (ID (Sender c2)) = true).
  { rewrite Hsender, Hb1. unfold config.IsAdmin in *. cbn.
    rewrite (AddAuthorizedUser_AdminID fs (bot.config b) targetID).
    exact Hadmin. }
  unfold commands.handleUnauth, commands.handleUserCommand.
  rewrite Hadmin1, Hf2, Hparse. cbn [negb]. cbn zeta.
  rewrite result_bind.
  assert (Hdone : commands.setConfig b1
            (result (config.RemoveAuthorizedUser fs' (bot.config b1) targetID)).1 = b).
  { rewrite Hb1. cbn [bot.config commands.setConfig]. rewrite Hback.
    destruct b; reflexivity. }
  destruct (result (config.RemoveAuthorizedUser fs' (bot.config b1) targetID)).2;
    rewrite result_bind; cbn [result ret snd fst]; exact Hdone.
Qed.

End CommandFacts.

(** ** The validator: what a result guarantees, and how a call proceeds *)
Section ValidateMore.
Import apperrors world.

Variable lib : validator.Lib.

Lemma wrap64_small (z : Z) : - 2 ^ 63 <= z < 2 ^ 63 -> Go.wrap64 z = z.
Proof. intros H. unfold Go.wrap64. rewrite Z.mod_small; lia. Qed.

(** What [Validate] went through before it returned a result. *)
Lemma Validate_inr (b : list Byte.byte) (r : validator.Result) :
  validator.Validate lib b = (trace (validator.Validate lib b), inr r) ->
  Go.len b <= constants.MaxFileSizeBytes
  /\ validator.DecodeConfig lib b =
       inr ({| image.Width := validator.Width r;
               image.Height := validator.Height r |}, validator.Format r)
  /\ validator.Width r <= constants.MaxImageDimension
  /\ validator.Height r <= constants.MaxImageDimension
  /\ Go.int_mul (validator.Width r) (validator.Height r)
       <= (if String.eqb (validator.Format r) "gif" then constants.MaxAnimatedArea
           else constants.MaxImageArea)
  /\ validator.IsValid r = true
  /\ validator.Size r = Go.len b
  /\ trace (validator.Validate lib b) =
       (EvDecodeConfig
          :: trace (validator.extractMetadata lib b (validator.Format r))
          ++ [EvJSONMarshal])%list.
Proof.
  unfold validator.Validate.
  destruct (Z.ltb_spec constants.MaxFileSizeBytes (Go.len b)); [discriminate |].
  rewrite bind_eq. cbn [trace result call fst snd].
  destruct (validator.DecodeConfig lib b) as [err | [[w h] format]]; [discriminate |].
  cbn [image.Width image.Height].
  destruct (Z.ltb_spec constants.MaxImageDimension w); [discriminate |].
  destruct (Z.ltb_spec constants.MaxImageDimension h); [discriminate |].
  cbn [orb]. cbn zeta.
  destruct (Z.ltb_spec
              (if String.eqb format "gif" then constants.MaxAnimatedArea
               else constants.MaxImageArea) (Go.int_mul w h)); [discriminate |].
  rewrite !bind_eq. cbn [trace result call ret fst snd].
  intros [= <-]. cbn. rewrite ?app_nil_r. repeat split; auto.
Qed.

(** X14: a result of [Validate] is a valid one. It has [IsValid] set, the
    payload's length as [Size], and the format and dimensions the header
    decode reported; the payload is within 10 MiB, width and height within
    12000, and the area within the ceiling of the format, for non-negative
    dimensions as the product of the integers (no wrap-around occurs). *)
Theorem Validate_result_valid (b : list Byte.byte) (r : validator.Result) :
  result (validator.Validate lib b) = inr r ->
  validator.IsValid r = true
  /\ validator.Size r = Go.len b
  /\ Go.len b <= constants.MaxFileSizeBytes
  /\ validator.DecodeConfig lib b =
       inr ({| image.Width := validator.Width r;
               image.Height := validator.Height r |}, validator.Format r)
  /\ validator.Width r <= 12000 /\ validator.Height r <= 12000
  /\ (0 <= validator.Width r -> 0 <= validator.Height r ->
      validator.Width r * validator.Height r
        <= (if String.eqb (validator.Format r) "gif" then 50000000 else 100000000)).
Proof.
  intros Hres.
  assert (Heta : validator.Validate lib b = (trace (validator.Validate lib b), inr r))
    by (rewrite <- Hres; apply eff_eta).
  destruct (Validate_inr b r Heta) as (Hlen & Hdec & Hw & Hh & Harea & Hvalid & Hsize & _).
  unfold constants.MaxImageDimension in Hw, Hh.
  repeat split; auto.
  intros H0w H0h. unfold Go.int_mul in Harea.
  rewrite wrap64_small in Harea by nia. exact Harea.
Qed.

(** X15: past the size check, a decoded width or height above 12000 is
    refused with [ErrImageTooBig], the message naming both dimensions and
    the limit; the header decode is the only library call made. *)
Theorem Validate_dimension_too_big (b : list Byte.byte) (config : image.Config)
    (format : string) :
  Go.len b <= constants.MaxFileSizeBytes ->
  validator.DecodeConfig lib b = inr (config, format) ->
  12000 < image.Width config \/ 12000 < image.Height config ->
  validator.Validate lib b =
    ([EvDecodeConfig],
     inl (New ErrImageTooBig
            ("image dimensions " +:+ pretty (image.Width config) +:+ "x"
               +:+ pretty (image.Height config) +:+ " exceed limit 12000"))).
Proof.
  intros Hlen Hdec Hdim. unfold validator.Validate.
  destruct (Z.ltb_spec constants.MaxFileSizeBytes (Go.len b)); [lia |].
  rewrite bind_eq. cbn [trace result call fst snd]. rewrite Hdec.
  unfold constants.MaxImageDimension.
  destruct (Z.ltb_spec 12000 (image.Width config));
    destruct (Z.ltb_spec 12000 (image.Height config)); try lia; reflexivity.
Qed.

Lemma extractMetadata_trace (b : list Byte.byte) (format : string) :
  trace (validator.extractMetadata lib b format) =
    if String.eqb format "jpeg" then [EvExifDecode] else [].
Proof.
  unfold validator.extractMetadata.
  destruct (String.eqb format "jpeg"); [| reflexivity].
  cbn [negb]. rewrite trace_bind. cbn [trace call fst result snd].
  destruct (validator.exifDecode lib b); reflexivity.
Qed.

(** X16: how a call of [Validate] proceeds. An oversized payload is refused
    with no library call at all; every other failure comes right after the
    one header decode; a success decodes the header once, reads EXIF once
    when and only when the format is "jpeg", and serializes the metadata
    once. Nothing else is ever called: pixel data is never decoded. *)
Theorem Validate_calls (b : list Byte.byte) :
  (constants.MaxFileSizeBytes < Go.len b /\ trace (validator.Validate lib b) = [])
  \/ (Go.len b <= constants.MaxFileSizeBytes
      /\ ((exists e, validator.Validate lib b = ([EvDecodeConfig], inl e))
          \/ (exists r,
                result (validator.Validate lib b) = inr r
                /\ trace (validator.Validate lib b) =
                     if String.eqb (validator.Format r) "jpeg"
                     then [EvDecodeConfig; EvExifDecode; EvJSONMarshal]
                     else [EvDecodeConfig; EvJSONMarshal]))).
Proof.
  destruct (Z.ltb_spec constants.MaxFileSizeBytes (Go.len b)) as [Hbig | Hsmall].
  { left. split; [exact Hbig |]. rewrite (Validate_oversize lib b Hbig). reflexivity. }
  right. split; [exact Hsmall |].
  destruct (result (validator.Validate lib b)) as [e | r] eqn:Hres.
  - left. exists e. revert Hres. unfold validator.Validate.
    destruct (Z.ltb_spec constants.MaxFileSizeBytes (Go.len b)); [lia |].
    rewrite bind_eq. cbn [trace result call fst snd].
    destruct (validator.DecodeConfig lib b) as [err | [config format]];
      [cbn; intros [= <-]; reflexivity |].
    destruct (_ || _)%bool; [cbn; intros [= <-]; reflexivity |]. cbn zeta.
    destruct (_ <? Go.int_mul _ _); [cbn; intros [= <-]; reflexivity |].
    rewrite !result_bind. discriminate.
  - right. exists r. split; [reflexivity |].
    assert (Heta : validator.Validate lib b = (trace (validator.Validate lib b), inr r))
      by (rewrite <- Hres; apply eff_eta).
    destruct (Validate_inr b r Heta) as (_ & _ & _ & _ & _ & _ & _ & ->).
    rewrite extractMetadata_trace.
    destruct (String.eqb (validator.Format r) "jpeg"); reflexivity.
Qed.

(** X17: the metadata-size guard. When the JSON of the extracted metadata is
    over 1 KiB, [Result.Metadata] is the replacement map with exactly the
    keys [format], [width], [height], [size]; of these the upload client's
    allow-list forwards [format], [width] and [height], and drops [size]
    (the list names [file_size]). *)
Theorem Validate_metadata_fallback (b : list Byte.byte) (r : validator.Result) :
  result (validator.Validate lib b) = inr r ->
  constants.MaxMetadataSizeBytes
    < Go.strlen (validator.jsonMarshal lib
                   (result (validator.extractMetadata lib b (validator.Format r)))) ->
  validator.Metadata r =
    validator.simplified (validator.Format r)
      {| image.Width := validator.Width r; image.Height := validator.Height r |} b
  /\ dom (validator.Metadata r) = ({[ "format"; "width"; "height"; "size" ]} : gset string)
  /\ cloudflare.filterMetadata (validator.Metadata r) =
       <["format" := VStr (validator.Format r)]>
         (<["width" := VInt (validator.Width r)]>
           (<["height" := VInt (validator.Height r)]> ∅))
  /\ cloudflare.filterMetadata (validator.Metadata r) !! "size" = None.
Proof.
  intros Hres Hover.
  pose proof (Validate_metadata lib b r Hres) as Hmd. cbn zeta in Hmd.
  destruct (Z.ltb_spec constants.MaxMetadataSizeBytes
              (Go.strlen (validator.jsonMarshal lib
                 (result (validator.extractMetadata lib b (validator.Format r))))));
    [| lia].
  assert (Hfilter : cloudflare.filterMetadata (validator.Metadata r) =
            <["format" := VStr (validator.Format r)]>
              (<["width" := VInt (validator.Width r)]>
                (<["height" := VInt (validator.Height r)]> ∅))).
  { rewrite Hmd. unfold validator.simplified, cloudflare.filterMetadata. cbn.
    rewrite !map_filter_insert. cbn. rewrite map_filter_empty.
    reflexivity. }
  split; [exact Hmd |].
  split.
  { rewrite Hmd. unfold validator.simplified.
    rewrite !dom_insert_L, dom_empty_L. set_solver. }
  split; [exact Hfilter |].
  rewrite Hfilter. reflexivity.
Qed.

End ValidateMore.

(** ** The upload client: filter, body, request *)
Section UploadMore.
Import apperrors world.

Variable net : cloudflare.Net.

(** X18: [filterMetadata] keeps the entries under the six allowed keys as
    they are, drops every other entry, and filtering twice is filtering
    once. *)
Theorem filterMetadata_keeps_allowed (m : gmap string Value) :
  (forall k, cloudflare.filterMetadata m !! k =
             if cloudflare.isAllowed k then m !! k else None)
  /\ cloudflare.filterMetadata m ⊆ m
  /\ cloudflare.filterMetadata (cloudflare.filterMetadata m)
       = cloudflare.filterMetadata m
  /\ (forall k, cloudflare.isAllowed k = true <->
        k ∈ ["width"; "height"; "format"; "file_size"; "camera_make"; "camera_model"]).
Proof.
  assert (Hlookup : forall (m' : gmap string Value) k,
            cloudflare.filterMetadata m' !! k =
            if cloudflare.isAllowed k then m' !! k else None).
  { intros m' k. unfold cloudflare.filterMetadata.
    destruct (cloudflare.isAllowed k) eqn:Hk.
    - destruct (m' !! k) as [v |] eqn:Hv.
      + apply map_lookup_filter_Some. cbn. rewrite Hk. split; [exact Hv | exact I].
      + apply map_lookup_filter_None. left. exact Hv.
    - apply map_lookup_filter_None. right. intros v _. cbn. rewrite Hk. auto. }
  split; [apply Hlookup |].
  split; [apply map_filter_subseteq |].
  split.
  { apply map_eq. intros k. rewrite !Hlookup.
    destruct (cloudflare.isAllowed k); reflexivity. }
  intros k. unfold cloudflare.isAllowed, cloudflare.allowed. cbn.
  split.
  - intros H.
    destruct (decide (k ∈ ["width"; "height"; "format"; "file_size";
                            "camera_make"; "camera_model"])) as [| Hnot];
      [assumption |].
    rewrite !lookup_insert_ne in H by set_solver. rewrite lookup_empty in H.
    discriminate.
  - intros Hin. repeat (apply elem_of_cons in Hin as [-> | Hin]; [reflexivity |]).
    inversion Hin.
Qed.

(** X19: the multipart body. The file part carries the given name and the
    image bytes unchanged; the last field is [requireSignedURLs=false]; there
    is at most one more field, [metadata], present exactly when the filtered
    metadata is non-empty and its JSON shorter than 1 KiB, and holding that
    JSON. *)
Theorem buildMultipartBody_shape (imageBytes : list Byte.byte) (filename : string)
    (metadata : option (gmap string Value)) :
  let body := result (cloudflare.buildMultipartBody net imageBytes filename metadata) in
  let forwarded :=
    match metadata with
    | Some m =>
        let filtered := cloudflare.filterMetadata m in
        if bool_decide (filtered = ∅) then None
        else if Go.strlen (cloudflare.jsonMarshal net filtered) <? 1024
             then Some (cloudflare.jsonMarshal net filtered) else None
    | None => None
    end in
  file_name body = filename
  /\ file_data body = imageBytes
  /\ fields body =
       match forwarded with
       | Some json => [("metadata", json); ("requireSignedURLs", "false")]
       | None => [("requireSignedURLs", "false")]
       end.
Proof.
  cbn zeta. unfold cloudflare.buildMultipartBody. rewrite result_bind.
  cbn [result ret snd file_name file_data fields].
  split; [reflexivity |]. split; [reflexivity |].
  destruct metadata as [m |]; [| reflexivity].
  destruct (decide (cloudflare.filterMetadata m = ∅)) as [Hempty | Hne].
  - rewrite bool_decide_eq_true_2 by exact Hempty.
    rewrite Hempty, map_size_empty. reflexivity.
  - rewrite bool_decide_eq_false_2 by exact Hne.
    assert (Hsize : (0 < size (cloudflare.filterMetadata m))%nat).
    { destruct (size (cloudflare.filterMetadata m)) eqn:E; [| lia].
      apply map_size_empty_iff in E. contradiction. }
    destruct (Z.ltb_spec 0 (Z.of_nat (size (cloudflare.filterMetadata m)))); [| lia].
    rewrite result_bind. cbn [result call snd].
    unfold constants.MaxMetadataSizeBytes.
    destruct (_ <? 1024); reflexivity.
Qed.

Lemma count_app (p : Event -> bool) (t1 t2 : list Event) :
  events.count p (t1 ++ t2) = (events.count p t1 + events.count p t2)%nat.
Proof. unfold events.count. rewrite List.filter_app, length_app. reflexivity. Qed.

Lemma count_none (p : Event -> bool) (tr : list Event) :
  Forall (fun e => p e = false) tr -> events.count p tr = 0%nat.
Proof.
  unfold events.count. induction 1 as [| e tr He _ IH]; [reflexivity |].
  cbn. rewrite He. exact IH.
Qed.

Lemma count_cons (p : Event -> bool) (e : Event) (tr : list Event) :
  events.count p (e :: tr) = ((if p e then 1 else 0) + events.count p tr)%nat.
Proof. unfold events.count. cbn. destruct (p e); reflexivity. Qed.

Lemma count_nil (p : Event -> bool) : events.count p [] = 0%nat.
Proof. reflexivity. Qed.

Lemma buildMultipartBody_quiet (p : Event -> bool) (imageBytes : list Byte.byte)
    (filename : string) (metadata : option (gmap string Value)) :
  p EvJSONMarshal = false ->
  events.count p (trace (cloudflare.buildMultipartBody net imageBytes filename metadata))
    = 0%nat.
Proof.
  intros Hp. apply count_none. unfold cloudflare.buildMultipartBody.
  forall_trace; exact Hp.
Qed.

(** The trace of [Upload]: the body is built, then the request is posted,
    its answer read and parsed, as far as the call gets. *)
Lemma Upload_trace (c : cloudflare.Client) (imageBytes : list Byte.byte)
    (userID : Z) (metadata : option (gmap string Value)) :
  let body := result (cloudflare.buildMultipartBody net imageBytes
                        (cloudflare.generateFilename net userID) metadata) in
  let post :=
    EvHTTPPost
      ("https://api.cloudflare.com/client/v4/accounts/"
         +:+ config.Cloudflare_AccountID (cloudflare.config c) +:+ "/images/v1")
      ("Bearer " +:+ config.Cloudflare_APIToken (cloudflare.config c)) body in
  exists n,
    trace (cloudflare.Upload net c imageBytes userID metadata) =
      (trace (cloudflare.buildMultipartBody net imageBytes
                (cloudflare.generateFilename net userID) metadata)
       ++ take n [post; EvReadAll; EvJSONUnmarshal])%list.
Proof.
  cbn zeta. unfold cloudflare.Upload. cbn zeta. rewrite trace_bind.
  change (Go.Sprintf "https://api.cloudflare.com/client/v4/accounts/%s/images/v1"
            [Go.ArgStr (config.Cloudflare_AccountID (cloudflare.config c))])
    with ("https://api.cloudflare.com/client/v4/accounts/"
            +:+ config.Cloudflare_AccountID (cloudflare.config c) +:+ "/images/v1").
  destruct (cloudflare.NewRequest net _); [exists 0%nat; reflexivity |].
  rewrite bind_eq. cbn [trace result call fst snd].
  destruct (cloudflare.Do net _ _ _) as [err | [status respBody]];
    [exists 1%nat; reflexivity |].
  rewrite bind_eq. cbn [trace result call fst snd].
  destruct respBody as [err | bytes]; [exists 2%nat; reflexivity |].
  rewrite bind_eq. cbn [trace result call fst snd].
  exists 3%nat.
  destruct (cloudflare.jsonUnmarshal net bytes) as [err | parsed];
    [| destruct (negb (cloudflare.Success parsed))]; reflexivity.
Qed.

(** X20: [Upload] sends at most one request, whatever happens: nothing is
    retried. The request goes to the images endpoint of the configured
    account with the configured token as bearer, and its file part is the
    image as given. [Upload] makes no file request to Telegram and no GET. *)
Theorem Upload_one_request (c : cloudflare.Client) (imageBytes : list Byte.byte)
    (userID : Z) (metadata : option (gmap string Value)) :
  let tr := trace (cloudflare.Upload net c imageBytes userID metadata) in
  (events.count events.isPost tr <= 1)%nat
  /\ events.count events.isGet tr = 0%nat
  /\ events.count events.isFileRequest tr = 0%nat
  /\ Forall (fun e => forall url authorization body,
               e = EvHTTPPost url authorization body ->
               url = "https://api.cloudflare.com/client/v4/accounts/"
                       +:+ config.Cloudflare_AccountID (cloudflare.config c)
                       +:+ "/images/v1"
               /\ authorization =
                    "Bearer " +:+ config.Cloudflare_APIToken (cloudflare.config c)
               /\ file_data body = imageBytes)
       tr.
Proof.
  cbn zeta.
  destruct (Upload_trace c imageBytes userID metadata) as [n ->].
  rewrite !count_app, !buildMultipartBody_quiet by reflexivity.
  split; [destruct n as [| [| [| [| n]]]]; cbn; lia |].
  split; [destruct n as [| [| [| [| n]]]]; reflexivity |].
  split; [destruct n as [| [| [| [| n]]]]; reflexivity |].
  apply Forall_app. split.
  - unfold cloudflare.buildMultipartBody. forall_trace; intros; discriminate.
  - apply Forall_take. constructor.
    + intros url a body [= <- <- <-]. repeat split.
      unfold cloudflare.buildMultipartBody. rewrite result_bind. reflexivity.
    + repeat constructor; intros; discriminate.
Qed.

Lemma append_empty_r (s : string) : s +:+ "" = s.
Proof.
  induction s as [| c r IH]; [reflexivity |].
  change (String c (r +:+ "") = String c r). f_equal. exact IH.
Qed.

Lemma Error_New (t : ErrType) (m : string) :
  Error (New t m) = sentinel t +:+ ": " +:+ m.
Proof. cbn. rewrite append_empty_r. reflexivity. Qed.

(** X21: a response that parses with [success] false makes [Upload] fail
    with [ErrCloudflareAPI], and the error text lists the service's messages:
    "cloudflare API error: API errors: [m1 m2 ...]". The HTTP status code of
    the response plays no part in this, nor in a success. *)
Theorem Upload_refused (c : cloudflare.Client) (imageBytes : list Byte.byte)
    (userID : Z) (metadata : option (gmap string Value))
    (status : Z) (respBody : list Byte.byte) (resp : cloudflare.UploadResponse) :
  (forall url, cloudflare.NewRequest net url = None) ->
  (forall url authorization body,
     cloudflare.Do net url authorization body = inr (status, inr respBody)) ->
  cloudflare.jsonUnmarshal net respBody = inr resp ->
  result (cloudflare.Upload net c imageBytes userID metadata) =
    (if cloudflare.Success resp then inr resp
     else inl (New ErrCloudflareAPI
                 ("API errors: [" +:+ Go.join " " (cloudflare.Errors resp) +:+ "]")))
  /\ Error (New ErrCloudflareAPI
              ("API errors: [" +:+ Go.join " " (cloudflare.Errors resp) +:+ "]")) =
       "cloudflare API error: API errors: ["
         +:+ Go.join " " (cloudflare.Errors resp) +:+ "]".
Proof.
  intros Hreq Hdo Hparse. split; [| rewrite Error_New; reflexivity].
  unfold cloudflare.Upload. cbn zeta. rewrite result_bind, Hreq.
  rewrite result_bind. cbn [result call snd]. rewrite Hdo.
  rewrite result_bind. cbn [result call snd].
  rewrite result_bind. cbn [result call snd]. rewrite Hparse.
  destruct (cloudflare.Success resp); [reflexivity |].
  cbn. rewrite append_empty_r. reflexivity.
Qed.

End UploadMore.

(** Splits a count over the pieces of a trace. *)
Ltac count_split :=
  repeat first [ rewrite count_app | rewrite count_cons | rewrite count_nil ].

(** ** The pipeline: where it stops, what it never repeats *)
Section PipelineMore.
Import apperrors world telebot.

Variable env : bot.Env.

(** The pipeline, stage by stage. [edit text] is the edit of the status
    message, when there is one. *)
Lemma processImageUpload_stages (b : bot.Bot) (c : Context) (fileID : string) :
  let msg := match Bot_Send c bot.msgDownloading with
             | inr m => Some m
             | inl _ => None
             end in
  let edit (text : string) :=
    match msg with Some m => [EvBotEdit m text] | None => [] end in
  let start := [EvBotSend bot.msgDownloading; EvFileByID fileID] in
  bot.processImageUpload env b c fileID =
    match Bot_FileByID c fileID with
    | inl err =>
        ((start ++ edit bot.msgNoFileInfo)%list,
         Some (Wrap ErrDownloadFailed "failed to get file info" err))
    | inr filePath =>
        let fileURL := Go.Sprintf "%s/file/bot%s/%s"
                         [Go.ArgStr (Bot_URL c); Go.ArgStr (Bot_Token c);
                          Go.ArgStr filePath] in
        match bot.httpGet env fileURL with
        | inl err =>
            ((start ++ EvHTTPGet fileURL :: edit bot.msgNoDownload)%list,
             Some (Wrap ErrDownloadFailed "failed to download file" err))
        | inr (inl err) =>
            ((start ++ EvHTTPGet fileURL :: EvReadAll :: edit bot.msgNoRead)%list,
             Some (Wrap ErrDownloadFailed "failed to read file" err))
        | inr (inr imageBytes) =>
            let fetched :=
              (start ++ EvHTTPGet fileURL :: EvReadAll :: edit bot.msgValidating
                 ++ trace (validator.Validate (bot.lib env) imageBytes))%list in
            match result (validator.Validate (bot.lib env) imageBytes) with
            | inl err =>
                ((fetched ++ edit (Go.Sprintf bot.fmtValidationFailed
                                     [Go.ArgStr (Error err)]))%list,
                 Some err)
            | inr vr =>
                let upload :=
                  cloudflare.Upload (bot.net env) (bot.cfClient b) imageBytes
                    (ID (Sender c)) (Some (validator.Metadata vr)) in
                let uploaded :=
                  (fetched ++ edit bot.msgUploading ++ trace upload)%list in
                match result upload with
                | inl err =>
                    ((uploaded ++ edit (Go.Sprintf bot.fmtUploadFailed
                                          [Go.ArgStr (Error err)]))%list,
                     Some err)
                | inr resp =>
                    match cloudflare.GetImageURL (Some resp) with
                    | inl err =>
                        ((uploaded ++ edit (Go.Sprintf bot.fmtURLFailed
                                              [Go.ArgStr (Error err)]))%list,
                         Some err)
                    | inr imageURL =>
                        let text := Go.Sprintf bot.fmtSuccess [Go.ArgStr imageURL] in
                        match msg with
                        | Some m => ((uploaded ++ [EvBotEdit m text])%list,
                                     Bot_Edit c m text)
                        | None => ((uploaded ++ [EvSend text])%list, Send c text)
                        end
                    end
                end
            end
        end
    end.
Proof.
  cbn zeta. unfold bot.processImageUpload. cbn zeta.
  rewrite bind_eq. cbn [result call snd trace fst].
  rewrite bind_eq. cbn [result call snd trace fst].
  destruct (Bot_FileByID c fileID) as [err | filePath].
  { rewrite bind_eq, editStatus_trace. cbn [result ret snd trace fst].
    rewrite app_nil_r. destruct (Bot_Send c bot.msgDownloading); reflexivity. }
  rewrite bind_eq. cbn [result call snd trace fst].
  destruct (bot.httpGet env _) as [err | [err | imageBytes]].
  { rewrite bind_eq, editStatus_trace. cbn [result ret snd trace fst].
    rewrite app_nil_r. destruct (Bot_Send c bot.msgDownloading); reflexivity. }
  { rewrite bind_eq. cbn [result call snd trace fst].
    rewrite bind_eq, editStatus_trace. cbn [result ret snd trace fst].
    rewrite app_nil_r. destruct (Bot_Send c bot.msgDownloading); reflexivity. }
  rewrite bind_eq. cbn [result call snd trace fst].
  rewrite bind_eq, editStatus_trace. rewrite bind_eq.
  destruct (result (validator.Validate (bot.lib env) imageBytes)) as [err | vr].
  { rewrite bind_eq, editStatus_trace. cbn [result ret snd trace fst].
    rewrite app_nil_r. cbn [app]. rewrite <- !app_assoc.
    destruct (Bot_Send c bot.msgDownloading); reflexivity. }
  rewrite bind_eq, editStatus_trace. rewrite bind_eq.
  destruct (result (cloudflare.Upload _ _ _ _ _)) as [err | resp].
  { rewrite bind_eq, editStatus_trace. cbn [result ret snd trace fst].
    rewrite app_nil_r. cbn [app]. rewrite <- !app_assoc.
    destruct (Bot_Send c bot.msgDownloading); reflexivity. }
  destruct (cloudflare.GetImageURL (Some resp)) as [err | imageURL].
  { rewrite bind_eq, editStatus_trace. cbn [result ret snd trace fst].
    rewrite app_nil_r. cbn [app]. rewrite <- !app_assoc.
    destruct (Bot_Send c bot.msgDownloading); reflexivity. }
  destruct (Bot_Send c bot.msgDownloading);
    cbn [result call snd trace fst app]; rewrite <- !app_assoc; reflexivity.
Qed.

Lemma Validate_quiet (p : Event -> bool) (lib : validator.Lib) (b : list Byte.byte) :
  p EvDecodeConfig = false -> p EvExifDecode = false -> p EvJSONMarshal = false ->
  events.count p (trace (validator.Validate lib b)) = 0%nat.
Proof.
  intros H1 H2 H3. apply count_none.
  unfold validator.Validate, validator.extractMetadata.
  forall_trace; cbn zeta; forall_trace; assumption.
Qed.

Lemma Upload_counts (p : Event -> bool) (net : cloudflare.Net)
    (c : cloudflare.Client) (imageBytes : list Byte.byte) (userID : Z)
    (metadata : option (gmap string Value)) :
  p EvJSONMarshal = false -> p EvReadAll = false -> p EvJSONUnmarshal = false ->
  (events.count p (trace (cloudflare.Upload net c imageBytes userID metadata))
     <= 1)%nat
  /\ ((forall url a body, p (EvHTTPPost url a body) = false) ->
      events.count p (trace (cloudflare.Upload net c imageBytes userID metadata))
        = 0%nat).
Proof.
  intros H1 H2 H3.
  destruct (Upload_trace net c imageBytes userID metadata) as [n ->].
  rewrite count_app, (buildMultipartBody_quiet net p _ _ _ H1).
  unfold events.count.
  split.
  - destruct n as [| [| [| [| n]]]]; cbn; rewrite ?H2, ?H3;
      try destruct (p (EvHTTPPost _ _ _)); cbn; lia.
  - intros H4. destruct n as [| [| [| [| n]]]]; cbn; rewrite ?H4, ?H2, ?H3; reflexivity.
Qed.

(** X22: a failed download stops the pipeline. Whether Telegram does not
    know the file, the GET fails or the body cannot be read, the pipeline
    returns an [ErrDownloadFailed] wrapping the cause, and neither decodes
    anything nor posts anything. *)
Theorem download_failure_stops (b : bot.Bot) (c : Context) (fileID : string)
    (cause : error) :
  let failed (message : string) :=
    result (bot.processImageUpload env b c fileID)
      = Some (Wrap ErrDownloadFailed message cause)
    /\ events.count events.isDecode (trace (bot.processImageUpload env b c fileID))
         = 0%nat
    /\ events.count events.isPost (trace (bot.processImageUpload env b c fileID))
         = 0%nat in
  (Bot_FileByID c fileID = inl cause ->
   failed "failed to get file info"
   /\ events.count events.isGet (trace (bot.processImageUpload env b c fileID))
        = 0%nat)
  /\ (forall filePath,
        Bot_FileByID c fileID = inr filePath ->
        let fileURL := Bot_URL c +:+ "/file/bot" +:+ Bot_Token c +:+ "/" +:+ filePath in
        (bot.httpGet env fileURL = inl cause -> failed "failed to download file")
        /\ (bot.httpGet env fileURL = inr (inl cause) -> failed "failed to read file")).
Proof.
  cbn zeta.
  pose proof (processImageUpload_stages b c fileID) as Hst. cbn zeta in Hst.
  assert (Hurl : forall filePath,
            Go.Sprintf "%s/file/bot%s/%s"
              [Go.ArgStr (Bot_URL c); Go.ArgStr (Bot_Token c); Go.ArgStr filePath]
            = Bot_URL c +:+ "/file/bot" +:+ Bot_Token c +:+ "/" +:+ filePath).
  { intros filePath. cbn. rewrite append_empty_r. reflexivity. }
  split.
  - intros Hfile. rewrite Hfile in Hst. rewrite Hst.
    destruct (Bot_Send c bot.msgDownloading); repeat split.
  - intros filePath Hfile. rewrite Hfile, Hurl in Hst. split; intros Hget;
      rewrite Hget in Hst; rewrite Hst;
      destruct (Bot_Send c bot.msgDownloading); repeat split.
Qed.

(** X23: a payload the validator refuses is never uploaded. The pipeline
    returns the validator's error itself, posts nothing, and its last act is
    the edit of the status message (when there is one) to the failure marker
    and the error's text. *)
Theorem validation_failure_skips_upload (b : bot.Bot) (c : Context)
    (fileID filePath : string) (imageBytes : list Byte.byte) (err : error) :
  Bot_FileByID c fileID = inr filePath ->
  bot.httpGet env
    (Go.Sprintf "%s/file/bot%s/%s"
       [Go.ArgStr (Bot_URL c); Go.ArgStr (Bot_Token c); Go.ArgStr filePath])
    = inr (inr imageBytes) ->
  result (validator.Validate (bot.lib env) imageBytes) = inl err ->
  result (bot.processImageUpload env b c fileID) = Some err
  /\ events.count events.isPost (trace (bot.processImageUpload env b c fileID))
       = 0%nat
  /\ exists before,
       trace (bot.processImageUpload env b c fileID) =
         (before ++
          match Bot_Send c bot.msgDownloading with
          | inr m => [EvBotEdit m ("❌ 验证失败: " +:+ Error err)]
          | inl _ => []
          end)%list.
Proof.
  intros Hfile Hget Hval.
  pose proof (processImageUpload_stages b c fileID) as Hst. cbn zeta in Hst.
  rewrite Hfile, Hget, Hval in Hst. rewrite Hst. cbn [result snd trace fst].
  assert (Htext : Go.Sprintf bot.fmtValidationFailed [Go.ArgStr (Error err)]
                  = "❌ 验证失败: " +:+ Error err)
    by (cbn; rewrite append_empty_r; reflexivity).
  rewrite Htext.
  split; [reflexivity |]. split.
  - count_split. rewrite (Validate_quiet events.isPost) by reflexivity.
    destruct (Bot_Send c bot.msgDownloading); reflexivity.
  - destruct (Bot_Send c bot.msgDownloading); eexists; reflexivity.
Qed.

(** X24: nothing is retried. Whatever the outcome, a run of the pipeline
    asks Telegram for the file once, makes at most one GET, and posts to the
    upload service at most once. *)
Theorem pipeline_no_retry (b : bot.Bot) (c : Context) (fileID : string) :
  let tr := trace (bot.processImageUpload env b c fileID) in
  events.count events.isFileRequest tr = 1%nat
  /\ (events.count events.isGet tr <= 1)%nat
  /\ (events.count events.isPost tr <= 1)%nat.
Proof.
  cbn zeta.
  pose proof (processImageUpload_stages b c fileID) as Hst. cbn zeta in Hst.
  rewrite Hst. clear Hst.
  assert (Hedit : forall (p : Event -> bool) (msg : option Z) text,
            (forall m t, p (EvBotEdit m t) = false) ->
            events.count p (match msg with Some m => [EvBotEdit m text] | None => [] end)
              = 0%nat).
  { intros p msg text Hp. destruct msg; cbn; [unfold events.count; cbn; rewrite Hp |];
      reflexivity. }
  set (msg := match Bot_Send c bot.msgDownloading with
              | inr m => Some m | inl _ => None end).
  destruct (Bot_FileByID c fileID) as [err | filePath].
  { cbn [trace fst]. count_split. rewrite !Hedit by reflexivity.
    repeat split; cbn; lia. }
  destruct (bot.httpGet env _) as [err | [err | imageBytes]].
  { cbn [trace fst]. count_split. rewrite !Hedit by reflexivity.
    repeat split; cbn; lia. }
  { cbn [trace fst]. count_split. rewrite !Hedit by reflexivity.
    repeat split; cbn; lia. }
  cbn zeta.
  pose proof (Validate_quiet events.isFileRequest (bot.lib env) imageBytes
                eq_refl eq_refl eq_refl) as Hv1.
  pose proof (Validate_quiet events.isGet (bot.lib env) imageBytes
                eq_refl eq_refl eq_refl) as Hv2.
  pose proof (Validate_quiet events.isPost (bot.lib env) imageBytes
                eq_refl eq_refl eq_refl) as Hv3.
  destruct (result (validator.Validate (bot.lib env) imageBytes)) as [err | vr].
  { cbn [trace fst]. count_split. rewrite !Hedit, Hv1, Hv2, Hv3 by reflexivity.
    repeat split; cbn; lia. }
  destruct (Upload_counts events.isFileRequest (bot.net env) (bot.cfClient b)
              imageBytes (ID (Sender c)) (Some (validator.Metadata vr))
              eq_refl eq_refl eq_refl) as [_ Hu1].
  destruct (Upload_counts events.isGet (bot.net env) (bot.cfClient b)
              imageBytes (ID (Sender c)) (Some (validator.Metadata vr))
              eq_refl eq_refl eq_refl) as [_ Hu2].
  destruct (Upload_counts events.isPost (bot.net env) (bot.cfClient b)
              imageBytes (ID (Sender c)) (Some (validator.Metadata vr))
              eq_refl eq_refl eq_refl) as [Hu3 _].
  specialize (Hu1 (fun _ _ _ => eq_refl)). specialize (Hu2 (fun _ _ _ => eq_refl)).
  destruct (result (cloudflare.Upload _ _ _ _ _)) as [err | resp].
  { cbn [trace fst]. count_split. rewrite !Hedit, Hv1, Hv2, Hv3, Hu1, Hu2 by reflexivity.
    repeat split; cbn; lia. }
  destruct (cloudflare.GetImageURL (Some resp)) as [err | imageURL].
  { cbn [trace fst]. count_split. rewrite !Hedit, Hv1, Hv2, Hv3, Hu1, Hu2 by reflexivity.
    repeat split; cbn; lia. }
  destruct msg; cbn [trace fst]; count_split;
    rewrite ?Hedit, Hv1, Hv2, Hv3, Hu1, Hu2 by reflexivity;
    repeat split; cbn; lia.
Qed.

(** X25: when the first status message cannot be sent, the pipeline edits
    nothing, and the only message it ever sends is the success text with the
    image URL: after a failure of any stage the caller is told nothing. *)
Theorem unsent_status_stays_silent (b : bot.Bot) (c : Context) (fileID : string)
    (cause : error) :
  Bot_Send c bot.msgDownloading = inl cause ->
  let tr := trace (bot.processImageUpload env b c fileID) in
  events.count events.isBotEdit tr = 0%nat
  /\ (forall text, In (EvSend text) tr ->
        exists resp imageURL,
          cloudflare.GetImageURL (Some resp) = inr imageURL
          /\ text = Go.Sprintf bot.fmtSuccess [Go.ArgStr imageURL]
          /\ result (bot.processImageUpload env b c fileID) = Send c text).
Proof.
  intros Hsend. cbn zeta.
  pose proof (processImageUpload_stages b c fileID) as Hst. cbn zeta in Hst.
  rewrite Hsend in Hst. rewrite Hst. clear Hst.
  assert (Hv : forall bytes,
            Forall (fun e => events.isBotEdit e = false /\ forall t, e <> EvSend t)
              (trace (validator.Validate (bot.lib env) bytes))).
  { intros bytes. unfold validator.Validate, validator.extractMetadata.
    forall_trace; cbn zeta; forall_trace; (split; [reflexivity | discriminate]). }
  assert (Hu : forall cl bytes uid md,
            Forall (fun e => events.isBotEdit e = false /\ forall t, e <> EvSend t)
              (trace (cloudflare.Upload (bot.net env) cl bytes uid md))).
  { intros cl bytes uid md. unfold cloudflare.Upload, cloudflare.buildMultipartBody.
    cbn zeta. forall_trace; (split; [reflexivity | discriminate]). }
  assert (Hsplit : forall tr : list Event,
            Forall (fun e => events.isBotEdit e = false /\ forall t, e <> EvSend t) tr ->
            events.count events.isBotEdit tr = 0%nat
            /\ forall text, ~ In (EvSend text) tr).
  { intros tr Hall. split.
    - apply count_none. eapply Forall_impl; [exact Hall |]. intros e [He _]. exact He.
    - intros text Hin. rewrite Forall_forall in Hall.
      apply list_elem_of_In, Hall in Hin as [_ Hne]. exact (Hne text eq_refl). }
  assert (Hstart : Forall (fun e => events.isBotEdit e = false /\ forall t, e <> EvSend t)
                     [EvBotSend bot.msgDownloading; EvFileByID fileID])
    by (repeat constructor; discriminate).
  assert (Hweak : forall (tr : list Event) r,
            Forall (fun e => events.isBotEdit e = false /\ forall t, e <> EvSend t) tr ->
            events.count events.isBotEdit tr = 0%nat
            /\ (forall text, In (EvSend text) tr ->
                  exists resp imageURL,
                    cloudflare.GetImageURL (Some resp) = inr imageURL
                    /\ text = Go.Sprintf bot.fmtSuccess [Go.ArgStr imageURL]
                    /\ r = Send c text)).
  { intros tr r Hall. destruct (Hsplit tr Hall) as [H0 Hno].
    split; [exact H0 |]. intros text Hin. destruct (Hno text Hin). }
  destruct (Bot_FileByID c fileID) as [err | filePath].
  { cbn [trace fst result snd]. apply Hweak. rewrite app_nil_r. exact Hstart. }
  destruct (bot.httpGet env _) as [err | [err | imageBytes]].
  { cbn [trace fst result snd]. apply Hweak. apply Forall_app. split; [exact Hstart |].
    repeat constructor; discriminate. }
  { cbn [trace fst result snd]. apply Hweak. apply Forall_app. split; [exact Hstart |].
    repeat constructor; discriminate. }
  cbn zeta.
  assert (Hfetched : Forall (fun e => events.isBotEdit e = false /\ forall t, e <> EvSend t)
            ([EvBotSend bot.msgDownloading; EvFileByID fileID] ++
             EvHTTPGet (Go.Sprintf "%s/file/bot%s/%s"
                          [Go.ArgStr (Bot_URL c); Go.ArgStr (Bot_Token c);
                           Go.ArgStr filePath])
             :: EvReadAll :: [] ++ trace (validator.Validate (bot.lib env) imageBytes))).
  { apply Forall_app. split; [exact Hstart |].
    constructor; [split; [reflexivity | discriminate] |].
    constructor; [split; [reflexivity | discriminate] |]. apply Hv. }
  destruct (result (validator.Validate (bot.lib env) imageBytes)) as [err | vr].
  { cbn [trace fst result snd]. apply Hweak. rewrite app_nil_r. exact Hfetched. }
  assert (Huploaded : Forall (fun e => events.isBotEdit e = false /\ forall t, e <> EvSend t)
            (([EvBotSend bot.msgDownloading; EvFileByID fileID] ++
              EvHTTPGet (Go.Sprintf "%s/file/bot%s/%s"
                           [Go.ArgStr (Bot_URL c); Go.ArgStr (Bot_Token c);
                            Go.ArgStr filePath])
              :: EvReadAll :: [] ++ trace (validator.Validate (bot.lib env) imageBytes))
             ++ [] ++ trace (cloudflare.Upload (bot.net env) (bot.cfClient b) imageBytes
                               (ID (Sender c)) (Some (validator.Metadata vr))))).
  { apply Forall_app. split; [exact Hfetched | apply Hu]. }
  destruct (result (cloudflare.Upload _ _ _ _ _)) as [err | resp].
  { cbn [trace fst result snd]. apply Hweak. rewrite app_nil_r. exact Huploaded. }
  destruct (cloudflare.GetImageURL (Some resp)) as [err | imageURL] eqn:Hurl.
  { cbn [trace fst result snd]. apply Hweak. rewrite app_nil_r. exact Huploaded. }
  cbn [trace fst result snd].
  destruct (Hsplit _ Huploaded) as [H0 Hno].
  split.
  - rewrite count_app, H0. reflexivity.
  - intros text Hin. apply in_app_or in Hin as [Hin | [Hin | []]].
    + destruct (Hno text Hin).
    + injection Hin as <-. exists resp, imageURL. auto.
Qed.

End PipelineMore.

(** ** The handlers: cancel, documents, other callers *)
Section HandlerMore.
Import apperrors world telebot.

Variable env : bot.Env.

(** X26: cancel. A cancel callback deletes the caller's pending entry and
    answers "cancelled", and starts nothing; it has the same effect on the
    store when repeated or when there was no entry; a confirm that follows
    finds nothing pending. *)
Theorem cancel_drops_pending (b : bot.Bot) (c : Context) (callback : Callback) :
  Callback_ c = Some callback ->
  Go.TrimSpace (Data callback) = "cancel_upload" ->
  let u := ID (Sender c) in
  let b' := bot.setPendingUploads b (delete u (bot.pendingUploads b)) in
  bot.handleCallback env b c =
    ([EvRespond; EvPendingDelete u; EvEdit bot.msgCancelled],
     (b', Edit c bot.msgCancelled))
  /\ bot.pendingUploads b' !! u = None
  /\ (result (bot.handleCallback env b' c)).1 = b'
  /\ (bot.pendingUploads b !! u = None -> b' = b)
  /\ (forall c2 callback2,
        ID (Sender c2) = u -> Callback_ c2 = Some callback2 ->
        Go.TrimSpace (Data callback2) = "confirm_upload" ->
        bot.handleCallback env b' c2 =
          ([EvRespond; EvEdit bot.msgNoPending], (b', Edit c2 bot.msgNoPending))).
Proof.
  intros Hcb Hdata u b'.
  assert (Hcancel : forall b0 : bot.Bot,
            bot.handleCallback env b0 c =
              ([EvRespond; EvPendingDelete u; EvEdit bot.msgCancelled],
               (bot.setPendingUploads b0 (delete u (bot.pendingUploads b0)),
                Edit c bot.msgCancelled))).
  { intros b0. unfold bot.handleCallback. rewrite Hcb. cbn zeta. rewrite Hdata.
    reflexivity. }
  split; [apply Hcancel |].
  assert (Hnone : bot.pendingUploads b' !! u = None) by apply lookup_delete_eq.
  split; [exact Hnone |].
  split.
  { rewrite Hcancel. cbn. unfold bot.setPendingUploads. cbn.
    rewrite delete_delete_eq. reflexivity. }
  split.
  { intros Hno. unfold b'. rewrite delete_id by exact Hno. destruct b; reflexivity. }
  intros c2 callback2 Hu2 Hcb2 Hdata2.
  apply (handleCallback_confirm_none env b' c2 callback2 Hcb2 Hdata2).
  rewrite Hu2. exact Hnone.
Qed.

(** X27: a handler touches the pending entry of its sender only. After
    [handlePhoto], [handleDocument] or [handleCallback], every other caller's
    entry is what it was, and so is the configuration. *)
Theorem other_callers_untouched (b : bot.Bot) (c : Context) (other : Z) :
  other <> ID (Sender c) ->
  let same (b' : bot.Bot) :=
    bot.pendingUploads b' !! other = bot.pendingUploads b !! other
    /\ bot.config b' = bot.config b in
  same (result (bot.handlePhoto env b c)).1
  /\ same (result (bot.handleDocument env b c)).1
  /\ same (result (bot.handleCallback env b c)).1.
Proof.
  intros Hother. cbn zeta. repeat split.
  - unfold bot.handlePhoto. cbn zeta.
    destruct (negb _); [rewrite result_bind; reflexivity |].
    destruct (Message_Photo c); rewrite !result_bind; cbn; [| reflexivity].
    apply lookup_insert_ne. congruence.
  - unfold bot.handlePhoto. cbn zeta.
    destruct (negb _); [rewrite result_bind; reflexivity |].
    destruct (Message_Photo c); rewrite !result_bind; reflexivity.
  - unfold bot.handleDocument. cbn zeta.
    destruct (negb _); [rewrite result_bind; reflexivity |].
    destruct (Message_Document c); [| rewrite result_bind; reflexivity].
    destruct (negb _); rewrite result_bind; reflexivity.
  - unfold bot.handleDocument. cbn zeta.
    destruct (negb _); [rewrite result_bind; reflexivity |].
    destruct (Message_Document c); [| rewrite result_bind; reflexivity].
    destruct (negb _); rewrite result_bind; reflexivity.
  - unfold bot.handleCallback.
    destruct (Callback_ c); [| reflexivity]. cbn zeta. rewrite result_bind.
    destruct (String.eqb _ "confirm_upload").
    + destruct (bot.pendingUploads b !! ID (Sender c));
        rewrite !result_bind; cbn; [| reflexivity].
      apply lookup_delete_ne. congruence.
    + destruct (String.eqb _ "cancel_upload"); rewrite !result_bind; cbn;
        [| reflexivity].
      apply lookup_delete_ne. congruence.
  - unfold bot.handleCallback.
    destruct (Callback_ c); [| reflexivity]. cbn zeta. rewrite result_bind.
    destruct (String.eqb _ "confirm_upload").
    + destruct (bot.pendingUploads b !! ID (Sender c));
        rewrite !result_bind; reflexivity.
    + destruct (String.eqb _ "cancel_upload"); rewrite !result_bind; reflexivity.
Qed.

(** X28: a document is never stashed, and only images are fetched. For an
    authorized caller, a document whose MIME type does not start with
    "image/" gets the unsupported-type message and nothing else happens;
    one that does goes straight to the pipeline. In both cases the bot is
    left as it was. *)
Theorem handleDocument_by_mime (b : bot.Bot) (c : Context) (doc : Document) :
  config.IsAuthorized (bot.config b) (ID (Sender c)) = true ->
  Message_Document c = Some doc ->
  bot.handleDocument env b c =
    if Go.HasPrefix (MIME doc) "image/" then
      (trace (bot.processImageUpload env b c (Document_FileID doc)),
       (b, result (bot.processImageUpload env b c (Document_FileID doc))))
    else ([EvSend bot.msgNotImage], (b, Send c bot.msgNotImage)).
Proof.
  intros Hauth Hdoc. unfold bot.handleDocument. rewrite Hauth, Hdoc. cbn [negb].
  destruct (Go.HasPrefix (MIME doc) "image/"); [| reflexivity].
  cbn [negb]. rewrite bind_eq. cbn. rewrite app_nil_r. reflexivity.
Qed.

End HandlerMore.

(** ** The logger's URL sanitizer *)
Section LoggerFacts.

Lemma IndexByte_split (s : string) (c : ascii) (i : nat) :
  gostrings.IndexByte s c = Some i ->
  exists rest,
    s = String.substring 0 i s +:+ String c rest
    /\ gostrings.IndexByte (String.substring 0 i s) c = None
    /\ String.length (String.substring 0 i s) = i.
Proof.
  revert i. induction s as [| d r IH]; intros i; cbn; [discriminate |].
  destruct (Ascii.eqb_spec d c) as [-> | Hne].
  - intros [= <-]. exists r. cbn. auto.
  - destruct (gostrings.IndexByte r c) as [j |] eqn:Hj; [| discriminate].
    cbn. intros [= <-]. destruct (IH j eq_refl) as (rest & Hr & Hnone & Hlen).
    exists rest. cbn [String.substring]. split; [| split].
    + change (String d r = String d (String.substring 0 j r +:+ String c rest)).
      f_equal. exact Hr.
    + cbn. destruct (Ascii.eqb_spec d c); [contradiction |].
      rewrite Hnone. reflexivity.
    + cbn. rewrite Hlen. reflexivity.
Qed.

Lemma IndexByte_append (p : string) (c : ascii) (rest : string) :
  gostrings.IndexByte p c = None ->
  gostrings.IndexByte (p +:+ String c rest) c = Some (String.length p).
Proof.
  induction p as [| d r IH].
  - intros _. change ("" +:+ String c rest) with (String c rest).
    cbn [gostrings.IndexByte]. rewrite Ascii.eqb_refl. reflexivity.
  - change (String d r +:+ String c rest) with (String d (r +:+ String c rest)).
    cbn [gostrings.IndexByte String.length].
    destruct (Ascii.eqb d c); [discriminate |].
    destruct (gostrings.IndexByte r c); [discriminate |].
    intros _. rewrite IH by reflexivity. reflexivity.
Qed.

Lemma substring_append (p s : string) :
  String.substring 0 (String.length p) (p +:+ s) = p.
Proof.
  induction p as [| d r IH]; [destruct s; reflexivity |].
  change (String d r +:+ s) with (String d (r +:+ s)).
  cbn [String.length String.substring]. f_equal. exact IH.
Qed.

(** X29: [sanitizeURL] returns a URL without question mark as it is;
    otherwise it keeps what stands before the first question mark and
    replaces the rest, whatever it was, by [?[REDACTED]]. Sanitizing twice
    is sanitizing once. *)
Theorem sanitizeURL_redacts (url : string) :
  (gostrings.IndexByte url "?" = None /\ logger.sanitizeURL url = url
   \/ exists prefix query,
        url = prefix +:+ "?" +:+ query
        /\ gostrings.IndexByte prefix "?" = None
        /\ logger.sanitizeURL url = prefix +:+ "?[REDACTED]")
  /\ logger.sanitizeURL (logger.sanitizeURL url) = logger.sanitizeURL url.
Proof.
  destruct (gostrings.IndexByte url "?") as [i |] eqn:Hi.
  - destruct (IndexByte_split url "?" i Hi) as (rest & Hurl & Hnone & Hlen).
    assert (Hs : logger.sanitizeURL url = String.substring 0 i url +:+ "?[REDACTED]")
      by (unfold logger.sanitizeURL; rewrite Hi; reflexivity).
    split.
    + right. exists (String.substring 0 i url), rest.
      split; [exact Hurl |]. split; [exact Hnone | exact Hs].
    + rewrite Hs. unfold logger.sanitizeURL.
      rewrite (IndexByte_append _ "?" "[REDACTED]" Hnone).
      rewrite substring_append. reflexivity.
  - assert (Hs : logger.sanitizeURL url = url)
      by (unfold logger.sanitizeURL; rewrite Hi; reflexivity).
    split; [left; split; [reflexivity | exact Hs] |]. rewrite Hs. exact Hs.
Qed.

End LoggerFacts.

(** ** Decimal text and [ParseInt] *)
Section ParseIntRoundTrip.

Lemma digit_pretty_N_char (d : N) :
  (d < 10)%N -> gostrings.digit (pretty_N_char d) = Some (Z.of_N d).
Proof.
  intros Hd.
  assert (d = 0 \/ d = 1 \/ d = 2 \/ d = 3 \/ d = 4 \/ d = 5 \/ d = 6 \/ d = 7
          \/ d = 8 \/ d = 9)%N as Hcases by lia.
  repeat (destruct Hcases as [-> | Hcases]; [reflexivity |]). subst d. reflexivity.
Qed.

(** Reading the digits [pretty_N_go] wrote in front of [s] leaves the reader
    at [s] with the number written. *)
Lemma parseUintFrom_pretty (x : N) (s : string) :
  Z.of_N x <= gostrings.maxUint64 ->
  gostrings.parseUintFrom (pretty_N_go x s) 0
    = gostrings.parseUintFrom s (Z.of_N x).
Proof.
  revert s. induction (N.lt_wf_0 x) as [x _ IH]. intros s Hmax.
  destruct (N.eq_dec x 0%N) as [-> | Hpos]; [rewrite pretty_N_go_0; reflexivity |].
  rewrite pretty_N_go_step by lia.
  assert (Hdiv : (x `div` 10 < x)%N) by (apply N.div_lt; lia).
  assert (Hmod : (x `mod` 10 < 10)%N) by (apply N.mod_lt; lia).
  rewrite IH; [| exact Hdiv | lia].
  cbn [gostrings.parseUintFrom].
  rewrite digit_pretty_N_char by exact Hmod.
  pose proof (N.div_mod x 10 ltac:(lia)) as Hdm.
  assert (Hle : Z.of_N (x `div` 10) <= gostrings.maxUint64 / 10).
  { rewrite N2Z.inj_div. apply Z.div_le_mono; [lia | exact Hmax]. }
  destruct (Z.leb_spec (gostrings.maxUint64 / 10 + 1) (Z.of_N (x `div` 10))); [lia |].
  cbn zeta.
  replace (Z.of_N (x `div` 10) * 10 + Z.of_N (x `mod` 10)) with (Z.of_N x) by lia.
  destruct (Z.ltb_spec gostrings.maxUint64 (Z.of_N x)); [lia | reflexivity].
Qed.

Lemma ParseInt_digits (p : positive) :
  Z.pos p <= 2 ^ 63 ->
  exists c r,
    pretty_N_go (N.pos p) "" = String c r
    /\ Ascii.eqb c "+" = false /\ Ascii.eqb c "-" = false
    /\ gostrings.ParseUint (String c r) = inr (Z.pos p).
Proof.
  intros Hp.
  assert (Hread : gostrings.parseUintFrom (pretty_N_go (N.pos p) "") 0
                  = inr (Z.pos p)).
  { rewrite parseUintFrom_pretty; [reflexivity |].
    unfold gostrings.maxUint64. cbn [Z.of_N]. lia. }
  destruct (pretty_N_go (N.pos p) "") as [| c r]; [discriminate |].
  exists c, r. split; [reflexivity |].
  cbn [gostrings.parseUintFrom] in Hread.
  destruct (gostrings.digit c) eqn:Hd; [| discriminate].
  split; [| split].
  - destruct (Ascii.eqb_spec c "+") as [-> |]; [discriminate | reflexivity].
  - destruct (Ascii.eqb_spec c "-") as [-> |]; [discriminate | reflexivity].
  - cbn [gostrings.ParseUint gostrings.parseUintFrom]. rewrite Hd. exact Hread.
Qed.

(** Round trip. The decimal text [%d] writes for an [int64] is read
    back by [ParseInt] as the same number: the ID a reply shows, given back
    as the argument of a command, names the same user. *)
Theorem ParseInt_Sprintf (n : Z) :
  - 2 ^ 63 <= n <= 2 ^ 63 - 1 ->
  gostrings.ParseInt (Go.Sprintf "%d" [Go.ArgInt n]) = inr n.
Proof.
  intros Hn.
  assert (Hfmt : Go.Sprintf "%d" [Go.ArgInt n] = pretty n)
    by (cbn; apply append_empty_r).
  rewrite Hfmt. destruct n as [| p | p].
  - reflexivity.
  - destruct (ParseInt_digits p ltac:(lia)) as (c & r & Hs & Hplus & Hminus & Hun).
    change (pretty (Z.pos p)) with (pretty_N_go (N.pos p) ""). rewrite Hs.
    unfold gostrings.ParseInt. rewrite Hplus, Hminus. cbn [orb]. cbn zeta.
    rewrite Hun. cbn [negb andb].
    destruct (Z.leb_spec (2 ^ 63) (Z.pos p)); [lia | reflexivity].
  - destruct (ParseInt_digits p ltac:(lia)) as (c & r & Hs & Hplus & Hminus & Hun).
    change (pretty (Z.neg p)) with (String "-" (pretty_N_go (N.pos p) "")).
    rewrite Hs. unfold gostrings.ParseInt.
    change (Ascii.eqb "-" "-") with true. change (Ascii.eqb "-" "+") with false.
    cbn [orb]. cbn zeta. rewrite Hun. cbn [negb andb].
    destruct (Z.ltb_spec (2 ^ 63) (Z.pos p)); [lia | reflexivity].
Qed.

End ParseIntRoundTrip.

(** ** The earlier validator *)
Section LegacyValidatorFacts.
Import apperrors world.

Variable lib : validator.Lib.

Lemma basic_lookup (format : string) (imgConfig : image.Config)
    (imageBytes : list Byte.byte) (metadata : gmap string Value) :
  let m := legacy_validator.basic format imgConfig imageBytes metadata in
  m !! "format" = Some (VStr format)
  /\ m !! "width" = Some (VInt (image.Width imgConfig))
  /\ m !! "height" = Some (VInt (image.Height imgConfig))
  /\ m !! "file_size" = Some (VInt (Go.len imageBytes))
  /\ dom m = ({[ "format"; "width"; "height"; "file_size" ]} : gset string) ∪ dom metadata.
Proof.
  cbn zeta. unfold legacy_validator.basic.
  repeat split; try (by simplify_map_eq).
  rewrite !dom_insert_L. set_solver.
Qed.

(** X30: the earlier [ValidateImage] puts the decoded format, width and
    height and the payload's length into every result's metadata, under
    [format], [width], [height], [file_size], with or without the size
    guard; the other keys are among [camera_make], [camera_model],
    [date_time]. The filter of the earlier [UploadImage] keeps the four, so
    that version forwards the dimensions and the size. *)
Theorem ValidateImage_metadata (b : list Byte.byte)
    (r : legacy_validator.ValidationResult) :
  result (legacy_validator.ValidateImage lib b) = inr r ->
  legacy_validator.IsValid r = true
  /\ exists imgConfig format,
       validator.DecodeConfig lib b = inr (imgConfig, format)
       /\ (let kept := filter (fun kv : string * Value =>
                                 Is_true (legacy_cloudflare.isKept kv.1))
                         (legacy_validator.Metadata r) in
           forall m, m = legacy_validator.Metadata r \/ m = kept ->
             m !! "format" = Some (VStr format)
             /\ m !! "width" = Some (VInt (image.Width imgConfig))
             /\ m !! "height" = Some (VInt (image.Height imgConfig))
             /\ m !! "file_size" = Some (VInt (Go.len b)))
       /\ dom (legacy_validator.Metadata r)
            ⊆ ({[ "format"; "width"; "height"; "file_size";
                  "camera_make"; "camera_model"; "date_time" ]} : gset string).
Proof.
  unfold legacy_validator.ValidateImage.
  destruct (_ <? Go.len b); [discriminate |].
  rewrite result_bind. cbn [result call snd].
  destruct (validator.DecodeConfig lib b) as [err | [imgConfig format]]; [discriminate |].
  destruct (_ || _)%bool; [discriminate |]. cbn zeta.
  destruct (_ <? Go.int_mul _ _); [discriminate |].
  rewrite !result_bind. cbn [result call ret snd].
  set (extracted := result _).
  assert (Hext : dom extracted
            ⊆ ({[ "camera_make"; "camera_model"; "date_time" ]} : gset string)).
  { unfold extracted. destruct (String.eqb format "jpeg"); [| cbn; set_solver].
    rewrite result_bind. cbn [result call snd].
    destruct (validator.exifDecode lib b) as [err | exifData]; [cbn; set_solver |].
    cbn [result ret snd].
    pose proof (dom_setTag exifData exif.DateTime "date_time"
      (validator.setTag exifData exif.Model "camera_model"
         (validator.setTag exifData exif.Make "camera_make" ∅))) as H1.
    pose proof (dom_setTag exifData exif.Model "camera_model"
      (validator.setTag exifData exif.Make "camera_make" ∅)) as H2.
    pose proof (dom_setTag exifData exif.Make "camera_make"
      (∅ : gmap string Value)) as H3.
    rewrite dom_empty_L in H3. set_solver. }
  intros [= <-]. split; [reflexivity |].
  exists imgConfig, format. split; [reflexivity |].
  cbn [legacy_validator.Metadata].
  assert (Hboth : forall md : gmap string Value,
            dom md ⊆ ({[ "camera_make"; "camera_model"; "date_time" ]} : gset string) ->
            let full := legacy_validator.basic format imgConfig b md in
            (forall m, m = full \/
                       m = filter (fun kv : string * Value =>
                                     Is_true (legacy_cloudflare.isKept kv.1)) full ->
               m !! "format" = Some (VStr format)
               /\ m !! "width" = Some (VInt (image.Width imgConfig))
               /\ m !! "height" = Some (VInt (image.Height imgConfig))
               /\ m !! "file_size" = Some (VInt (Go.len b)))
            /\ dom full ⊆ ({[ "format"; "width"; "height"; "file_size";
                              "camera_make"; "camera_model"; "date_time" ]}
                            : gset string)).
  { intros md Hmd full.
    destruct (basic_lookup format imgConfig b md) as (Hf & Hw & Hh & Hs & Hdom).
    fold full in Hf, Hw, Hh, Hs, Hdom.
    split.
    - intros m [-> | ->]; [auto |].
      repeat split; apply map_lookup_filter_Some; (split; [assumption | exact I]).
    - rewrite Hdom. set_solver. }
  destruct (_ <? Go.strlen _).
  - apply (Hboth ∅). rewrite dom_empty_L. set_solver.
  - apply (Hboth extracted Hext).
Qed.

End LegacyValidatorFacts.

(** ** Runs of the further properties on the sample inputs *)

(** Roster [7]: after 7 is removed, a second removal finds nothing. *)
Lemma RemoveAuthorizedUser_twice_witness :
  config.IsAuthorized
    (world.result (config.RemoveAuthorizedUser fixtures.disk sample.cfg 7)).1 7 = false
  /\ config.RemoveAuthorizedUser fixtures.disk
       (world.result (config.RemoveAuthorizedUser fixtures.disk sample.cfg 7)).1 7 =
       ([], ((world.result (config.RemoveAuthorizedUser fixtures.disk sample.cfg 7)).1,
             Some (apperrors.New apperrors.ErrUserNotFound
                     (Go.Sprintf "user %d is not in authorized list" [Go.ArgInt 7])))).
Proof.
  apply (RemoveAuthorizedUser_twice fixtures.disk sample.cfg 7).
  - apply NoDup_singleton.
  - discriminate.
  - apply list_elem_of_here.
Defined.

(** Roster [7; 8; 7]: after one removal of 7, the roster is [8; 7]. *)
Lemma RemoveAuthorizedUser_first_occurrence_witness :
  config.inList
    (config.AuthorizedUsers
       (world.result (config.RemoveAuthorizedUser fixtures.disk fixtures.doubled 7)).1)
    7 = true.
Proof.
  destruct (RemoveAuthorizedUser_first_occurrence fixtures.disk fixtures.doubled 7)
    as [_ [_ Htwice]]; [discriminate | reflexivity |].
  apply Htwice. cbn. lia.
Defined.

Lemma roster_NoDup_kept_witness :
  NoDup (config.AuthorizedUsers
           (world.result (config.AddAuthorizedUser fixtures.disk sample.cfg 5)).1)
  /\ NoDup (config.AuthorizedUsers
              (world.result (config.RemoveAuthorizedUser fixtures.disk sample.cfg 5)).1).
Proof.
  apply (roster_NoDup_kept fixtures.disk sample.cfg 5). apply NoDup_singleton.
Defined.

(** 5 is added on a disk that refuses the write and removed on one that
    accepts it. *)
Lemma add_then_remove_witness :
  config.IsAuthorized
    (world.result (config.AddAuthorizedUser sample.readOnly sample.cfg 5)).1 5 = true
  /\ (world.result
        (config.RemoveAuthorizedUser fixtures.disk
           (world.result (config.AddAuthorizedUser sample.readOnly sample.cfg 5)).1 5)).1
     = sample.cfg.
Proof.
  apply (add_then_remove sample.readOnly fixtures.disk sample.cfg 5). reflexivity.
Defined.

Lemma roster_mutation_frame_witness :
  config.IsAuthorized
    (world.result (config.AddAuthorizedUser fixtures.disk sample.cfg 5)).1 7
    = config.IsAuthorized sample.cfg 7
  /\ config.IsAuthorized
       (world.result (config.RemoveAuthorizedUser fixtures.disk sample.cfg 5)).1 7
     = config.IsAuthorized sample.cfg 7.
Proof.
  apply (roster_mutation_frame fixtures.disk sample.cfg 5 7). discriminate.
Defined.

(** Only [config.yml] exists, in the working directory. *)
Lemma findConfigFile_order_witness :
  configload.findConfigFile (fixtures.os fixtures.parsed) = "config.yml".
Proof.
  destruct (findConfigFile_order (fixtures.os fixtures.parsed)) as [_ [H _]].
  apply H; [discriminate | reflexivity].
Defined.

Lemma Load_result_witness :
  configload.Load (fixtures.os fixtures.parsed) "" = inr fixtures.loaded
  /\ config.configPath fixtures.loaded = "config.yml"
  /\ config.Logging_Level fixtures.loaded <> "".
Proof.
  assert (Hload : configload.Load (fixtures.os fixtures.parsed) "" = inr fixtures.loaded)
    by reflexivity.
  destruct (Load_result (fixtures.os fixtures.parsed) "" fixtures.loaded
              fixtures.disk Hload) as [_ [_ [[Hlevel _] _]]].
  split; [exact Hload |]. split; [reflexivity | exact Hlevel].
Defined.

(** Caller 7 is authorized and no administrator. *)
Lemma commands_need_admin_witness :
  commands.handleAuth fixtures.disk sample.theBot (fixtures.message 7 "/auth 9") =
    ([world.EvSend commands.msgAdminOnly], (sample.theBot, None))
  /\ commands.handleUnauth fixtures.disk sample.theBot (fixtures.message 7 "/auth 9") =
       ([world.EvSend commands.msgAdminOnly], (sample.theBot, None)).
Proof.
  apply (commands_need_admin fixtures.disk sample.theBot (fixtures.message 7 "/auth 9")).
  reflexivity.
Defined.


(** The administrator authorizes 9 and takes the authorization back. *)
Lemma auth_then_unauth_witness :
  config.IsAuthorized
    (bot.config (world.result (commands.handleAuth sample.readOnly sample.theBot
                                 (fixtures.message 1 "/auth 9"))).1) 9 = true
  /\ (world.result
        (commands.handleUnauth fixtures.disk
           (world.result (commands.handleAuth sample.readOnly sample.theBot
                            (fixtures.message 1 "/auth 9"))).1
           (fixtures.message 1 "/unauth 9"))).1 = sample.theBot.
Proof.
  apply (auth_then_unauth sample.readOnly fixtures.disk sample.theBot
           (fixtures.message 1 "/auth 9") (fixtures.message 1 "/unauth 9")
           "/auth" "/unauth" "9" 9); reflexivity.
Defined.

Lemma Validate_result_valid_witness :
  validator.Width sample.validated <= 12000
  /\ validator.Size sample.validated = Go.len sample.jpeg.
Proof.
  assert (Hval : world.result (validator.Validate sample.lib sample.jpeg) =
                   inr sample.validated) by (vm_compute; reflexivity).
  destruct (Validate_result_valid sample.lib sample.jpeg sample.validated Hval)
    as [_ [Hsize [_ [_ [Hw _]]]]].
  exact (conj Hw Hsize).
Defined.

(** A JPEG of 15000 x 8000 pixels. *)
Lemma Validate_dimension_too_big_witness :
  validator.Validate sample.lib fixtures.wideJPEG =
    ([world.EvDecodeConfig],
     inl (apperrors.New apperrors.ErrImageTooBig
            "image dimensions 15000x8000 exceed limit 12000")).
Proof.
  apply (Validate_dimension_too_big sample.lib fixtures.wideJPEG
           {| image.Width := 15000; image.Height := 8000 |} "jpeg").
  - vm_compute. discriminate.
  - reflexivity.
  - left. reflexivity.
Defined.

(** The sample JPEG under a serializer that is always over the budget. *)
Lemma Validate_metadata_fallback_witness :
  dom (validator.Metadata fixtures.guarded)
    = ({[ "format"; "width"; "height"; "size" ]} : gset string)
  /\ cloudflare.filterMetadata (validator.Metadata fixtures.guarded) !! "size" = None.
Proof.
  assert (Hval : world.result (validator.Validate fixtures.verbose sample.jpeg) =
                   inr fixtures.guarded) by (vm_compute; reflexivity).
  destruct (Validate_metadata_fallback fixtures.verbose sample.jpeg fixtures.guarded Hval)
    as [_ [Hdom [_ Hsize]]]; [vm_compute; reflexivity |].
  exact (conj Hdom Hsize).
Defined.

(** The service answers 403 with the message "bad token". *)
Lemma Upload_refused_witness :
  world.result (cloudflare.Upload (fixtures.refusing ["bad token"])
                  (bot.cfClient sample.theBot) sample.jpeg 7 None) =
    inl (apperrors.New apperrors.ErrCloudflareAPI "API errors: [bad token]").
Proof.
  destruct (Upload_refused (fixtures.refusing ["bad token"])
              (bot.cfClient sample.theBot) sample.jpeg 7 None 403 [] fixtures.refusal)
    as [Hres _]; [reflexivity .. |].
  exact Hres.
Defined.

(** Telegram no longer knows the file. *)
Lemma download_failure_stops_witness :
  world.result (bot.processImageUpload sample.served sample.theBot
                  (sample.offline 7 None) "d1") =
    Some (apperrors.Wrap apperrors.ErrDownloadFailed "failed to get file info"
            (apperrors.errorString "telegram: file not found"))
  /\ events.count events.isGet
       (world.trace (bot.processImageUpload sample.served sample.theBot
                       (sample.offline 7 None) "d1")) = 0%nat.
Proof.
  destruct (download_failure_stops sample.served sample.theBot (sample.offline 7 None)
              "d1" (apperrors.errorString "telegram: file not found")) as [Hfile _].
  destruct (Hfile eq_refl) as [[Hres _] Hget].
  exact (conj Hres Hget).
Defined.

(** Caller 7 sends a JPEG of 15000 x 8000 pixels as a document. *)
Lemma validation_failure_skips_upload_witness :
  world.result (bot.processImageUpload (sample.env fixtures.wideJPEG [])
                  sample.theBot sample.document "d1") =
    Some (apperrors.New apperrors.ErrImageTooBig
            "image dimensions 15000x8000 exceed limit 12000")
  /\ events.count events.isPost
       (world.trace (bot.processImageUpload (sample.env fixtures.wideJPEG [])
                       sample.theBot sample.document "d1")) = 0%nat.
Proof.
  destruct (validation_failure_skips_upload (sample.env fixtures.wideJPEG [])
              sample.theBot sample.document "d1" "photos/d1" fixtures.wideJPEG
              (apperrors.New apperrors.ErrImageTooBig
                 "image dimensions 15000x8000 exceed limit 12000")
              eq_refl eq_refl eq_refl) as [Hres [Hpost _]].
  exact (conj Hres Hpost).
Defined.

(** The status message cannot be sent; the upload succeeds. *)
Lemma unsent_status_stays_silent_witness :
  events.count events.isBotEdit
    (world.trace (bot.processImageUpload sample.served sample.theBot
                    fixtures.muted "d1")) = 0%nat.
Proof.
  destruct (unsent_status_stays_silent sample.served sample.theBot fixtures.muted "d1"
              (apperrors.errorString "telegram: Too Many Requests") eq_refl)
    as [Hedit _].
  exact Hedit.
Defined.

(** Caller 7 has a photo pending and presses cancel. *)
Lemma cancel_drops_pending_witness :
  bot.handleCallback sample.served sample.waiting fixtures.cancel =
    ([world.EvRespond; world.EvPendingDelete 7; world.EvEdit bot.msgCancelled],
     (bot.setPendingUploads sample.waiting
        (delete 7 (bot.pendingUploads sample.waiting)), None)).
Proof.
  destruct (cancel_drops_pending sample.served sample.waiting fixtures.cancel
              (telebot.mkCallback "cancel_upload") eq_refl eq_refl) as [H _].
  exact H.
Defined.

(** Caller 7 waits for a confirmation while caller 1 sends a photo. *)
Lemma other_callers_untouched_witness :
  bot.pendingUploads
    (world.result (bot.handlePhoto sample.served sample.waiting
                     (sample.context 1 (Some "q") None None))).1 !! 7
    = Some "p1".
Proof.
  destruct (other_callers_untouched sample.served sample.waiting
              (sample.context 1 (Some "q") None None) 7) as [[H _] _];
    [discriminate |].
  rewrite H. reflexivity.
Defined.

Lemma handleDocument_by_mime_witness :
  bot.handleDocument sample.served sample.theBot fixtures.pdf =
    ([world.EvSend bot.msgNotImage], (sample.theBot, None)).
Proof.
  exact (handleDocument_by_mime sample.served sample.theBot fixtures.pdf
           (telebot.mkDocument "d2" "application/pdf") eq_refl eq_refl).
Defined.

Lemma ValidateImage_metadata_witness :
  legacy_validator.Metadata fixtures.legacyValidated !! "width" = Some (world.VInt 32)
  /\ legacy_validator.Metadata fixtures.legacyValidated !! "file_size"
       = Some (world.VInt 13).
Proof.
  assert (Hval : world.result (legacy_validator.ValidateImage sample.lib sample.jpeg) =
                   inr fixtures.legacyValidated) by (vm_compute; reflexivity).
  destruct (ValidateImage_metadata sample.lib sample.jpeg fixtures.legacyValidated Hval)
    as [_ (imgConfig & format & Hdec & Hkeys & _)].
  injection Hdec as <- <-.
  destruct (Hkeys _ (or_introl eq_refl)) as (_ & Hw & _ & Hs).
  exact (conj Hw Hs).
Defined.
